(** * mrext: the NFC service (cmd/nfc/main.go) and the remote launcher
      handler (cmd/remote/games/launchers.go)

    A shallow embedding of the poll loop, the control socket, device
    opening, write mode and the LaunchGame HTTP handler.  Device, clock,
    supervisor and file-system answers are inputs of the functions;
    what the code does to the outside world is returned as a list of
    effects, in program order.  Calls to the logger are left out. *)

From Stdlib Require Import ZArith List String Ascii Bool Lia DecimalString.
From Stdlib Require Import Strings.Byte.
From Stdlib Require Import DecimalPos.
Import ListNotations.
Local Open Scope string_scope.
Local Open Scope list_scope.
Local Open Scope Z_scope.

(* ================================================================== *)
(** ** Go's [time] package, as far as the service uses it *)

Module time.
(** A [Duration] is an int64 count of nanoseconds. *)
Definition Duration := Z.
(** An instant, in nanoseconds since the Unix epoch. *)
Definition Time := Z.

Definition Millisecond : Duration := 1000000.
Definition Second : Duration := 1000000000.
Definition maxDuration : Duration := 9223372036854775807.
Definition minDuration : Duration := -9223372036854775808.

(** [time.Time{}]: January 1 of year 1, 00:00 UTC. *)
Definition zero : Time := -62135596800 * Second.

(** [t.Sub(u)] saturates at the ends of int64. *)
Definition Sub (t u : Time) : Duration :=
  Z.max minDuration (Z.min maxDuration (t - u)).

(** [time.Since(t)], with [now] the clock reading. *)
Definition Since (now t : Time) : Duration := Sub now t.

(** [t.Unix()]: whole seconds since the epoch. *)
Definition Unix (t : Time) : Z := t / Second.
End time.

(* ================================================================== *)
(** ** Errors *)

Module nfc.
(** [nfc.Error]: the error codes of libnfc. *)
Inductive Error :=
| EIO | EINVARG | EDEVNOTSUPP | ENOTSUCHDEV | EOVFLOW | ETIMEOUT
| EOPABORTED | ENOTIMPL | ETGRELEASED | ERFTRANS | EMFCAUTHFAIL
| ESOFT | ECHIP.

Definition Error_eq_dec (a b : Error) : {a = b} + {a <> b}.
Proof. decide equality. Defined.

Definition Error_eqb (a b : Error) : bool :=
  if Error_eq_dec a b then true else false.
End nfc.

(** A Go [error] value.  [Errorf prefix cause] is
    [fmt.Errorf(prefix + "%s", cause)]: the cause is formatted with the
    verb s, so the new error does not wrap it. *)
Inductive error :=
| NfcError (e : nfc.Error)
| Errorf (prefix : string) (cause : error)
| OtherError (msg : string).

(** [errors.Is(err, nfc.Error(target))]; [None] is the nil error. *)
Definition errors_Is (err : option error) (target : nfc.Error) : bool :=
  match err with
  | Some (NfcError e) => nfc.Error_eqb e target
  | _ => false
  end.

Definition is_err (err : option error) : bool :=
  match err with Some _ => true | None => false end.

(* ================================================================== *)
(** ** Constants of cmd/nfc/main.go *)

Definition connectMaxTries : Z := 10.
Definition timesToPoll : Z := 20.
Definition periodBetweenPolls : time.Duration := 300 * time.Millisecond.
Definition periodBetweenLoop : time.Duration := 300 * time.Millisecond.
Definition timeToForgetCard : time.Duration := 5 * time.Second.

(* ================================================================== *)
(** ** Card and ServiceState *)

Record Card := {
  CardType : string;
  UID : string;
  Text : string;
  ScanTime : time.Time
}.

(** [Card{}] *)
Definition emptyCard : Card :=
  {| CardType := ""; UID := ""; Text := ""; ScanTime := time.zero |}.

(** The fields of [ServiceState] that the code below reads or writes.
    Every method takes the mutex for its whole body, so each is one
    atomic function on the record.  The database maps and their load
    time are only used by [loadDatabase] and [launchCard], which are
    inputs here. *)
Record ServiceState := {
  activeCard : Card;
  lastScanned : Card;
  stopService : bool;
  disableLauncher : bool
}.

(** [&ServiceState{}] *)
Definition newServiceState : ServiceState :=
  {| activeCard := emptyCard; lastScanned := emptyCard;
     stopService := false; disableLauncher := false |}.

Definition SetActiveCard (s : ServiceState) (card : Card) : ServiceState :=
  {| activeCard := card;
     lastScanned := if String.eqb (UID card) "" then lastScanned s else card;
     stopService := stopService s;
     disableLauncher := disableLauncher s |}.

Definition GetActiveCard (s : ServiceState) : Card := activeCard s.
Definition GetLastScanned (s : ServiceState) : Card := lastScanned s.

Definition StopService (s : ServiceState) : ServiceState :=
  {| activeCard := activeCard s; lastScanned := lastScanned s;
     stopService := true; disableLauncher := disableLauncher s |}.

Definition ShouldStopService (s : ServiceState) : bool := stopService s.
Definition IsLauncherDisabled (s : ServiceState) : bool := disableLauncher s.

Definition set_disableLauncher (s : ServiceState) (b : bool) : ServiceState :=
  {| activeCard := activeCard s; lastScanned := lastScanned s;
     stopService := stopService s; disableLauncher := b |}.

(** What the service does to the outside world. *)
Inductive Sound := Success | Fail.

Inductive Effect :=
| Aplay (snd : Sound)               (* exec aplay successPath / failPath *)
| WriteScanFile (contents : string) (* writeScanResult: NfcLastScanFile *)
| LaunchCard                        (* launchCard(cfg, state, kbd) *)
| Sleep (d : time.Duration)
| CreateDisabledFile                (* os.Create(launcherDisabledPath) *)
| RemoveDisabledFile                (* os.Remove(launcherDisabledPath) *)
| ConnWrite (payload : string).     (* conn.Write([]byte(payload)) *)

Definition DisableLauncher (s : ServiceState) : ServiceState * list Effect :=
  (set_disableLauncher s true, [CreateDisabledFile]).

Definition EnableLauncher (s : ServiceState) : ServiceState * list Effect :=
  (set_disableLauncher s false, [RemoveDisabledFile]).

(** [config.NfcConfig] *)
Record NfcConfig := {
  ConnectionString : string;
  ProbeDevice : bool;
  DisableSounds : bool
}.

(* ================================================================== *)
(** ** What package main uses from outside src/ *)

(** The card helpers of package main that are declared in other files
    ([getCardUID], [getCardType], [ParseRecordText] and the two type
    names), the target type of the nfc library and [strings.TrimSpace].
    The service is defined over any choice of them. *)
Class Imports := {
  Target : Type;
  getCardUID : Target -> string;
  getCardType : Target -> string;
  TypeNTAG : string;
  TypeMifare : string;
  ParseRecordText : list byte -> string;
  TrimSpace : string -> string
}.

Section Service.
Context {I : Imports}.

(** The answer of [pnd.InitiatorPollTarget]. *)
Record PollAnswer := {
  count : Z;
  target : Target;
  poll_err : option error
}.

(** What the device and the clock answer during one call of
    [pollDevice]: the poll, the two card reads (used only when the call
    reaches them) and the clock reading. *)
Record DeviceIO := {
  polled : PollAnswer;
  readNtag : list byte * option error;
  readMifare : list byte * option error;
  now : time.Time
}.

Definition pollDevice (io : DeviceIO) (activeCard : Card)
  : Card * option error :=
  let err := poll_err (polled io) in
  if is_err err && negb (errors_Is err nfc.ETIMEOUT) then (activeCard, err)
  else if count (polled io) <=? 0 then
    if negb (String.eqb (UID activeCard) "")
       && (timeToForgetCard <? time.Since (now io) (ScanTime activeCard))
    then (emptyCard, None)
    else (activeCard, None)
  else
    let cardUid := getCardUID (target (polled io)) in
    if String.eqb cardUid (UID activeCard) then (activeCard, None)
    else
      let cardType := getCardType (target (polled io)) in
      let ntag := String.eqb cardType TypeNTAG in
      match (if ntag then snd (readNtag io) else None) with
      | Some e => (activeCard, Some (Errorf "error reading ntag: " e))
      | None =>
          let record := if ntag then fst (readNtag io) else [] in
          let cardType := if ntag then TypeNTAG else cardType in
          let mifare := String.eqb cardType TypeMifare in
          let record := if mifare then fst (readMifare io) else record in
          let cardType := if mifare then TypeMifare else cardType in
          ({| CardType := cardType; UID := cardUid;
              Text := ParseRecordText record; ScanTime := now io |}, None)
      end.

(* ------------------------------------------------------------------ *)
(** *** One iteration of the poll loop *)

(** Inputs of one iteration besides the device: the result of
    [launchCard] if it is called, and the clock readings of
    [time.Since(lastError)] and of [lastError = time.Now()]. *)
Record TickIO := {
  device : DeviceIO;
  launch_err : option error;
  now_check : time.Time;
  now_mark : time.Time
}.

Definition playSuccess (cfg : NfcConfig) : list Effect :=
  if DisableSounds cfg then [] else [Aplay Success].

Definition playFail (cfg : NfcConfig) : list Effect :=
  if DisableSounds cfg then [] else [Aplay Fail].

(** [if time.Since(lastError) > 1*time.Second { playFail() }] *)
Definition playFailLimited (cfg : NfcConfig) (now lastError : time.Time)
  : list Effect :=
  if 1 * time.Second <? time.Since now lastError then playFail cfg else [].

(** [fmt.Sprintf("%s,%s", card.UID, card.Text)] *)
Definition scanResult (card : Card) : string :=
  (UID card ++ "," ++ Text card)%string.

Inductive Next := GotoReconnect | GotoEnd.

Record TickResult := {
  state' : ServiceState;
  lastError' : time.Time;
  effects : list Effect;
  next : Next
}.

(** The body of the [for] loop after the stop check (lines 383-430).
    The iteration is one atomic step on the shared state: the other
    goroutines write only [stopService] and [disableLauncher]; the
    iteration reads [disableLauncher] once and [stopService] not at
    all. *)
Definition loopBody (cfg : NfcConfig) (io : TickIO) (state : ServiceState)
    (lastError : time.Time) : TickResult :=
  let activeCard := GetActiveCard state in
  let (newScanned, err) := pollDevice (device io) activeCard in
  if errors_Is err nfc.EIO then
    {| state' := state; lastError' := lastError;
       effects := playFailLimited cfg (now_check io) lastError;
       next := GotoReconnect |}
  else if is_err err then
    {| state' := state; lastError' := now_mark io;
       effects := playFailLimited cfg (now_check io) lastError
                  ++ [Sleep periodBetweenLoop];
       next := GotoEnd |}
  else
    let state := SetActiveCard state newScanned in
    if String.eqb (UID newScanned) ""
       || String.eqb (UID activeCard) (UID newScanned) then
      {| state' := state; lastError' := lastError;
         effects := [Sleep periodBetweenLoop]; next := GotoEnd |}
    else
      let arrival := playSuccess cfg ++ [WriteScanFile (scanResult newScanned)] in
      if IsLauncherDisabled state then
        {| state' := state; lastError' := lastError;
           effects := arrival ++ [Sleep periodBetweenLoop]; next := GotoEnd |}
      else if is_err (launch_err io) then
        {| state' := state; lastError' := now_mark io;
           effects := arrival ++ [LaunchCard]
                      ++ playFailLimited cfg (now_check io) lastError
                      ++ [Sleep periodBetweenLoop];
           next := GotoEnd |}
      else
        {| state' := state; lastError' := lastError;
           effects := arrival ++ [LaunchCard; Sleep periodBetweenLoop];
           next := GotoEnd |}.

(* ------------------------------------------------------------------ *)
(** *** Opening the device *)

(** The entries of /dev/serial/by-id/ as (name, is a directory), or
    [None] when the directory cannot be read. *)
Definition getSerialDeviceList (dir : option (list (string * bool)))
  : list string :=
  match dir with
  | None => []
  | Some files =>
      map (fun v => ("/dev/serial/by-id/" ++ fst v)%string)
          (filter (fun v => negb (snd v)) files)
  end.

(** Answers to one run of [openDeviceWithRetries]: the directory
    listing and the result of the k-th call of [nfc.Open] (counted from
    0 within the run), given its connection string. *)
Record OpenIO := {
  serialDir : option (list (string * bool));
  nfcOpen : nat -> string -> option error
}.

(** Returns the connection string and the number of [nfc.Open] calls
    made, starting from call number [k]. *)
Fixpoint detectFrom (opens : nat -> string -> option error) (k : nat)
    (devices : list string) : string * nat :=
  match devices with
  | [] => ("", k)
  | device :: rest =>
      let connectionString := ("pn532_uart:" ++ device)%string in
      match opens k connectionString with
      | None => (connectionString, S k)
      | Some _ => detectFrom opens (S k) rest
      end
  end.

Definition detectConnectionString (oio : OpenIO) : string * nat :=
  detectFrom (nfcOpen oio) 0%nat (getSerialDeviceList (serialDir oio)).

(** The retry loop of [openDeviceWithRetries]; one unit of fuel per
    iteration.  The result is the error of the last [nfc.Open] and the
    value of [tries] at the return. *)
Fixpoint openLoop (fuel : nat) (opens : nat -> string -> option error)
    (connectionString : string) (k : nat) (tries : Z)
  : option (option error * Z) :=
  match fuel with
  | O => None
  | S fuel =>
      match opens k connectionString with
      | None => Some (None, tries)
      | Some e =>
          if tries >=? connectMaxTries then Some (Some e, tries)
          else openLoop fuel opens connectionString (S k) (tries + 1)
      end
  end.

Definition openDeviceWithRetries (fuel : nat) (config : NfcConfig)
    (oio : OpenIO) : option (option error * Z) :=
  let (connectionString, k) :=
    if String.eqb (ConnectionString config) "" && ProbeDevice config
    then detectConnectionString oio
    else (ConnectionString config, 0%nat) in
  openLoop fuel (nfcOpen oio) connectionString k 0.

(* ------------------------------------------------------------------ *)
(** *** The poll goroutine *)

Inductive ExitReason :=
| OpenFailed (e : error)   (* line 359 *)
| InitFailed (e : error)   (* line 371 *)
| StopRequested.           (* line 380, then the end of the function *)

(** Where the goroutine stands: at the label [reconnect], at the top of
    the [for] loop with its [lastError], or returned. *)
Inductive Poller :=
| Connecting
| Polling (lastError : time.Time)
| Exited (why : ExitReason).

(** Answers for the goroutine's next stretch of code: from [reconnect]
    to the loop, or one iteration of the loop. *)
Record PollerIO := {
  open_io : OpenIO;
  init_err : option error;   (* pnd.InitiatorInit() *)
  tick_io : TickIO
}.

(** Fuel for the retry loop: one attempt and [connectMaxTries] retries. *)
Definition openFuel : nat := S (Z.to_nat connectMaxTries).

Definition pollerStep (cfg : NfcConfig) (io : PollerIO)
    (state : ServiceState) (p : Poller)
  : ServiceState * Poller * list Effect :=
  match p with
  | Connecting =>
      match openDeviceWithRetries openFuel cfg (open_io io) with
      | None => (state, Connecting, [])
      | Some (Some e, _) => (state, Exited (OpenFailed e), [])
      | Some (None, _) =>
          match init_err io with
          | Some e => (state, Exited (InitFailed e), [])
          | None => (state, Polling time.zero, [])
          end
      end
  | Polling lastError =>
      if ShouldStopService state then (state, Exited StopRequested, [])
      else
        let r := loopBody cfg (tick_io io) state lastError in
        match next r with
        | GotoReconnect => (state' r, Connecting, effects r)
        | GotoEnd => (state' r, Polling (lastError' r), effects r)
        end
  | Exited why => (state, Exited why, [])
  end.

(* ------------------------------------------------------------------ *)
(** *** The control socket *)

(** The result of [conn.Read(buf)]: an error, or the bytes read. *)
Inductive ReadResult :=
| ReadError (e : error)
| ReadBytes (data : string).

(** The verbs t and d of [fmt.Sprintf]. *)
Definition formatBool (b : bool) : string := if b then "true" else "false".
Definition formatInt (z : Z) : string := NilZero.string_of_int (Z.to_int z).

(** The payload of the [status] case (lines 479-490). *)
Definition statusPayload (state : ServiceState) : string :=
  let lastScanned := GetLastScanned state in
  if negb (String.eqb (UID lastScanned) "") then
    (formatInt (time.Unix (ScanTime lastScanned)) ++ "," ++
     UID lastScanned ++ "," ++
     formatBool (negb (IsLauncherDisabled state)) ++ "," ++
     Text lastScanned)%string
  else
    ("0,," ++ formatBool (negb (IsLauncherDisabled state)) ++ ",")%string.

(** The goroutine started for one accepted connection (lines 452-506). *)
Definition handleConn (rd : ReadResult) (state : ServiceState)
  : ServiceState * list Effect :=
  match rd with
  | ReadError _ => (state, [])
  | ReadBytes data =>
      if (String.length data =? 0)%nat then (state, [])
      else
        let cmd := TrimSpace data in
        let '(state, eff, payload) :=
          if String.eqb cmd "status" then (state, [], statusPayload state)
          else if String.eqb cmd "disable" then
            let (s, e) := DisableLauncher state in (s, e, "")
          else if String.eqb cmd "enable" then
            let (s, e) := EnableLauncher state in (s, e, "")
          else (state, [], "") in
        (state, eff ++ [ConnWrite payload])
  end.

(* ------------------------------------------------------------------ *)
(** *** The running service *)

(** The goroutines of [startService] interleave at the grain of these
    events: the poll goroutine runs its next stretch, a connection is
    accepted and served, or the stop function returned by
    [startService] is called. *)
Inductive Event :=
| PollerRuns (io : PollerIO)
| Connection (rd : ReadResult)
| StopCalled.

Record System := {
  svc : ServiceState;
  poller : Poller
}.

(** The state after a successful [startService]; [sentinel] tells
    whether [launcherDisabledPath] exists (line 348). *)
Definition startService (sentinel : bool) : System * list Effect :=
  let (state, eff) :=
    if sentinel then DisableLauncher newServiceState
    else (newServiceState, []) in
  ({| svc := state; poller := Connecting |}, eff).

Definition step (cfg : NfcConfig) (ev : Event) (sys : System)
  : System * list Effect :=
  match ev with
  | PollerRuns io =>
      let '(state, p, eff) := pollerStep cfg io (svc sys) (poller sys) in
      ({| svc := state; poller := p |}, eff)
  | Connection rd =>
      (* the stop function closes the socket before it sets the flag *)
      if ShouldStopService (svc sys) then (sys, [])
      else
        let (state, eff) := handleConn rd (svc sys) in
        ({| svc := state; poller := poller sys |}, eff)
  | StopCalled =>
      ({| svc := StopService (svc sys); poller := poller sys |}, [])
  end.

Fixpoint run (cfg : NfcConfig) (evs : list Event) (sys : System)
  : System * list Effect :=
  match evs with
  | [] => (sys, [])
  | ev :: rest =>
      let (sys1, eff1) := step cfg ev sys in
      let (sys2, eff2) := run cfg rest sys1 in
      (sys2, eff1 ++ eff2)
  end.

(* ------------------------------------------------------------------ *)
(** *** Write mode *)

(** What [handleWriteCommand] does to the supervisor and the device. *)
Inductive Action :=
| SvcStop                                   (* svc.Stop() *)
| SvcStart                                  (* svc.Start() *)
| Nap (d : time.Duration)                   (* time.Sleep *)
| OpenDevice                                (* openDeviceWithRetries *)
| PollTarget                                (* pnd.InitiatorPollTarget *)
| WriteMifare (text cardUid : string)       (* writeMifare *)
| WriteNtag (text : string).                (* writeNtag *)

(** A stretch of the process: the actions done so far, and either the
    exit code of [os.Exit] or a value with which the code goes on. *)
Definition Proc (A : Type) : Type := list Action * (Z + A).

Definition ret {A} (a : A) : Proc A := ([], inr a).
Definition osExit {A} (code : Z) : Proc A := ([], inl code).
Definition act (a : Action) : Proc unit := ([a], inr tt).

Definition bind {A B} (m : Proc A) (k : A -> Proc B) : Proc B :=
  match m with
  | (done, inl code) => (done, inl code)
  | (done, inr a) => let (more, r) := k a in (done ++ more, r)
  end.

Local Notation "m ;; k" := (bind m (fun _ => k))
  (at level 61, right associativity).

(** Answers to one run of write mode.  [running k] is the result of the
    k-th call of [svc.Running()], counted from 0. *)
Record WriteIO := {
  running : nat -> bool;
  stop_err : option error;
  start_err : option error;
  w_open : OpenIO;
  w_polled : PollAnswer;
  w_mifare : option error;   (* the error of writeMifare *)
  w_ntag : option error      (* the error of writeNtag *)
}.

(** The wait loop of lines 636-648, from the k-th call of
    [svc.Running()]; one unit of fuel per iteration. *)
Fixpoint waitStopped (fuel : nat) (running : nat -> bool) (k : nat)
    (tries : Z) : option (Proc unit) :=
  match fuel with
  | O => None
  | S fuel =>
      if negb (running k) then Some (ret tt)
      else
        let tries := tries - 1 in
        if tries <=? 0 then
          Some (act (Nap (100 * time.Millisecond)) ;; osExit 1)
        else
          match waitStopped fuel running (S k) tries with
          | Some p => Some (act (Nap (100 * time.Millisecond)) ;; p)
          | None => None
          end
  end.

(** The closure [restartService]. *)
Definition restartService (serviceRunning : bool) (io : WriteIO)
  : Proc unit :=
  if serviceRunning then
    act SvcStart ;;
    if is_err (start_err io) then osExit 1 else ret tt
  else ret tt.

(** Lines 627-649 of [handleWriteCommand]: stop the service if it runs
    and wait until it has stopped.  [None] when the fuel does not cover
    the wait loop. *)
Definition stopPhase (fuel : nat) (io : WriteIO) : option (Proc unit) :=
  let serviceRunning := running io 0%nat in
  if serviceRunning then
    match waitStopped fuel (running io) 1%nat 15 with
    | Some wait =>
        Some (act SvcStop ;;
              if is_err (stop_err io) then osExit 1 else wait)
    | None => None
    end
  else Some (ret tt).

(** Lines 651-744 of [handleWriteCommand], given the result of
    [openDeviceWithRetries].  The handler of SIGTERM only delays the
    signal and is left out. *)
Definition writePhase (textToWrite : string) (open_err : option error)
    (io : WriteIO) : Proc unit :=
  let serviceRunning := running io 0%nat in
  act OpenDevice ;;
  if is_err open_err then
    restartService serviceRunning io ;; osExit 1
  else
  act PollTarget ;;
  if is_err (poll_err (w_polled io)) then
    restartService serviceRunning io ;; osExit 1
  else if count (w_polled io) =? 0 then
    restartService serviceRunning io ;; osExit 1
  else
  let cardUid := getCardUID (target (w_polled io)) in
  let cardType := getCardType (target (w_polled io)) in
  (if String.eqb cardType TypeMifare then
     act (WriteMifare textToWrite cardUid) ;;
     if is_err (w_mifare io) then
       restartService serviceRunning io ;; osExit 1
     else ret tt
   else if String.eqb cardType TypeNTAG then
     act (WriteNtag textToWrite) ;;
     if is_err (w_ntag io) then
       restartService serviceRunning io ;; osExit 1
     else ret tt
   else restartService serviceRunning io ;; osExit 1) ;;
  restartService serviceRunning io ;;
  osExit 0.

(** [handleWriteCommand]; every path ends in [os.Exit], so the deferred
    close of the device never runs.  [None] when the fuel does not
    cover the two loops. *)
Definition handleWriteCommand (fuel : nat) (textToWrite : string)
    (config : NfcConfig) (io : WriteIO) : option (Proc unit) :=
  match stopPhase fuel io,
        openDeviceWithRetries fuel config (w_open io) with
  | Some stop, Some (open_err, _) =>
      Some (stop ;; writePhase textToWrite open_err io)
  | _, _ => None
  end.

End Service.

(* ================================================================== *)
(** ** cmd/remote/games/launchers.go: the LaunchGame handler *)

Module remote.

(** A handler either returns or panics with a runtime error. *)
Inductive RuntimeError :=
| IndexOutOfRange (index length : nat).

Inductive Exec (A : Type) :=
| Done (a : A)
| Panic (e : RuntimeError).
Arguments Done {A} a.
Arguments Panic {A} e.

(** [s[i]] on a slice. *)
Definition index {A} (s : list A) (i : nat) : Exec A :=
  match nth_error s i with
  | Some x => Done x
  | None => Panic (IndexOutOfRange i (List.length s))
  end.

(** The text given to [http.Error]: a literal, or [err.Error()]. *)
Inductive Body :=
| Literal (s : string)
| ErrorText (e : error).

(** What the handler has done when it stops: responses written with
    [http.Error] and calls of [logger.Error] with their format and
    string arguments. *)
Inductive Output :=
| HttpError (body : Body) (code : Z)
| LogError (format : string) (args : list string)
| LogErrorOf (format : string) (e : error).

Definition StatusBadRequest : Z := 400.
Definition StatusInternalServerError : Z := 500.

Section Handler.
(** [games.System] with its field [Id], [games.FolderToSystems] and
    [mister.LaunchGame] belong to other packages. *)
Variable System : Type.
Variable Id : System -> string.
Variable FolderToSystems : string -> list System.
Variable mister_LaunchGame : System -> string -> option error.

(** [decoded] is the result of decoding the request body: the error
    of the decoder, or the field [args.Path]. *)
Definition LaunchGame (decoded : error + string)
  : list Output * Exec unit :=
  match decoded with
  | inl err =>
      ([HttpError (ErrorText err) StatusBadRequest;
        LogErrorOf "launch game: decoding request: %s" err], Done tt)
  | inr path =>
      let syss := FolderToSystems path in
      if (List.length syss =? 0)%nat then
        let sent := [HttpError (Literal "no system found for game")
                               StatusBadRequest] in
        (* the arguments of logger.Error are evaluated first *)
        match index syss 0 with
        | Panic e => (sent, Panic e)
        | Done sys =>
            (sent ++ [LogError "launch game: no system found for game: %s (%s)"
                               [path; Id sys]], Done tt)
        end
      else
        match index syss 0 with
        | Panic e => ([], Panic e)
        | Done sys =>
            match mister_LaunchGame sys path with
            | Some err =>
                ([HttpError (ErrorText err) StatusInternalServerError;
                  LogErrorOf "launch game: during launch: %s" err],
                 Done tt)
            | None => ([], Done tt)
            end
        end
  end.
End Handler.

End remote.

(* ================================================================== *)
(** ** An instance of the imports, from the specification's section 4.1
       and data model *)

Module SpecCodec.

(** Modelled from the spec: [nfc.Target] is declared by the nfc
    library; of an ISO14443-A target the spec uses the SAK and ATQA
    bytes and the UID bytes. *)
Record Target := {
  SAK : Z;
  ATQA : Z;
  UIDBytes : list byte
}.

(** Modelled from the spec: the constants [TypeNTAG] and [TypeMifare]
    are declared outside src/; the spec names the card types NTAG,
    Mifare and Unknown. *)
Definition TypeNTAG : string := "NTAG".
Definition TypeMifare : string := "Mifare".
Definition TypeUnknown : string := "Unknown".

(** Modelled from the spec: [getCardType] is declared outside src/.
    SAK 0x00 with ATQA 0x0044 is an NTAG, SAK 0x08 a Mifare, anything
    else unknown. *)
Definition getCardType (t : Target) : string :=
  if (SAK t =? 0) && (ATQA t =? 68) then TypeNTAG
  else if SAK t =? 8 then TypeMifare
  else TypeUnknown.

Definition hexDigit (n : N) : ascii :=
  nth (N.to_nat n) (list_ascii_of_string "0123456789abcdef") "0"%char.

(** Modelled from the spec: [getCardUID] is declared outside src/.
    The UID bytes as lowercase hex without separators. *)
Definition getCardUID (t : Target) : string :=
  string_of_list_ascii
    (flat_map (fun b => [hexDigit (N.div (Byte.to_N b) 16);
                         hexDigit (N.modulo (Byte.to_N b) 16)])
              (UIDBytes t)).

(** The bytes after the first TLV tag 0x03. *)
Fixpoint afterTag (bs : list byte) : option (list byte) :=
  match bs with
  | [] => None
  | b :: rest => if Byte.eqb b x03 then Some rest else afterTag rest
  end.

(** The bytes after the TLV length, one byte or 0xFF and two bytes. *)
Definition afterLength (bs : list byte) : option (list byte) :=
  match bs with
  | [] => None
  | len :: rest =>
      if Byte.eqb len xff then
        match rest with
        | _ :: _ :: value => Some value
        | _ => None
        end
      else Some rest
  end.

(** The bytes before the first trailer byte 0xFE, if there is one. *)
Fixpoint beforeTrailer (bs : list byte) : option (list byte) :=
  match bs with
  | [] => None
  | b :: rest =>
      if Byte.eqb b xfe then Some []
      else option_map (cons b) (beforeTrailer rest)
  end.

(** Modelled from the spec: [ParseRecordText] is declared outside
    src/.  Locate the TLV 0x03, read its length, require a well-known
    short Text record (flags 0xD1, type length 1, type T), reject the
    UTF-16 flag, strip the language code and return the remaining
    bytes, which end at the trailer 0xFE; on any mismatch the text is
    empty.  The two length bytes are read over, not checked: in the
    spec's scenario b they are shorter than the text it expects. *)
Definition ParseRecordText (bs : list byte) : string :=
  match afterTag bs with
  | None => ""
  | Some tlv =>
      match afterLength tlv with
      | Some (flags :: tlen :: plen :: typ :: status :: rest) =>
          if Byte.eqb flags xd1 && Byte.eqb tlen x01 && Byte.eqb typ x54
          then
            let st := Byte.to_N status in
            let lang := N.to_nat (N.land st 15) in
            if N.testbit st 7 then ""
            else
              match beforeTrailer (skipn lang rest) with
              | Some text => string_of_list_byte text
              | None => ""
              end
          else ""
      | _ => ""
      end
  end.

Definition among (c : nat) (codes : list nat) : bool :=
  existsb (Nat.eqb c) codes.

(** Whether the bytes are the UTF-8 encoding of one code point on
    which Go's [unicode.IsSpace] holds: tab, line feed, vertical tab,
    form feed, carriage return, space, U+0085, U+00A0, U+1680,
    U+2000 to U+200A, U+2028, U+2029, U+202F, U+205F or U+3000. *)
Definition isSpaceRune (bs : list nat) : bool :=
  match bs with
  | [c] => among c [9; 10; 11; 12; 13; 32]%nat
  | [b; c] => Nat.eqb b 194%nat && among c [133; 160]%nat
  | [a; b; c] =>
      (Nat.eqb a 225%nat && Nat.eqb b 154%nat && Nat.eqb c 128%nat)
      || (Nat.eqb a 226%nat && Nat.eqb b 128%nat
          && ((Nat.leb 128%nat c && Nat.leb c 138%nat)
              || among c [168; 169; 175]%nat))
      || (Nat.eqb a 226%nat && Nat.eqb b 129%nat && Nat.eqb c 159%nat)
      || (Nat.eqb a 227%nat && Nat.eqb b 128%nat && Nat.eqb c 128%nat)
  | _ => false
  end.

(** The width in bytes of the white-space code point the bytes start
    with, or 0. *)
Definition leadingWidth (cs : list nat) : nat :=
  if isSpaceRune (firstn 1%nat cs) then 1%nat
  else if isSpaceRune (firstn 2%nat cs) then 2%nat
  else if isSpaceRune (firstn 3%nat cs) then 3%nat
  else 0%nat.

(** The same for the code point the bytes end with. *)
Definition trailingWidth (cs : list nat) : nat :=
  if isSpaceRune (rev (firstn 1%nat (rev cs))) then 1%nat
  else if isSpaceRune (rev (firstn 2%nat (rev cs))) then 2%nat
  else if isSpaceRune (rev (firstn 3%nat (rev cs))) then 3%nat
  else 0%nat.

Fixpoint dropLeading (fuel : nat) (cs : list nat) : list nat :=
  match fuel with
  | O => cs
  | S fuel =>
      match leadingWidth cs with
      | O => cs
      | w => dropLeading fuel (skipn w cs)
      end
  end.

Fixpoint dropTrailing (fuel : nat) (cs : list nat) : list nat :=
  match fuel with
  | O => cs
  | S fuel =>
      match trailingWidth cs with
      | O => cs
      | w => dropTrailing fuel (rev (skipn w (rev cs)))
      end
  end.

(** [strings.TrimSpace] of the Go library, on the bytes of the string:
    leading and trailing code points on which [unicode.IsSpace] holds
    are removed; a byte that starts no such encoding stops the
    trimming.  One unit of fuel per removed code point. *)
Definition TrimSpace (s : string) : string :=
  let cs := map nat_of_ascii (list_ascii_of_string s) in
  let n := List.length cs in
  string_of_list_ascii
    (map ascii_of_nat (dropTrailing n (dropLeading n cs))).

Definition imports : Imports :=
  Build_Imports Target getCardUID getCardType TypeNTAG TypeMifare
                ParseRecordText TrimSpace.
End SpecCodec.

(* ================================================================== *)
(** ** Vocabulary of the statements *)

Section Vocabulary.
Context {I : Imports}.

(** The poll itself did not fail: no error, or only a timeout. *)
Definition benign (err : option error) : Prop :=
  err = None \/ err = Some (NfcError nfc.ETIMEOUT).

(** The poll found no tag. *)
Definition quiet (io : DeviceIO) : Prop :=
  count (polled io) <= 0 /\ benign (poll_err (polled io)).

(** The poll found a tag whose UID is [uid]. *)
Definition sees (io : DeviceIO) (uid : string) : Prop :=
  count (polled io) > 0 /\ benign (poll_err (polled io)) /\
  getCardUID (target (polled io)) = uid.

(** [pollDevice] reports a new card: no error, a UID that is not empty
    and differs from the active card's. *)
Definition arrival (io : DeviceIO) (active card : Card) : Prop :=
  pollDevice io active = (card, None) /\
  UID card <> "" /\ UID card <> UID active.

Definition isArrival (io : DeviceIO) (active : Card) : bool :=
  let (card, err) := pollDevice io active in
  negb (is_err err) && negb (String.eqb (UID card) "")
  && negb (String.eqb (UID active) (UID card)).

Definition isLaunch (e : Effect) : bool :=
  match e with LaunchCard => true | _ => false end.



(** Number of effects of a kind in a trace. *)
Definition occurrences (kind : Effect -> bool) (effs : list Effect) : nat :=
  List.length (filter kind effs).

(** An event that, for the active card [c], neither shows another tag
    nor lets more than [timeToForgetCard] pass since [c] was scanned. *)
Definition calm (c : Card) (ev : Event) : Prop :=
  match ev with
  | PollerRuns io =>
      let d := device (tick_io io) in
      (count (polled d) <= 0 \/ getCardUID (target (polled d)) = UID c)
      /\ now d - ScanTime c <= timeToForgetCard
  | _ => True
  end.

(** The poll finds no tag, more than [timeToForgetCard] after the card
    [c] was scanned. *)
Definition forgets (d : DeviceIO) (c : Card) : Prop :=
  count (polled d) <= 0 /\ now d - ScanTime c > timeToForgetCard.

(** The poll finds a tag whose UID, possibly the empty one, is not the
    UID of the card [c]. *)
Definition displaces (d : DeviceIO) (c : Card) : Prop :=
  count (polled d) > 0 /\ getCardUID (target (polled d)) <> UID c.

(** The device opens within the retries and initialises. *)
Definition connects (cfg : NfcConfig) (io : PollerIO) : Prop :=
  (exists tries,
      openDeviceWithRetries openFuel cfg (open_io io) = Some (None, tries))
  /\ init_err io = None.

(** An event that neither stops the service nor fails to connect. *)
Definition sustaining (cfg : NfcConfig) (ev : Event) : Prop :=
  match ev with
  | PollerRuns io => connects cfg io
  | Connection _ => True
  | StopCalled => False
  end.

Definition exited (p : Poller) : Prop :=
  match p with Exited _ => True | _ => False end.

(** The connection string [openDeviceWithRetries] ends up with and the
    number of the first [nfc.Open] call of its retry loop. *)
Definition chosenConnection (config : NfcConfig) (oio : OpenIO)
  : string * nat :=
  if String.eqb (ConnectionString config) "" && ProbeDevice config
  then detectConnectionString oio
  else (ConnectionString config, 0%nat).


(** Write mode wrote the tag: the write for the card's type was called
    and returned no error. *)
Definition tagWritten (text : string) (trace : list Action) (io : WriteIO)
  : Prop :=
  (exists uid, In (WriteMifare text uid) trace /\ w_mifare io = None) \/
  (In (WriteNtag text) trace /\ w_ntag io = None).

(** An action of the stop phase of write mode. *)
Definition supervising (a : Action) : Prop :=
  a = SvcStop \/ exists d, a = Nap d.

(** The service needs no restart, or [svc.Start()] succeeds. *)
Definition restartSucceeds (io : WriteIO) : Prop :=
  running io 0%nat = false \/ start_err io = None.

End Vocabulary.

(* ================================================================== *)
(** ** Concrete inputs, over the instance [SpecCodec.imports] *)

Module Scenario.
#[local] Existing Instance SpecCodec.imports.

Definition cfg : NfcConfig :=
  {| ConnectionString := "pn532_uart:/dev/ttyUSB0";
     ProbeDevice := true; DisableSounds := false |}.

(** An NTAG with UID 04a1b2c3d4e580 and a Mifare with UID deadbeef. *)
Definition ntagTarget : SpecCodec.Target :=
  {| SpecCodec.SAK := 0; SpecCodec.ATQA := 68;
     SpecCodec.UIDBytes := [x04; xa1; xb2; xc3; xd4; xe5; x80] |}.

Definition mifareTarget : SpecCodec.Target :=
  {| SpecCodec.SAK := 8; SpecCodec.ATQA := 4;
     SpecCodec.UIDBytes := [xde; xad; xbe; xef] |}.

(** The NDEF message of the text record "hi" in English. *)
Definition hiRecord : list byte :=
  [x03; x09; xd1; x01; x05; x54; x02; x65; x6e; x68; x69; xfe].

(** 2023-11-14 22:13:20 UTC. *)
Definition T0 : time.Time := 1700000000 * time.Second.

(** A poll at time [at_] that finds the target [t]; the card reads
    succeed. *)
Definition sighting (t : SpecCodec.Target) (at_ : time.Time) : DeviceIO :=
  {| polled := {| count := 1; target := t; poll_err := None |};
     readNtag := (hiRecord, None);
     readMifare := (hiRecord, None);
     now := at_ |}.

(** A poll at time [at_] that times out without a tag. *)
Definition nothing (at_ : time.Time) : DeviceIO :=
  {| polled := {| count := 0; target := ntagTarget;
                  poll_err := Some (NfcError nfc.ETIMEOUT) |};
     readNtag := ([], None);
     readMifare := ([], None);
     now := at_ |}.

(** A poll that finds the NTAG, whose pages then cannot be read. *)
Definition unreadableNtag (at_ : time.Time) : DeviceIO :=
  {| polled := {| count := 1; target := ntagTarget; poll_err := None |};
     readNtag := ([], Some (NfcError nfc.ERFTRANS));
     readMifare := ([], None);
     now := at_ |}.

(** A poll that fails because the reader was unplugged. *)
Definition unplugged (at_ : time.Time) : DeviceIO :=
  {| polled := {| count := 0; target := ntagTarget;
                  poll_err := Some (NfcError nfc.EIO) |};
     readNtag := ([], None);
     readMifare := ([], None);
     now := at_ |}.

Definition tick (d : DeviceIO) : TickIO :=
  {| device := d; launch_err := None;
     now_check := now d; now_mark := now d |}.

(** The device opens at the first attempt / at no attempt. *)
Definition opens : OpenIO :=
  {| serialDir := None; nfcOpen := fun _ _ => None |}.

Definition neverOpens : OpenIO :=
  {| serialDir := Some [("usb-1a86_USB_Serial-if00-port0", false)];
     nfcOpen := fun _ _ => Some (OtherError "cannot open NFC device") |}.

(** The goroutine's next stretch with a device that opens. *)
Definition plugged (d : DeviceIO) : PollerIO :=
  {| open_io := opens; init_err := None; tick_io := tick d |}.

(** The goroutine's next stretch with a device that cannot be opened. *)
Definition gone (d : DeviceIO) : PollerIO :=
  {| open_io := neverOpens; init_err := None; tick_io := tick d |}.

(** The service right after a start without the sentinel file. *)
Definition started : System := fst (startService false).

(** The card the NTAG arrives as at [T0]. *)
Definition ntagCard : Card :=
  {| CardType := "NTAG"; UID := "04a1b2c3d4e580"; Text := "hi";
     ScanTime := T0 |}.

Definition holding (c : Card) (disabled : bool) : ServiceState :=
  {| activeCard := c; lastScanned := c;
     stopService := false; disableLauncher := disabled |}.

(** Write mode: the service never stops. *)
Definition stuckService : WriteIO :=
  {| running := fun _ => true; stop_err := None; start_err := None;
     w_open := opens;
     w_polled := {| count := 1; target := mifareTarget; poll_err := None |};
     w_mifare := None; w_ntag := None |}.

(** Write mode: the service stops at once, the Mifare is written, and
    the service then fails to start. *)
Definition failedRestart : WriteIO :=
  {| running := fun k => (k =? 0)%nat; stop_err := None;
     start_err := Some (OtherError "service failed to start");
     w_open := opens;
     w_polled := {| count := 1; target := mifareTarget; poll_err := None |};
     w_mifare := None; w_ntag := None |}.

(** Write mode: the service was running, stops at once and starts
    again after the Mifare is written. *)
Definition smoothWrite : WriteIO :=
  {| running := fun k => (k =? 0)%nat; stop_err := None;
     start_err := None;
     w_open := opens;
     w_polled := {| count := 1; target := mifareTarget; poll_err := None |};
     w_mifare := None; w_ntag := None |}.

(** The remote handler: systems are named by strings and only paths
    under /media/fat/games/SNES/ belong to one. *)
Definition folderToSystems (path : string) : list string :=
  if String.prefix "/media/fat/games/SNES/" path then ["SNES"] else [].
End Scenario.

(* ================================================================== *)
(** ** cmd/remote/games/launchers.go: the other handlers *)

Module launchers.

(** [err.Error()] called on a nil error. *)
Inductive Fault :=
| NilError.

Inductive Outcome :=
| Returned
| Crashed (f : Fault).

(** What a handler has written or called when it stops: an output as
    for [LaunchGame], or the JSON response with the launcher's path. *)
Inductive Written :=
| Out (o : remote.Output)
| JsonPath (path : string).

(** [CreateLauncherRequest] *)
Record CreateLauncherRequest := {
  GamePath : string;
  Folder : string;
  Name : string
}.

Section Handlers.
(** [mister.LaunchGenericFile] and [mister.LaunchMenu]. *)
Variable mister_LaunchGenericFile : string -> option error.
Variable mister_LaunchMenu : option error.

Definition LaunchFile (decoded : error + string) : list remote.Output :=
  match decoded with
  | inl err =>
      [remote.HttpError (remote.ErrorText err) remote.StatusBadRequest;
       remote.LogErrorOf "launch file: decoding request: %s" err]
  | inr path =>
      match mister_LaunchGenericFile path with
      | Some err =>
          [remote.HttpError (remote.ErrorText err)
                            remote.StatusInternalServerError;
           remote.LogErrorOf "launch file: during launch: %s" err]
      | None => []
      end
  end.

Definition LaunchMenu : list remote.Output :=
  match mister_LaunchMenu with
  | Some err =>
      [remote.HttpError (remote.ErrorText err)
                        remote.StatusInternalServerError]
  | None => []
  end.

(** [games.System], [games.FolderToSystems], [config.SdFolder],
    [filepath.Join], [utils.StripBadFileChars] and
    [mister.CreateLauncher] belong to other packages;
    [strings.HasPrefix s p] is [String.prefix p s]. *)
Variable System : Type.
Variable FolderToSystems : string -> list System.
Variable SdFolder : string.
Variable filepath_Join : string -> string -> string.
Variable StripBadFileChars : string -> string.
Variable mister_CreateLauncher :
  System -> string -> string -> string -> string * option error.

(** [decoded] is the result of decoding the request body and
    [encode_err] the error of writing the JSON response. *)
Definition CreateLauncher (decoded : error + CreateLauncherRequest)
    (encode_err : option error) : list Written * Outcome :=
  match decoded with
  | inl err =>
      ([Out (remote.HttpError (remote.ErrorText err)
                              remote.StatusBadRequest);
        Out (remote.LogErrorOf "create launcher: decoding request: %s" err)],
       Returned)
  | inr args =>
      match FolderToSystems (GamePath args) with
      | [] =>
          (* http.Error(w, err.Error(), ...) with err == nil *)
          ([], Crashed NilError)
      | system :: _ =>
          let folder :=
            if negb (String.prefix SdFolder (Folder args))
            then filepath_Join SdFolder (Folder args)
            else Folder args in
          let name := StripBadFileChars (Name args) in
          match mister_CreateLauncher system (GamePath args) folder name with
          | (_, Some err) =>
              ([Out (remote.HttpError (remote.ErrorText err)
                                      remote.StatusInternalServerError);
                Out (remote.LogErrorOf "create launcher: creation: %s" err)],
               Returned)
          | (mglPath, None) =>
              match encode_err with
              | Some err =>
                  ([JsonPath mglPath;
                    Out (remote.HttpError (remote.ErrorText err)
                                          remote.StatusInternalServerError);
                    Out (remote.LogErrorOf
                           "create launcher: encoding response: %s" err)],
                   Returned)
              | None => ([JsonPath mglPath], Returned)
              end
          end
      end
  end.
End Handlers.

End launchers.

(* ================================================================== *)
(** ** Further vocabulary *)

Section MoreVocabulary.
Context {I : Imports}.

(** Whenever a card is active it is also the last scanned card. *)
Definition cardsAgree (s : ServiceState) : Prop :=
  UID (activeCard s) <> "" -> lastScanned s = activeCard s.

(** Whether [launcherDisabledPath] exists after the effects [effs],
    when it existed or not before and creating and removing it
    succeed. *)
Definition sentinelAfter (effs : list Effect) (present : bool) : bool :=
  fold_left (fun b e =>
               match e with
               | CreateDisabledFile => true
               | RemoveDisabledFile => false
               | _ => b
               end) effs present.

Definition isAplay (e : Effect) : bool :=
  match e with Aplay _ => true | _ => false end.

Definition isReply (e : Effect) : bool :=
  match e with ConnWrite _ => true | _ => false end.

(** An effect of the poll goroutine on the world outside the process. *)
Definition isPollerEffect (e : Effect) : bool :=
  match e with
  | Aplay _ | WriteScanFile _ | LaunchCard | Sleep _ => true
  | _ => false
  end.

(** The time write mode has slept. *)
Fixpoint napTime (trace : list Action) : time.Duration :=
  match trace with
  | [] => 0
  | Nap d :: rest => d + napTime rest
  | _ :: rest => napTime rest
  end.

Definition isWrite (a : Action) : bool :=
  match a with WriteMifare _ _ | WriteNtag _ => true | _ => false end.

Definition isHttpError (o : remote.Output) : bool :=
  match o with remote.HttpError _ _ => true | _ => false end.

Definition isHttpErrorWritten (w : launchers.Written) : bool :=
  match w with launchers.Out o => isHttpError o | _ => false end.

(** The tag's contents can be fetched as far as [pollDevice] insists:
    it is no NTAG, or the NTAG read succeeds. *)
Definition readable (d : DeviceIO) : Prop :=
  getCardType (target (polled d)) <> TypeNTAG \/ snd (readNtag d) = None.

(** The poll finds a tag, other than the active card [ac], whose
    contents can be fetched. *)
Definition newTag (d : DeviceIO) (ac : Card) : Prop :=
  count (polled d) > 0 /\ benign (poll_err (polled d)) /\
  getCardUID (target (polled d)) <> UID ac /\ readable d.

(** How far the goroutine is from having returned once the stop flag is
    set: an open and an iteration, an iteration, or nothing. *)
Definition stepsToExit (p : Poller) : nat :=
  match p with
  | Connecting => 2
  | Polling _ => 1
  | Exited _ => 0
  end.

Definition isPollerRun (ev : Event) : Prop :=
  match ev with PollerRuns _ => True | _ => False end.

(** Write mode gets past its stop phase: the service was not running,
    or [svc.Stop()] returned no error and one of the fifteen checks
    that follow found the service stopped. *)
Definition serviceStopped (io : WriteIO) : Prop :=
  running io 0%nat = false \/
  (stop_err io = None /\
   exists j, (1 <= j <= 15)%nat /\ running io j = false).

(** The polled card is of a type write mode supports and the write for
    that type returns no error. *)
Definition cardWritten (io : WriteIO) : Prop :=
  let ty := getCardType (target (w_polled io)) in
  (ty = TypeMifare /\ w_mifare io = None) \/
  (ty <> TypeMifare /\ ty = TypeNTAG /\ w_ntag io = None).

(** The action is the write write mode makes for the polled card. *)
Definition writeFor (text : string) (io : WriteIO) (a : Action) : Prop :=
  let ty := getCardType (target (w_polled io)) in
  (a = WriteMifare text (getCardUID (target (w_polled io))) /\
   ty = TypeMifare) \/
  (a = WriteNtag text /\ ty <> TypeMifare /\ ty = TypeNTAG).

End MoreVocabulary.

(* ================================================================== *)
(** ** More concrete inputs *)

Module Cases.
#[local] Existing Instance SpecCodec.imports.
Import Scenario.

Definition mutedCfg : NfcConfig :=
  {| ConnectionString := "pn532_uart:/dev/ttyUSB0";
     ProbeDevice := true; DisableSounds := true |}.

Definition probingCfg : NfcConfig :=
  {| ConnectionString := ""; ProbeDevice := true; DisableSounds := false |}.

(** A poll that fails because the target was released. *)
Definition released (at_ : time.Time) : DeviceIO :=
  {| polled := {| count := 0; target := ntagTarget;
                  poll_err := Some (NfcError nfc.ETGRELEASED) |};
     readNtag := ([], None);
     readMifare := ([], None);
     now := at_ |}.

(** A target that is neither NTAG nor Mifare and shows no UID. *)
Definition blankTarget : SpecCodec.Target :=
  {| SpecCodec.SAK := 32; SpecCodec.ATQA := 836;
     SpecCodec.UIDBytes := [] |}.

(** A poll that finds the NTAG and loses the reader while reading it. *)
Definition ntagLostInRead (at_ : time.Time) : DeviceIO :=
  {| polled := {| count := 1; target := ntagTarget; poll_err := None |};
     readNtag := ([], Some (NfcError nfc.EIO));
     readMifare := ([], None);
     now := at_ |}.

(** A poll that finds the Mifare, whose sectors then cannot be read:
    the read returns an error and the one block it got. *)
Definition unreadableMifare (at_ : time.Time) : DeviceIO :=
  {| polled := {| count := 1; target := mifareTarget; poll_err := None |};
     readNtag := ([], None);
     readMifare := ([x00; x00; x03; x09], Some (NfcError nfc.EMFCAUTHFAIL));
     now := at_ |}.

(** A poll that finds the NTAG holding a record of another kind. *)
Definition foreignNtag (at_ : time.Time) : DeviceIO :=
  {| polled := {| count := 1; target := ntagTarget; poll_err := None |};
     readNtag := ([x03; x05; xd1; x01; x01; x55; x00; xfe], None);
     readMifare := (hiRecord, None);
     now := at_ |}.

(** An iteration whose launch fails. *)
Definition failingLaunch (d : DeviceIO) : TickIO :=
  {| device := d; launch_err := Some (OtherError "no such system");
     now_check := now d; now_mark := now d |}.

(** The device opens at the third attempt. *)
Definition opensThird : OpenIO :=
  {| serialDir := None;
     nfcOpen := fun k _ =>
       if (k <? 2)%nat then Some (OtherError "cannot open NFC device")
       else None |}.

(** Two serial devices and a directory; only the second device is a
    reader. *)
Definition twoSerial : OpenIO :=
  {| serialDir := Some [("usb-FTDI-if00", false); ("by-path", true);
                        ("usb-PN532-if00", false)];
     nfcOpen := fun _ cs =>
       if String.eqb cs "pn532_uart:/dev/serial/by-id/usb-PN532-if00"
       then None else Some (OtherError "cannot open NFC device") |}.

(** Write mode: the service is gone at the third check. *)
Definition slowStop : WriteIO :=
  {| running := fun k => (k <? 3)%nat; stop_err := None;
     start_err := None;
     w_open := opens;
     w_polled := {| count := 1; target := mifareTarget; poll_err := None |};
     w_mifare := None; w_ntag := None |}.

End Cases.

(* ================================================================== *)
(** * Properties *)

Section TimeFacts.

Lemma Since_gt (d : time.Duration) (now t : time.Time) :
  0 <= d < time.maxDuration ->
  (d <? time.Since now t) = (d <? now - t).
Proof.
  intros Hd. unfold time.Since, time.Sub, time.minDuration in *.
  destruct (Z.ltb_spec d (now - t)); destruct (Z.ltb_spec d
    (Z.max (-9223372036854775808) (Z.min time.maxDuration (now - t))));
    try reflexivity;
    unfold time.maxDuration in *; lia.
Qed.

Lemma forget_gt (now t : time.Time) :
  (timeToForgetCard <? time.Since now t) = (timeToForgetCard <? now - t).
Proof. apply Since_gt. vm_compute. split; intros; discriminate || reflexivity. Qed.

End TimeFacts.

(** Case analysis on every condition the goal branches on. *)
Ltac break_ifs :=
  repeat match goal with
         | |- context [if ?b then _ else _] => destruct b eqn:?
         end.

Section PollFacts.
Context {I : Imports}.

Lemma benign_passes (err : option error) :
  benign err -> is_err err && negb (errors_Is err nfc.ETIMEOUT) = false.
Proof. intros [-> | ->]; reflexivity. Qed.

Lemma benign_not_EIO (err : option error) :
  benign err -> errors_Is err nfc.EIO = false.
Proof. intros [-> | ->]; reflexivity. Qed.

Lemma pollDevice_quiet (io : DeviceIO) (ac : Card) :
  quiet io ->
  pollDevice io ac =
    (if negb (String.eqb (UID ac) "")
        && (timeToForgetCard <? now io - ScanTime ac)
     then emptyCard else ac, None).
Proof.
  intros [Hc Hb]. unfold pollDevice.
  rewrite (benign_passes _ Hb).
  destruct (Z.leb_spec (count (polled io)) 0) as [_ | Hgt]; [| lia].
  rewrite forget_gt.
  destruct (negb (String.eqb (UID ac) "")
            && (timeToForgetCard <? now io - ScanTime ac)); reflexivity.
Qed.

Lemma pollDevice_same (io : DeviceIO) (ac : Card) :
  sees io (UID ac) -> pollDevice io ac = (ac, None).
Proof.
  intros (Hc & Hb & Hu). unfold pollDevice.
  rewrite (benign_passes _ Hb).
  destruct (Z.leb_spec (count (polled io)) 0) as [Hle | _]; [lia |].
  rewrite Hu, String.eqb_refl. reflexivity.
Qed.

(** Whenever [pollDevice] returns an error, the card it returns is the
    one it was given. *)
Lemma pollDevice_error_keeps (io : DeviceIO) (ac : Card) :
  is_err (snd (pollDevice io ac)) = true -> fst (pollDevice io ac) = ac.
Proof.
  unfold pollDevice.
  destruct (is_err (poll_err (polled io))
            && negb (errors_Is (poll_err (polled io)) nfc.ETIMEOUT));
    [reflexivity |].
  destruct (count (polled io) <=? 0).
  { destruct (negb (String.eqb (UID ac) "") && _); simpl; discriminate. }
  destruct (String.eqb (getCardUID (target (polled io))) (UID ac));
    [reflexivity |].
  destruct (if String.eqb (getCardType (target (polled io))) TypeNTAG
            then snd (readNtag io) else None); [reflexivity |].
  simpl. discriminate.
Qed.

(** After an iteration the active card is the card [pollDevice]
    returned, on every path. *)
Lemma loopBody_activeCard (cfg : NfcConfig) (io : TickIO)
    (s : ServiceState) (le : time.Time) :
  activeCard (state' (loopBody cfg io s le)) =
  fst (pollDevice (device io) (activeCard s)).
Proof.
  unfold loopBody, GetActiveCard.
  pose proof (pollDevice_error_keeps (device io) (activeCard s)) as Hk.
  destruct (pollDevice (device io) (activeCard s)) as [c err]. simpl in *.
  destruct (errors_Is err nfc.EIO) eqn:Hio.
  { destruct err as [[]|]; try discriminate; simpl; symmetry; auto. }
  destruct (is_err err) eqn:He.
  { simpl. symmetry; auto. }
  break_ifs; reflexivity.
Qed.

(** The flags of the state are not written by the loop. *)
Lemma loopBody_flags (cfg : NfcConfig) (io : TickIO)
    (s : ServiceState) (le : time.Time) :
  stopService (state' (loopBody cfg io s le)) = stopService s /\
  disableLauncher (state' (loopBody cfg io s le)) = disableLauncher s.
Proof.
  unfold loopBody, GetActiveCard.
  destruct (pollDevice (device io) (activeCard s)) as [c err].
  break_ifs; split; reflexivity.
Qed.

(** A connection leaves the cards and the stop flag as they are. *)
Lemma handleConn_cards (rd : ReadResult) (s : ServiceState) :
  activeCard (fst (handleConn rd s)) = activeCard s /\
  lastScanned (fst (handleConn rd s)) = lastScanned s /\
  stopService (fst (handleConn rd s)) = stopService s.
Proof.
  unfold handleConn. destruct rd as [e | data]; [auto |].
  break_ifs; auto.
Qed.

End PollFacts.

Section Debounce.
Context {I : Imports}.

Lemma pollDevice_calm (d : DeviceIO) (c : Card) :
  (count (polled d) <= 0 \/ getCardUID (target (polled d)) = UID c) ->
  now d - ScanTime c <= timeToForgetCard ->
  fst (pollDevice d c) = c.
Proof.
  intros Hsee Hnow. unfold pollDevice.
  destruct (is_err (poll_err (polled d))
            && negb (errors_Is (poll_err (polled d)) nfc.ETIMEOUT));
    [reflexivity |].
  rewrite forget_gt.
  destruct (Z.leb_spec (count (polled d)) 0) as [Hle | Hgt].
  - destruct (Z.ltb_spec timeToForgetCard (now d - ScanTime c)); [lia |].
    rewrite andb_false_r. reflexivity.
  - destruct Hsee as [Hle | Hu]; [lia |].
    rewrite Hu, String.eqb_refl. reflexivity.
Qed.

Lemma handleConn_activeCard (rd : ReadResult) (s : ServiceState) :
  activeCard (fst (handleConn rd s)) = activeCard s.
Proof.
  unfold handleConn. destruct rd as [e | data]; [reflexivity |].
  break_ifs; reflexivity.
Qed.

Lemma step_calm (cfg : NfcConfig) (ev : Event) (sys : System) :
  calm (activeCard (svc sys)) ev ->
  activeCard (svc (fst (step cfg ev sys))) = activeCard (svc sys).
Proof.
  destruct ev as [io | rd |]; simpl.
  - intros [Hsee Hnow]. unfold pollerStep.
    destruct (poller sys) as [| le | why].
    + destruct (openDeviceWithRetries openFuel cfg (open_io io))
        as [[[e |] tries] |]; try reflexivity.
      destruct (init_err io); reflexivity.
    + destruct (ShouldStopService (svc sys)); [reflexivity |].
      pose proof (loopBody_activeCard cfg (tick_io io) (svc sys) le) as Ha.
      rewrite (pollDevice_calm _ _ Hsee Hnow) in Ha.
      destruct (next (loopBody cfg (tick_io io) (svc sys) le)); exact Ha.
    + reflexivity.
  - intros _. destruct (ShouldStopService (svc sys)); [reflexivity |].
    pose proof (handleConn_activeCard rd (svc sys)) as Ha.
    destruct (handleConn rd (svc sys)); exact Ha.
  - reflexivity.
Qed.

Lemma run_calm (cfg : NfcConfig) (evs : list Event) :
  forall sys : System,
    Forall (calm (activeCard (svc sys))) evs ->
    activeCard (svc (fst (run cfg evs sys))) = activeCard (svc sys).
Proof.
  induction evs as [| ev rest IH]; intros sys Hall; [reflexivity |].
  inversion Hall as [| ? ? Hev Hrest]; subst.
  pose proof (step_calm cfg ev sys Hev) as Hstep.
  simpl. destruct (step cfg ev sys) as [sys1 eff1]. simpl in Hstep.
  rewrite <- Hstep in Hrest. specialize (IH sys1 Hrest).
  destruct (run cfg rest sys1) as [sys2 eff2]. simpl in *. congruence.
Qed.

(** C3, as amended.  On a poll that finds no tag, [pollDevice] clears
    the active card exactly when its UID is not empty and more than
    [timeToForgetCard] (5 s) have passed since its [ScanTime], the time
    of its arrival, and returns it unchanged otherwise.  In particular,
    while no more than 5 s have passed since the arrival and the polls
    find that tag or nothing, the active card stays as it is through
    any run of the service, whatever else happens in between. *)
Theorem forget_after_ScanTime (cfg : NfcConfig) (io : DeviceIO) (ac : Card)
    (evs : list Event) (sys : System) :
  quiet io ->
  Forall (calm (activeCard (svc sys))) evs ->
  (UID ac <> "" /\ now io - ScanTime ac > timeToForgetCard ->
     pollDevice io ac = (emptyCard, None)) /\
  (UID ac = "" \/ now io - ScanTime ac <= timeToForgetCard ->
     pollDevice io ac = (ac, None)) /\
  activeCard (svc (fst (run cfg evs sys))) = activeCard (svc sys).
Proof.
  intros Hq Hcalm. rewrite (pollDevice_quiet io ac Hq).
  split; [| split].
  - intros [Hu Hlate].
    apply String.eqb_neq in Hu. rewrite Hu.
    destruct (Z.ltb_spec timeToForgetCard (now io - ScanTime ac)); [| lia].
    reflexivity.
  - intros [Hu | Hsoon].
    + rewrite Hu. reflexivity.
    + destruct (Z.ltb_spec timeToForgetCard (now io - ScanTime ac)); [lia |].
      rewrite andb_false_r. reflexivity.
  - apply run_calm; assumption.
Qed.

End Debounce.

Section Arrivals.
Context {I : Imports}.

(** C10.  When the same UID is seen again [pollDevice] returns the
    active card as it is, so its [ScanTime] stays the time of the first
    arrival; hence once more than 5 s have passed since that arrival, a
    single poll that finds no tag clears the active card, even though
    the poll just before it (at whatever time) saw the card. *)
Theorem ScanTime_not_refreshed (cfg : NfcConfig) (t1 t2 : TickIO)
    (s : ServiceState) (le : time.Time) :
  UID (activeCard s) <> "" ->
  sees (device t1) (UID (activeCard s)) ->
  quiet (device t2) ->
  now (device t2) - ScanTime (activeCard s) > timeToForgetCard ->
  let r1 := loopBody cfg t1 s le in
  let r2 := loopBody cfg t2 (state' r1) (lastError' r1) in
  pollDevice (device t1) (activeCard s) = (activeCard s, None) /\
  ScanTime (activeCard (state' r1)) = ScanTime (activeCard s) /\
  activeCard (state' r2) = emptyCard.
Proof.
  intros Hu Hsee Hq Hlate r1 r2.
  pose proof (pollDevice_same _ _ Hsee) as Hsame.
  assert (Ha1 : activeCard (state' r1) = activeCard s).
  { unfold r1. rewrite loopBody_activeCard, Hsame. reflexivity. }
  split; [exact Hsame | split; [rewrite Ha1; reflexivity |]].
  unfold r2. rewrite loopBody_activeCard, Ha1.
  rewrite (pollDevice_quiet _ _ Hq).
  apply String.eqb_neq in Hu. rewrite Hu.
  destruct (Z.ltb_spec timeToForgetCard
              (now (device t2) - ScanTime (activeCard s))); [| lia].
  reflexivity.
Qed.

Lemma occurrences_app (kind : Effect -> bool) (a b : list Effect) :
  occurrences kind (a ++ b) = (occurrences kind a + occurrences kind b)%nat.
Proof. unfold occurrences. rewrite filter_app, length_app. reflexivity. Qed.

Lemma occurrences_cons (kind : Effect -> bool) (e : Effect)
    (l : list Effect) :
  occurrences kind (e :: l) =
  ((if kind e then 1 else 0) + occurrences kind l)%nat.
Proof. unfold occurrences. simpl. destruct (kind e); reflexivity. Qed.

Lemma playSuccess_no_launch (cfg : NfcConfig) :
  occurrences isLaunch (playSuccess cfg) = 0%nat.
Proof. unfold playSuccess. destruct (DisableSounds cfg); reflexivity. Qed.

Lemma playFailLimited_no_launch (cfg : NfcConfig) (n le : time.Time) :
  occurrences isLaunch (playFailLimited cfg n le) = 0%nat.
Proof.
  unfold playFailLimited, playFail.
  destruct (1 * time.Second <? time.Since n le); [| reflexivity].
  destruct (DisableSounds cfg); reflexivity.
Qed.

(** The number of launches in one iteration. *)
Lemma loopBody_launches (cfg : NfcConfig) (io : TickIO) (s : ServiceState)
    (le : time.Time) :
  occurrences isLaunch (effects (loopBody cfg io s le)) =
  if isArrival (device io) (activeCard s) && negb (disableLauncher s)
  then 1%nat else 0%nat.
Proof.
  unfold loopBody, isArrival, GetActiveCard.
  destruct (pollDevice (device io) (activeCard s)) as [c err].
  destruct (errors_Is err nfc.EIO) eqn:Hio.
  { destruct err as [e |]; [| discriminate]. simpl.
    apply playFailLimited_no_launch. }
  destruct (is_err err) eqn:He; simpl.
  { rewrite occurrences_app, playFailLimited_no_launch. reflexivity. }
  rewrite <- negb_orb.
  destruct (String.eqb (UID c) "" || String.eqb (UID (activeCard s)) (UID c));
    simpl; [reflexivity |].
  destruct (disableLauncher s); simpl.
  { rewrite !occurrences_app, playSuccess_no_launch. reflexivity. }
  destruct (is_err (launch_err io)); simpl;
    rewrite ?occurrences_app, ?occurrences_cons, ?occurrences_app,
            ?playSuccess_no_launch, ?playFailLimited_no_launch;
    reflexivity.
Qed.

Lemma occurrences_In (effs : list Effect) :
  In LaunchCard effs -> (occurrences isLaunch effs <> 0)%nat.
Proof.
  intros Hin Hz.
  assert (Hf : In LaunchCard (filter isLaunch effs))
    by (apply filter_In; split; [exact Hin | reflexivity]).
  unfold occurrences in Hz. apply length_zero_iff_nil in Hz.
  rewrite Hz in Hf. exact Hf.
Qed.

Lemma isArrival_arrival (d : DeviceIO) (ac : Card) :
  isArrival d ac = true -> arrival d ac (fst (pollDevice d ac)).
Proof.
  unfold isArrival, arrival.
  destruct (pollDevice d ac) as [c err]. simpl.
  intros H. apply andb_prop in H as [H H3]. apply andb_prop in H as [H1 H2].
  destruct err; [discriminate |].
  apply negb_true_iff in H2, H3.
  apply String.eqb_neq in H2, H3. repeat split; congruence.
Qed.

(** A poll changes the active UID only by forgetting the card or by
    finding a tag with another UID. *)
Lemma pollDevice_changes (d : DeviceIO) (c : Card) :
  UID (fst (pollDevice d c)) <> UID c -> forgets d c \/ displaces d c.
Proof.
  unfold pollDevice, forgets, displaces.
  destruct (is_err (poll_err (polled d))
            && negb (errors_Is (poll_err (polled d)) nfc.ETIMEOUT));
    [intros Hsame; contradiction Hsame; reflexivity |].
  destruct (Z.leb_spec (count (polled d)) 0) as [Hle | Hgt].
  - rewrite forget_gt.
    destruct (negb (String.eqb (UID c) "")); simpl;
      [| intros Hsame; contradiction Hsame; reflexivity].
    destruct (Z.ltb_spec timeToForgetCard (now d - ScanTime c));
      [| intros Hsame; contradiction Hsame; reflexivity].
    intros _. left. split; lia.
  - destruct (String.eqb_spec (getCardUID (target (polled d))) (UID c))
      as [Heq | Hne]; [intros Hsame; contradiction Hsame; reflexivity |].
    intros _. right. split; [lia | exact Hne].
Qed.

Lemma step_changes_uid (cfg : NfcConfig) (ev : Event) (sys : System) :
  UID (activeCard (svc (fst (step cfg ev sys))))
    <> UID (activeCard (svc sys)) ->
  exists io,
    ev = PollerRuns io /\
    (forgets (device (tick_io io)) (activeCard (svc sys)) \/
     displaces (device (tick_io io)) (activeCard (svc sys))).
Proof.
  destruct ev as [io | rd |]; cbn [step].
  - intros H. exists io. split; [reflexivity |].
    apply pollDevice_changes. intros Heq. apply H. clear H.
    unfold pollerStep. destruct (poller sys) as [| le | why].
    + destruct (openDeviceWithRetries openFuel cfg (open_io io))
        as [[[e |] tries] |]; try reflexivity.
      destruct (init_err io); reflexivity.
    + destruct (ShouldStopService (svc sys)); [reflexivity |].
      pose proof (loopBody_activeCard cfg (tick_io io) (svc sys) le) as Ha.
      destruct (next (loopBody cfg (tick_io io) (svc sys) le));
        cbn [fst svc]; rewrite Ha; exact Heq.
    + reflexivity.
  - intros H. contradiction H.
    destruct (ShouldStopService (svc sys)); [reflexivity |].
    destruct (handleConn_cards rd (svc sys)) as (Ha & _).
    destruct (handleConn rd (svc sys)) as [s' eff]. cbn [fst svc] in *.
    rewrite Ha. reflexivity.
  - intros H. contradiction H. reflexivity.
Qed.

Lemma run_cons_fst (cfg : NfcConfig) (ev : Event) (evs : list Event)
    (sys : System) :
  fst (run cfg (ev :: evs) sys) = fst (run cfg evs (fst (step cfg ev sys))).
Proof.
  cbn [run]. destruct (step cfg ev sys) as [sys1 eff1]. cbn [fst].
  destruct (run cfg evs sys1) as [sys2 eff2]. reflexivity.
Qed.

(** Over a run in which the active UID changes there is a first stretch
    of the poll goroutine that changes it. *)
Lemma run_changes_uid (cfg : NfcConfig) (mid : list Event) :
  forall sys,
    UID (activeCard (svc (fst (run cfg mid sys))))
      <> UID (activeCard (svc sys)) ->
    exists pre io post,
      mid = pre ++ PollerRuns io :: post /\
      UID (activeCard (svc (fst (run cfg pre sys))))
        = UID (activeCard (svc sys)) /\
      (forgets (device (tick_io io))
               (activeCard (svc (fst (run cfg pre sys)))) \/
       displaces (device (tick_io io))
                 (activeCard (svc (fst (run cfg pre sys))))) /\
      UID (activeCard
             (svc (fst (step cfg (PollerRuns io)
                             (fst (run cfg pre sys))))))
        <> UID (activeCard (svc sys)).
Proof.
  induction mid as [| ev rest IH]; intros sys Hne.
  - contradiction Hne. reflexivity.
  - destruct (string_dec
                (UID (activeCard (svc (fst (step cfg ev sys)))))
                (UID (activeCard (svc sys)))) as [Heq | Hch].
    + rewrite run_cons_fst in Hne. rewrite <- Heq in Hne.
      destruct (IH _ Hne) as (pre & io & post & -> & Hu & Hwhy & Hafter).
      exists (ev :: pre), io, post.
      rewrite run_cons_fst.
      split; [reflexivity | split; [congruence | split; [exact Hwhy |]]].
      rewrite <- Heq. exact Hafter.
    + destruct (step_changes_uid cfg ev sys Hch) as (io & -> & Hwhy).
      exists [], io, rest.
      split; [reflexivity | split; [reflexivity | split; [exact Hwhy |]]].
      exact Hch.
Qed.

(** A stretch of the poll goroutine that launches ends with an active
    card whose UID is not empty and was not the active UID before, and
    it found the launcher enabled. *)
Lemma step_launch (cfg : NfcConfig) (io : PollerIO) (sys : System) :
  In LaunchCard (snd (step cfg (PollerRuns io) sys)) ->
  UID (activeCard (svc (fst (step cfg (PollerRuns io) sys)))) <> "" /\
  UID (activeCard (svc (fst (step cfg (PollerRuns io) sys))))
    <> UID (activeCard (svc sys)) /\
  disableLauncher (svc sys) = false.
Proof.
  cbn [step]. unfold pollerStep. destruct (poller sys) as [| le | why].
  - destruct (openDeviceWithRetries openFuel cfg (open_io io))
      as [[[e |] tries] |]; try (intros H; contradiction H).
    destruct (init_err io); intros H; contradiction H.
  - destruct (ShouldStopService (svc sys)); [intros H; contradiction H |].
    pose proof (loopBody_activeCard cfg (tick_io io) (svc sys) le) as Ha.
    pose proof (loopBody_launches cfg (tick_io io) (svc sys) le) as Hn.
    intros Hin.
    assert (Hin' : In LaunchCard
                     (effects (loopBody cfg (tick_io io) (svc sys) le))).
    { destruct (next (loopBody cfg (tick_io io) (svc sys) le)); exact Hin. }
    apply occurrences_In in Hin'. rewrite Hn in Hin'.
    destruct (isArrival (device (tick_io io)) (activeCard (svc sys)))
      eqn:Harr; [| simpl in Hin'; congruence].
    destruct (disableLauncher (svc sys)); [simpl in Hin'; congruence |].
    apply isArrival_arrival in Harr. destruct Harr as (_ & H1 & H2).
    destruct (next (loopBody cfg (tick_io io) (svc sys) le));
      cbn [fst svc]; rewrite Ha; repeat split; assumption.
  - intros H. contradiction H.
Qed.

(** C4, as amended.  When the UID a poll detects is the active
    card's UID, [pollDevice] returns the active card unchanged and the
    iteration does nothing but sleep: no launch, no sound, no last-scan write.  Any
    iteration launches once when [pollDevice] reports a new card (a UID
    that is not empty and differs from the active card's) and the
    launcher is enabled, and not at all otherwise, so not for a new card
    that arrives while the launcher is disabled.  A launch for a UID
    happens only in an iteration that starts with another active UID and
    ends with that UID active; hence, over any run of the service, a
    launch for a UID that was the active UID earlier comes only after a
    poll in between changed the active UID away from it, and that poll
    either found no tag more than 5 s after the card's [ScanTime] or
    found a tag with another UID, which may be the empty UID and needs
    no time to pass. *)
Theorem one_launch_per_arrival (cfg : NfcConfig) (same io : TickIO)
    (s : ServiceState) (le : time.Time) :
  sees (device same) (UID (activeCard s)) ->
  let r0 := loopBody cfg same s le in
  let r := loopBody cfg io s le in
  (pollDevice (device same) (activeCard s) = (activeCard s, None) /\
   effects r0 = [Sleep periodBetweenLoop] /\
   activeCard (state' r0) = activeCard s) /\
  occurrences isLaunch (effects r) =
    (if isArrival (device io) (activeCard s) && negb (disableLauncher s)
     then 1%nat else 0%nat) /\
  (In LaunchCard (effects r) ->
     arrival (device io) (activeCard s) (activeCard (state' r)) /\
     disableLauncher s = false) /\
  (forall (sys : System) (mid : list Event) (again : PollerIO),
     svc sys = s ->
     let sys2 := fst (run cfg mid sys) in
     let out := step cfg (PollerRuns again) sys2 in
     In LaunchCard (snd out) ->
     UID (activeCard (svc (fst out))) = UID (activeCard s) ->
     exists pre ev post,
       mid = pre ++ PollerRuns ev :: post /\
       let before := fst (run cfg pre sys) in
       UID (activeCard (svc before)) = UID (activeCard s) /\
       (forgets (device (tick_io ev)) (activeCard (svc before)) \/
        displaces (device (tick_io ev)) (activeCard (svc before))) /\
       UID (activeCard (svc (fst (step cfg (PollerRuns ev) before))))
         <> UID (activeCard s)).
Proof.
  intros Hsee r0 r.
  pose proof (pollDevice_same _ _ Hsee) as Hsame.
  split; [split; [exact Hsame | split] | split; [| split]].
  - unfold r0, loopBody, GetActiveCard. rewrite Hsame. simpl.
    rewrite String.eqb_refl, orb_true_r. reflexivity.
  - unfold r0. rewrite loopBody_activeCard, Hsame. reflexivity.
  - apply loopBody_launches.
  - intros Hin. apply occurrences_In in Hin.
    unfold r in *. rewrite loopBody_launches in Hin.
    rewrite loopBody_activeCard.
    destruct (isArrival (device io) (activeCard s)) eqn:Harr;
      [| simpl in Hin; congruence].
    destruct (disableLauncher s); [simpl in Hin; congruence |].
    split; [apply isArrival_arrival; exact Harr | reflexivity].
  - intros sys mid again Hs sys2 out Hin Hu. subst s.
    destruct (step_launch cfg again sys2 Hin) as (_ & Hnew & _).
    fold out in Hnew. rewrite Hu in Hnew.
    assert (Hch : UID (activeCard (svc (fst (run cfg mid sys))))
                  <> UID (activeCard (svc sys))).
    { intros Heq. apply Hnew. symmetry. exact Heq. }
    destruct (run_changes_uid cfg mid sys Hch)
      as (pre & ev & post & Hmid & Hbefore & Hwhy & Hafter).
    exists pre, ev, post.
    split; [exact Hmid | split; [exact Hbefore | split; assumption]].
Qed.

End Arrivals.

Section LauncherGate.
Context {I : Imports}.




End LauncherGate.

Section Decode.
Context {I : Imports}.

Lemma SetActiveCard_fields (s : ServiceState) (card : Card) :
  activeCard (SetActiveCard s card) = card /\
  (UID card <> "" -> lastScanned (SetActiveCard s card) = card).
Proof.
  split; [reflexivity |]. intros Hne. simpl.
  apply String.eqb_neq in Hne. rewrite Hne. reflexivity.
Qed.

(** With no error from [pollDevice] the iteration stores its card. *)
Lemma loopBody_stores (cfg : NfcConfig) (io : TickIO) (s : ServiceState)
    (le : time.Time) (card : Card) :
  pollDevice (device io) (activeCard s) = (card, None) ->
  state' (loopBody cfg io s le) = SetActiveCard s card.
Proof.
  intros Hp. unfold loopBody, GetActiveCard. rewrite Hp. simpl.
  break_ifs; reflexivity.
Qed.

(** C5, as amended.  For a tag that is not the active card:
    when its type is not NTAG, or it is an NTAG that was read,
    [pollDevice] returns a new card and no error, with the tag's UID,
    the time of the poll, its type, and as text what [ParseRecordText]
    makes of the bytes at hand - no bytes for a type that is neither
    NTAG nor Mifare, the bytes [readMifare] gave for a Mifare whether
    or not the read failed, the bytes [readNtag] gave for an NTAG (or
    those of [readMifare], should the two type names coincide) - so
    the text is empty when these do not decode; the iteration stores
    that card as active card and, when its UID is not empty, as last
    scanned card.  When the tag is an NTAG and reading it fails,
    [pollDevice] returns the error and the old active card, and the
    iteration leaves the state as it was. *)
Theorem decode_failure_is_arrival_unless_ntag_read_fails
    (cfg : NfcConfig) (io : TickIO) (s : ServiceState) (le : time.Time) :
  let d := device io in
  let uid := getCardUID (target (polled d)) in
  let ty := getCardType (target (polled d)) in
  count (polled d) > 0 ->
  benign (poll_err (polled d)) ->
  uid <> UID (activeCard s) ->
  let r := loopBody cfg io s le in
  (ty <> TypeNTAG \/ snd (readNtag d) = None ->
   exists card,
     pollDevice d (activeCard s) = (card, None) /\
     UID card = uid /\ ScanTime card = now d /\
     (ty <> TypeNTAG -> ty <> TypeMifare ->
        CardType card = ty /\ Text card = ParseRecordText []) /\
     (ty <> TypeNTAG -> ty = TypeMifare ->
        CardType card = TypeMifare /\
        Text card = ParseRecordText (fst (readMifare d))) /\
     (ty = TypeNTAG -> TypeNTAG <> TypeMifare ->
        CardType card = TypeNTAG /\
        Text card = ParseRecordText (fst (readNtag d))) /\
     (ty = TypeNTAG -> TypeNTAG = TypeMifare ->
        CardType card = TypeMifare /\
        Text card = ParseRecordText (fst (readMifare d))) /\
     activeCard (state' r) = card /\
     (uid <> "" -> lastScanned (state' r) = card)) /\
  (forall e, ty = TypeNTAG -> snd (readNtag d) = Some e ->
     pollDevice d (activeCard s) =
       (activeCard s, Some (Errorf "error reading ntag: " e)) /\
     state' r = s).
Proof.
  intros d uid ty Hc Hb Hnew r.
  assert (Hshape : pollDevice d (activeCard s) =
    match (if String.eqb ty TypeNTAG then snd (readNtag d) else None) with
    | Some e => (activeCard s, Some (Errorf "error reading ntag: " e))
    | None =>
      ({| CardType :=
            if String.eqb (if String.eqb ty TypeNTAG then TypeNTAG else ty)
                          TypeMifare
            then TypeMifare
            else if String.eqb ty TypeNTAG then TypeNTAG else ty;
          UID := uid;
          Text := ParseRecordText
                    (if String.eqb (if String.eqb ty TypeNTAG
                                    then TypeNTAG else ty) TypeMifare
                     then fst (readMifare d)
                     else if String.eqb ty TypeNTAG
                          then fst (readNtag d) else []);
          ScanTime := now d |}, None)
    end).
  { unfold pollDevice. rewrite (benign_passes _ Hb).
    destruct (Z.leb_spec (count (polled d)) 0) as [Hle | _]; [lia |].
    apply String.eqb_neq in Hnew. fold uid. rewrite Hnew. reflexivity. }
  split.
  - intros Hok.
    assert (Hgo : (if String.eqb ty TypeNTAG then snd (readNtag d) else None)
                  = None).
    { destruct Hok as [Hty | Hrd].
      - apply String.eqb_neq in Hty. rewrite Hty. reflexivity.
      - rewrite Hrd. destruct (String.eqb ty TypeNTAG); reflexivity. }
    rewrite Hgo in Hshape.
    eexists. split; [exact Hshape |].
    split; [reflexivity |]. split; [reflexivity |].
    split; [| split; [| split; [| split]]].
    + intros Hn Hm. apply String.eqb_neq in Hn, Hm. simpl.
      rewrite Hn, Hm. split; reflexivity.
    + intros Hn Hm. apply String.eqb_neq in Hn. simpl.
      rewrite Hn, Hm, String.eqb_refl. split; reflexivity.
    + intros Hn Hm. apply String.eqb_neq in Hm. simpl.
      rewrite Hn, String.eqb_refl, Hm. split; reflexivity.
    + intros Hn Hm. simpl.
      rewrite Hn, String.eqb_refl, Hm, String.eqb_refl. split; reflexivity.
    + unfold r. rewrite (loopBody_stores cfg io s le _ Hshape).
      apply SetActiveCard_fields.
  - intros e Hty Hrd. rewrite Hty, String.eqb_refl, Hrd in Hshape.
    split; [exact Hshape |].
    unfold r, loopBody, GetActiveCard. fold d. rewrite Hshape. reflexivity.
Qed.

End Decode.

Section Opening.
Context {I : Imports}.

(** The retry loop returns within [connectMaxTries - tries + 1]
    iterations: every call before the last one failed, the result is
    that of the last call, and [tries] has not passed the bound. *)
Lemma openLoop_returns (opens : nat -> string -> option error) (cs : string) :
  forall (fuel k : nat) (tries : Z),
    0 <= tries <= connectMaxTries ->
    (Z.to_nat (connectMaxTries - tries) < fuel)%nat ->
    exists n : nat,
      openLoop fuel opens cs k tries =
        Some (opens (k + n)%nat cs, tries + Z.of_nat n) /\
      tries + Z.of_nat n <= connectMaxTries /\
      (forall j, (j < n)%nat -> opens (k + j)%nat cs <> None) /\
      (opens (k + n)%nat cs <> None -> tries + Z.of_nat n = connectMaxTries).
Proof.
  induction fuel as [| fuel IH]; intros k tries Hrange Hfuel; [lia |].
  simpl. destruct (opens k cs) as [e |] eqn:Hk.
  - destruct (Z.geb_spec tries connectMaxTries) as [Hge | Hlt].
    + exists 0%nat. rewrite Nat.add_0_r, Z.add_0_r, Hk.
      split; [reflexivity | split; [lia | split; [| lia]]].
      intros j Hj; lia.
    + destruct (IH (S k) (tries + 1)) as (n & Hres & Hle & Hprev & Hlast);
        [lia | lia |].
      exists (S n). rewrite Nat.add_succ_r. simpl Nat.add in *.
      replace (tries + Z.of_nat (S n)) with (tries + 1 + Z.of_nat n) by lia.
      split; [exact Hres | split; [exact Hle | split; [| exact Hlast]]].
      intros j Hj. destruct j as [| j].
      * rewrite Nat.add_0_r, Hk. discriminate.
      * rewrite Nat.add_succ_r. apply Hprev. lia.
  - exists 0%nat. rewrite Nat.add_0_r, Z.add_0_r, Hk.
    split; [reflexivity | split; [lia | split]].
    + intros j Hj; lia.
    + intros Hne. congruence.
Qed.

Lemma openDeviceWithRetries_loop (fuel : nat) (config : NfcConfig)
    (oio : OpenIO) :
  openDeviceWithRetries fuel config oio =
  openLoop fuel (nfcOpen oio) (fst (chosenConnection config oio))
           (snd (chosenConnection config oio)) 0.
Proof.
  unfold openDeviceWithRetries, chosenConnection.
  destruct (String.eqb (ConnectionString config) "" && ProbeDevice config);
    [destruct (detectConnectionString oio) |]; reflexivity.
Qed.

(** With fuel for one attempt and [connectMaxTries] retries the
    function returns, after [n + 1] calls of [nfc.Open]. *)
Lemma openDeviceWithRetries_returns (fuel : nat) (config : NfcConfig)
    (oio : OpenIO) :
  (openFuel <= fuel)%nat ->
  let cs := fst (chosenConnection config oio) in
  let k0 := snd (chosenConnection config oio) in
  exists n : nat,
    openDeviceWithRetries fuel config oio =
      Some (nfcOpen oio (k0 + n)%nat cs, Z.of_nat n) /\
    Z.of_nat n <= connectMaxTries /\
    (forall j, (j < n)%nat -> nfcOpen oio (k0 + j)%nat cs <> None) /\
    (nfcOpen oio (k0 + n)%nat cs <> None -> Z.of_nat n = connectMaxTries).
Proof.
  intros Hfuel cs k0.
  destruct (openLoop_returns (nfcOpen oio) cs fuel k0 0)
    as (n & Hres & Hle & Hprev & Hlast).
  { unfold connectMaxTries. lia. }
  { unfold openFuel, connectMaxTries in *. simpl in *. lia. }
  rewrite openDeviceWithRetries_loop. fold cs k0.
  rewrite Z.add_0_l in *. exists n.
  split; [exact Hres | split; [exact Hle | split; [exact Hprev | exact Hlast]]].
Qed.

(** C8.  With fuel for one attempt and [connectMaxTries] retries,
    [openDeviceWithRetries] always returns: it has made [tries + 1]
    calls of [nfc.Open] with [tries <= connectMaxTries], all but the
    last of them failed, and it returns the result of the last one.
    When every open attempt fails it returns after the initial attempt
    and exactly [connectMaxTries] (10) retries, with the error of the
    eleventh attempt. *)
Theorem openDeviceWithRetries_bounded (fuel : nat) (config : NfcConfig)
    (oio : OpenIO) :
  (openFuel <= fuel)%nat ->
  let cs := fst (chosenConnection config oio) in
  let k0 := snd (chosenConnection config oio) in
  (exists tries : nat,
      openDeviceWithRetries fuel config oio =
        Some (nfcOpen oio (k0 + tries)%nat cs, Z.of_nat tries) /\
      Z.of_nat tries <= connectMaxTries /\
      (forall j, (j < tries)%nat -> nfcOpen oio (k0 + j)%nat cs <> None)) /\
  ((forall k c, nfcOpen oio k c <> None) ->
   openDeviceWithRetries fuel config oio =
     Some (nfcOpen oio (k0 + 10)%nat cs, connectMaxTries)).
Proof.
  intros Hfuel cs k0.
  destruct (openDeviceWithRetries_returns fuel config oio Hfuel)
    as (n & Hres & Hle & Hprev & Hlast).
  fold cs k0 in Hres, Hprev, Hlast. split.
  - exists n. split; [exact Hres | split; [exact Hle | exact Hprev]].
  - intros Hall. specialize (Hlast (Hall _ _)).
    assert (n = 10%nat) by (unfold connectMaxTries in Hlast; lia). subst n.
    exact Hres.
Qed.

End Opening.

Section PollerLife.
Context {I : Imports}.

Lemma handleConn_stopService (rd : ReadResult) (s : ServiceState) :
  stopService (fst (handleConn rd s)) = stopService s.
Proof.
  unfold handleConn. destruct rd as [e | data]; [reflexivity |].
  break_ifs; reflexivity.
Qed.

Lemma pollerStep_stopService (cfg : NfcConfig) (io : PollerIO)
    (s : ServiceState) (p : Poller) :
  stopService (fst (fst (pollerStep cfg io s p))) = stopService s.
Proof.
  unfold pollerStep. destruct p as [| le | why]; simpl.
  - destruct (openDeviceWithRetries openFuel cfg (open_io io))
      as [[[e |] tries] |]; try reflexivity.
    destruct (init_err io); reflexivity.
  - destruct (ShouldStopService s); [reflexivity |].
    pose proof (loopBody_flags cfg (tick_io io) s le) as [Hs _].
    destruct (next (loopBody cfg (tick_io io) s le)); exact Hs.
  - reflexivity.
Qed.

(** The goroutine returns only from the three places of the code. *)
Lemma pollerStep_exit (cfg : NfcConfig) (io : PollerIO) (s : ServiceState)
    (p : Poller) (why : ExitReason) :
  ~ exited p ->
  snd (fst (pollerStep cfg io s p)) = Exited why ->
  (why = StopRequested /\ stopService s = true /\ exists le, p = Polling le)
  \/ (p = Connecting /\ exists e tries,
        why = OpenFailed e /\
        openDeviceWithRetries openFuel cfg (open_io io) = Some (Some e, tries))
  \/ (p = Connecting /\ exists e tries,
        why = InitFailed e /\ init_err io = Some e /\
        openDeviceWithRetries openFuel cfg (open_io io) = Some (None, tries)).
Proof.
  intros Hlive. unfold pollerStep. destruct p as [| le | w]; simpl.
  - destruct (openDeviceWithRetries openFuel cfg (open_io io))
      as [[[e |] tries] |] eqn:Hopen; simpl; try discriminate.
    + intros H. injection H as <-. right. left. split; [reflexivity |].
      exists e, tries. split; reflexivity.
    + destruct (init_err io) as [e |] eqn:Hinit; simpl; [| discriminate].
      intros H. injection H as <-. right. right. split; [reflexivity |].
      exists e, tries. repeat split; reflexivity.
  - unfold ShouldStopService. destruct (stopService s) eqn:Hstop; simpl.
    + intros H. injection H as <-. left.
      repeat split. exists le. reflexivity.
    + destruct (next (loopBody cfg (tick_io io) s le)); discriminate.
  - exfalso. apply Hlive. exact Logic.I.
Qed.

Lemma step_sustained (cfg : NfcConfig) (ev : Event) (sys : System) :
  sustaining cfg ev ->
  ~ exited (poller sys) -> stopService (svc sys) = false ->
  ~ exited (poller (fst (step cfg ev sys))) /\
  stopService (svc (fst (step cfg ev sys))) = false.
Proof.
  intros Hev Hlive Hstop. destruct ev as [io | rd |]; simpl in *.
  - pose proof (pollerStep_stopService cfg io (svc sys) (poller sys)) as Hs.
    pose proof (pollerStep_exit cfg io (svc sys) (poller sys)) as Hx.
    destruct (pollerStep cfg io (svc sys) (poller sys)) as [[s' p'] eff].
    simpl in *. split; [| congruence].
    destruct p' as [| le | why]; try (intros H; exact H).
    intros _. destruct Hev as [[t Hopen] Hinit].
    destruct (Hx why Hlive eq_refl)
      as [(_ & Habs & _) | [(_ & e & t' & _ & Ho) | (_ & e & t' & _ & Hi & _)]];
      congruence.
  - unfold ShouldStopService. rewrite Hstop.
    pose proof (handleConn_stopService rd (svc sys)) as Hs.
    destruct (handleConn rd (svc sys)); simpl in *. split; congruence.
  - contradiction.
Qed.

Lemma run_sustained (cfg : NfcConfig) (evs : list Event) :
  forall sys : System,
    Forall (sustaining cfg) evs ->
    ~ exited (poller sys) -> stopService (svc sys) = false ->
    ~ exited (poller (fst (run cfg evs sys))).
Proof.
  induction evs as [| ev rest IH]; intros sys Hall Hlive Hstop;
    [exact Hlive |].
  inversion Hall as [| ? ? Hev Hrest]; subst.
  destruct (step_sustained cfg ev sys Hev Hlive Hstop) as [Hl1 Hs1].
  simpl. destruct (step cfg ev sys) as [sys1 eff1]. simpl in *.
  specialize (IH sys1 Hrest Hl1 Hs1).
  destruct (run cfg rest sys1) as [sys2 eff2]. exact IH.
Qed.

(** C2, as amended.  The poll goroutine returns only when the stop flag
    is set at the top of the loop, when [openDeviceWithRetries] fails
    (at the start or when re-opening), or when [InitiatorInit] fails.
    After an EIO poll error it goes back to [reconnect] without
    sleeping and, when the device opens within the retries and
    initialises, polls again; through any run in which the service is
    not stopped and every open succeeds within the retries it is never
    found returned, however many disconnects occur. *)
Theorem poller_returns_only_on_stop_or_failed_connect (cfg : NfcConfig)
    (io io' : PollerIO) (s : ServiceState) (le : time.Time)
    (evs : list Event) (sys : System) :
  stopService s = false ->
  poll_err (polled (device (tick_io io))) = Some (NfcError nfc.EIO) ->
  connects cfg io' ->
  Forall (sustaining cfg) evs ->
  ~ exited (poller sys) -> stopService (svc sys) = false ->
  pollerStep cfg io s (Polling le) =
    (s, Connecting, playFailLimited cfg (now_check (tick_io io)) le) /\
  pollerStep cfg io' s Connecting = (s, Polling time.zero, []) /\
  ~ exited (poller (fst (run cfg evs sys))) /\
  (forall io1 s1 p1 why,
     ~ exited p1 ->
     snd (fst (pollerStep cfg io1 s1 p1)) = Exited why ->
     (why = StopRequested /\ stopService s1 = true)
     \/ (exists e tries, why = OpenFailed e /\
           openDeviceWithRetries openFuel cfg (open_io io1)
             = Some (Some e, tries))
     \/ (exists e, why = InitFailed e /\ init_err io1 = Some e)).
Proof.
  intros Hstop Hio [[t Hopen] Hinit] Hall Hlive Hsys.
  split; [| split; [| split]].
  - unfold pollerStep, ShouldStopService. rewrite Hstop.
    unfold loopBody, pollDevice. rewrite Hio. reflexivity.
  - unfold pollerStep. rewrite Hopen, Hinit. reflexivity.
  - apply run_sustained; assumption.
  - intros io1 s1 p1 why Hl Hx.
    destruct (pollerStep_exit cfg io1 s1 p1 why Hl Hx)
      as [(-> & Hs & _) | [(_ & e & t' & -> & Ho) | (_ & e & t' & -> & Hi & _)]].
    + left. split; [reflexivity | exact Hs].
    + right. left. exists e, t'. split; [reflexivity | exact Ho].
    + right. right. exists e. split; [reflexivity | exact Hi].
Qed.

End PollerLife.

Section ControlSocket.
Context {I : Imports}.

Lemma nonempty_length (data : string) :
  data <> "" -> (String.length data =? 0)%nat = false.
Proof. destruct data; [congruence | reflexivity]. Qed.

(** The decimal text of an integer reads back, with the library's
    reader, as the digits of that integer. *)
Lemma formatInt_reads_back (z : Z) :
  NilZero.int_of_string (formatInt z) = Some (Z.to_int z).
Proof.
  unfold formatInt. apply NilZero.isi; destruct z as [| p | p];
    try discriminate; unfold Z.to_int; intros H; injection H as H;
    exact (DecimalPos.Unsigned.to_uint_nonnil p H).
Qed.

(** C6.  For a request that is [status] once trimmed, the reply is, when
    a card has been scanned, the decimal Unix time of its scan, its
    UID, [true] or [false] and its text, separated by commas, and
    [0,,true,] or [0,,false,] when none has; the third field is [true]
    when the launcher is not disabled and [false] when it is.
    [disable], [enable] and unknown commands are answered with an empty
    payload (the first two after setting or clearing the flag and
    creating or removing its file). *)
Theorem status_reply (data : string) (s : ServiceState) :
  data <> "" ->
  let last := lastScanned s in
  let enabled := if disableLauncher s then "false" else "true" in
  let cmd := TrimSpace data in
  (cmd = "status" -> UID last <> "" ->
     exists ts,
       NilZero.int_of_string ts =
         Some (Z.to_int (time.Unix (ScanTime last))) /\
       handleConn (ReadBytes data) s =
         (s, [ConnWrite (ts ++ "," ++ UID last ++ "," ++ enabled ++ "," ++
                         Text last)%string])) /\
  (cmd = "status" -> UID last = "" ->
     handleConn (ReadBytes data) s =
       (s, [ConnWrite ("0,," ++ enabled ++ ",")%string])) /\
  (cmd = "disable" ->
     handleConn (ReadBytes data) s =
       (set_disableLauncher s true, [CreateDisabledFile; ConnWrite ""])) /\
  (cmd = "enable" ->
     handleConn (ReadBytes data) s =
       (set_disableLauncher s false, [RemoveDisabledFile; ConnWrite ""])) /\
  (cmd <> "status" -> cmd <> "disable" -> cmd <> "enable" ->
     handleConn (ReadBytes data) s = (s, [ConnWrite ""])).
Proof.
  intros Hdata last enabled cmd.
  unfold handleConn. rewrite (nonempty_length _ Hdata). fold cmd.
  assert (Hbool : formatBool (negb (IsLauncherDisabled s)) = enabled).
  { unfold enabled, IsLauncherDisabled.
    destruct (disableLauncher s); reflexivity. }
  split; [| split; [| split; [| split]]].
  - intros -> Hu. simpl. unfold statusPayload, GetLastScanned.
    apply String.eqb_neq in Hu. fold last. rewrite Hu, Hbool.
    exists (formatInt (time.Unix (ScanTime last))).
    split; [apply formatInt_reads_back | reflexivity].
  - intros -> Hu. simpl. unfold statusPayload, GetLastScanned.
    fold last. rewrite Hu, Hbool. reflexivity.
  - intros ->. reflexivity.
  - intros ->. reflexivity.
  - intros H1 H2 H3. apply String.eqb_neq in H1, H2, H3.
    rewrite H1, H2, H3. reflexivity.
Qed.

End ControlSocket.

Section RemoteHandler.
Import remote.

(** C9.  When [FolderToSystems] finds no system for the decoded path,
    the handler answers 400 and then, evaluating the arguments of the
    log call, indexes the empty slice at 0: it panics instead of
    returning.  The log call of that branch is never made, on any
    request. *)
Theorem LaunchGame_indexes_empty_slice (System : Type)
    (Id : System -> string) (FolderToSystems : string -> list System)
    (mister_LaunchGame : System -> string -> option error)
    (path : string) (decoded : error + string) :
  FolderToSystems path = [] ->
  LaunchGame System Id FolderToSystems mister_LaunchGame (inr path) =
    ([HttpError (Literal "no system found for game") StatusBadRequest],
     Panic (IndexOutOfRange 0 0)) /\
  (forall format args,
     ~ In (LogError format args)
          (fst (LaunchGame System Id FolderToSystems mister_LaunchGame
                           decoded))).
Proof.
  intros Hnone. split.
  - unfold LaunchGame. rewrite Hnone. reflexivity.
  - intros format args. unfold LaunchGame.
    destruct decoded as [err | p].
    + simpl. intros [H | [H | H]]; try discriminate; exact H.
    + destruct (FolderToSystems p) as [| sys rest]; simpl.
      * intros [H | H]; [discriminate | exact H].
      * destruct (mister_LaunchGame sys p); simpl;
          [intros [H | [H | H]]; try discriminate; exact H | intros H; exact H].
Qed.

End RemoteHandler.

Section WriteMode.
Context {I : Imports}.

Lemma waitStopped_shape (running : nat -> bool) :
  forall (fuel k : nat) (tries : Z),
    1 <= tries -> (Z.to_nat tries <= fuel)%nat ->
    exists t r,
      waitStopped fuel running k tries = Some (t, r) /\
      Forall supervising t /\ (r = inr tt \/ r = inl 1).
Proof.
  induction fuel as [| fuel IH]; intros k tries Hpos Hfuel; [lia |].
  simpl. destruct (running k); simpl.
  2: { exists [], (inr tt). repeat split; [constructor | left; reflexivity]. }
  destruct (Z.leb_spec (tries - 1) 0) as [Hlast | Hmore].
  - exists [Nap (100 * time.Millisecond)], (inl 1).
    split; [reflexivity | split; [| right; reflexivity]].
    constructor; [right; eexists; reflexivity | constructor].
  - destruct (IH (S k) (tries - 1)) as (t & r & Hw & Ht & Hr); [lia | lia |].
    rewrite Hw. exists (Nap (100 * time.Millisecond) :: t), r.
    split; [reflexivity | split; [| exact Hr]].
    constructor; [right; eexists; reflexivity | exact Ht].
Qed.

Lemma stopPhase_shape (fuel : nat) (io : WriteIO) :
  (15 <= fuel)%nat ->
  exists t r,
    stopPhase fuel io = Some (t, r) /\
    Forall supervising t /\
    (r = inr tt \/ (r = inl 1 /\ running io 0%nat = true)).
Proof.
  intros Hfuel. unfold stopPhase.
  destruct (running io 0%nat) eqn:Hrun.
  2: { exists [], (inr tt). repeat split; [constructor | left; reflexivity]. }
  destruct (waitStopped_shape (running io) fuel 1 15)
    as (t & r & Hw & Ht & Hr); [lia | simpl; lia |].
  rewrite Hw. destruct (stop_err io) as [e |]; simpl.
  - exists [SvcStop], (inl 1).
    split; [reflexivity | split; [| right; split; reflexivity]].
    constructor; [left; reflexivity | constructor].
  - exists (SvcStop :: t), r.
    split; [reflexivity | split].
    + constructor; [left; reflexivity | exact Ht].
    + destruct Hr as [-> | ->]; [left | right; split]; reflexivity.
Qed.

Lemma waitStopped_seen_stopped (running : nat -> bool) :
  forall (fuel k : nat) (tries : Z) (t : list Action),
    1 <= tries ->
    waitStopped fuel running k tries = Some (t, inr tt) ->
    exists j, (k <= j)%nat /\ Z.of_nat j < Z.of_nat k + tries /\
              running j = false.
Proof.
  induction fuel as [| fuel IH]; intros k tries t Hpos Hw; [discriminate |].
  simpl in Hw. destruct (running k) eqn:Hk; simpl in Hw.
  2: { exists k. repeat split; [lia | lia | exact Hk]. }
  destruct (Z.leb_spec (tries - 1) 0) as [Hlast | Hmore];
    [discriminate |].
  destruct (waitStopped fuel running (S k) (tries - 1)) as [[t' r'] |] eqn:Hrec;
    [| discriminate].
  simpl in Hw. destruct r' as [code | []]; [discriminate |].
  destruct (IH (S k) (tries - 1) t') as (j & Hj1 & Hj2 & Hj3); [lia | |].
  { exact Hrec. }
  exists j. repeat split; [lia | lia | exact Hj3].
Qed.

Lemma waitStopped_stops (running : nat -> bool) :
  forall (fuel k j : nat) (tries : Z),
    1 <= tries -> (Z.to_nat tries <= fuel)%nat ->
    (k <= j)%nat -> Z.of_nat j < Z.of_nat k + tries ->
    running j = false ->
    exists t, waitStopped fuel running k tries = Some (t, inr tt).
Proof.
  induction fuel as [| fuel IH]; intros k j tries Hpos Hfuel Hkj Hj Hstop;
    [lia |].
  cbn [waitStopped]. destruct (running k) eqn:Hk; cbn [negb].
  2: { exists []. reflexivity. }
  assert (k <> j) by congruence.
  destruct (Z.leb_spec (tries - 1) 0) as [Hlast | Hmore]; [lia |].
  destruct (IH (S k) j (tries - 1)) as (t & Ht); try lia; [exact Hstop |].
  rewrite Ht. eexists. reflexivity.
Qed.

(** The stop phase lets write mode go on exactly when the service is
    seen stopped. *)
Lemma stopPhase_passes (fuel : nat) (io : WriteIO) (t : list Action)
    (r : Z + unit) :
  (15 <= fuel)%nat ->
  stopPhase fuel io = Some (t, r) ->
  (r = inr tt <-> serviceStopped io).
Proof.
  intros Hfuel. unfold stopPhase, serviceStopped.
  destruct (running io 0%nat) eqn:Hrun.
  2: { intros H. injection H as <- <-. split; auto. }
  destruct (waitStopped fuel (running io) 1 15) as [[tw rw] |] eqn:Hw;
    [| discriminate].
  destruct (stop_err io) as [e |]; cbn [is_err]; intros H.
  - injection H as <- <-. split; [discriminate |].
    intros [Habs | [Habs _]]; discriminate.
  - assert (Hr : r = rw).
    { destruct rw as [c | []]; injection H as <- <-; reflexivity. }
    subst r. split.
    + intros ->. right. split; [reflexivity |].
      destruct (waitStopped_seen_stopped (running io) fuel 1 15 tw
                  ltac:(lia) Hw) as (j & Hj1 & Hj2 & Hj3).
      exists j. split; [lia | exact Hj3].
    + intros [Habs | [_ (j & Hj & Hstop)]]; [discriminate |].
      assert (H15 : (Z.to_nat 15 <= fuel)%nat) by (simpl; lia).
      assert (Hlt : Z.of_nat j < Z.of_nat 1 + 15) by lia.
      destruct (waitStopped_stops (running io) fuel 1 j 15
                  ltac:(lia) H15 (proj1 Hj) Hlt Hstop) as (t' & Ht').
      rewrite Hw in Ht'. injection Ht' as _ ->. reflexivity.
Qed.

Lemma supervising_not (t : list Action) (a : Action) :
  Forall supervising t -> ~ supervising a -> ~ In a t.
Proof.
  intros Ht Ha Hin. rewrite Forall_forall in Ht. exact (Ha (Ht a Hin)).
Qed.

Lemma last_app_nonempty (t1 t2 : list Action) (d : Action) :
  t2 <> [] -> last (t1 ++ t2) d = last t2 d.
Proof.
  intros Hne. induction t1 as [| a t1 IH]; [reflexivity |].
  simpl. rewrite IH. destruct (t1 ++ t2) eqn:Happ; [| reflexivity].
  apply app_eq_nil in Happ. destruct Happ; contradiction.
Qed.

Lemma writePhase_shape (text : string) (open_err : option error)
    (io : WriteIO) :
  exists t code,
    writePhase text open_err io = (t, inl code) /\
    In OpenDevice t /\
    (code = 0 \/ code = 1) /\
    (code = 0 <-> tagWritten text t io /\ restartSucceeds io) /\
    (running io 0%nat = true -> last t OpenDevice = SvcStart) /\
    (running io 0%nat = false -> ~ In SvcStart t).
Proof.
  unfold writePhase, restartService, tagWritten, restartSucceeds.
  destruct (running io 0%nat) eqn:Hrun;
  destruct open_err as [oe |];
  destruct (poll_err (w_polled io)) as [pe |];
  destruct (count (w_polled io) =? 0);
  destruct (String.eqb (getCardType (target (w_polled io))) TypeMifare);
  destruct (String.eqb (getCardType (target (w_polled io))) TypeNTAG);
  destruct (w_mifare io) as [me |] eqn:Hm;
  destruct (w_ntag io) as [ne |] eqn:Hn;
  destruct (start_err io) as [se |] eqn:Hs;
  simpl; eexists; eexists; (split; [reflexivity |]).
  all: split; [left; reflexivity |].
  all: split; [first [left; reflexivity | right; reflexivity] |].
  all: split; [| split].
  all: try (intros H; discriminate H).
  all: try (intros _; reflexivity).
  all: try (intros _; simpl; intuition discriminate).
  all: split.
  all: try (intros H; discriminate H).
  all: try (intros _; split;
            [first [left; eexists; split;
                      [solve [simpl; eauto 10] | reflexivity]
                   | right; split; [solve [simpl; eauto 10] | reflexivity]]
            | first [left; reflexivity | right; reflexivity]]).
  all: try (intros [[(uid & Hin & Hnone) | (Hin & Hnone)] [Hr | Hr]];
            try discriminate; try reflexivity;
            simpl in Hin; intuition discriminate).
Qed.

(** The write phase in terms of what it is given. *)
Lemma writePhase_inputs (text : string) (open_err : option error)
    (io : WriteIO) :
  exists t code,
    writePhase text open_err io = (t, inl code) /\
    (code = 0 <->
       open_err = None /\ poll_err (w_polled io) = None /\
       count (w_polled io) <> 0 /\ cardWritten io /\ restartSucceeds io) /\
    (forall a, In a t -> isWrite a = true ->
       open_err = None /\ poll_err (w_polled io) = None /\
       count (w_polled io) <> 0 /\ writeFor text io a) /\
    (open_err = None -> poll_err (w_polled io) = None ->
     count (w_polled io) <> 0 ->
     forall a, writeFor text io a -> In a t).
Proof.
  unfold writePhase, restartService, cardWritten, restartSucceeds, writeFor.
  destruct (running io 0%nat) eqn:Hrun;
  destruct open_err as [oe |];
  destruct (poll_err (w_polled io)) as [pe |];
  destruct (Z.eqb_spec (count (w_polled io)) 0);
  destruct (String.eqb_spec (getCardType (target (w_polled io))) TypeMifare);
  destruct (String.eqb_spec (getCardType (target (w_polled io))) TypeNTAG);
  destruct (w_mifare io) as [me |] eqn:Hm;
  destruct (w_ntag io) as [ne |] eqn:Hn;
  destruct (start_err io) as [se |] eqn:Hs;
  simpl; eexists; eexists; (split; [reflexivity |]).
  all: split; [| split].
  all: try (split; [intros H0; discriminate H0 |];
            intros (H1 & H2 & H3 & H4 & H5);
            solve [discriminate | contradiction
                  | destruct H4 as [[? ?] | (? & ? & ?)];
                    solve [discriminate | contradiction | congruence]
                  | destruct H5; discriminate]).
  all: try (split; [intros _ | reflexivity];
            repeat split; auto; try congruence; fail).
  all: try (intros a Hin Hw; simpl in Hin;
            repeat (destruct Hin as [Hin | Hin];
                    [subst a; simpl in Hw;
                     first [discriminate Hw
                           | repeat split; auto; congruence]
                    |]);
            contradiction).
  all: try (intros H1 H2 H3 a Ha;
            solve [discriminate | contradiction
                  | destruct Ha as [[-> ?] | (-> & ? & ?)];
                    solve [contradiction | congruence | simpl; auto 10]]).
Qed.

Lemma tagWritten_after_stop (text : string) (t1 t2 : list Action)
    (io : WriteIO) :
  Forall supervising t1 ->
  tagWritten text (t1 ++ t2) io -> tagWritten text t2 io.
Proof.
  intros Ht1 [(uid & Hin & Hnone) | (Hin & Hnone)];
    apply in_app_or in Hin; destruct Hin as [Hin | Hin].
  - exfalso. revert Hin. apply supervising_not; [exact Ht1 |].
    intros [H | [d H]]; discriminate.
  - left. exists uid. split; assumption.
  - exfalso. revert Hin. apply supervising_not; [exact Ht1 |].
    intros [H | [d H]]; discriminate.
  - right. split; assumption.
Qed.

(** C7, as amended.  With fuel for its two loops [handleWriteCommand]
    always exits, with code 0 or 1.  It exits 0 exactly when the
    service was seen stopped, the device opened, the poll returned a
    card without error, the card is a Mifare or an NTAG and the write
    for its type succeeded, and the restart of the service, if one was
    due, did not fail; so it exits 1 on a stop error or timeout, an
    open failure, a poll error, no card, an unsupported type, a write
    error and a failed restart.  A tag write is called only in a run
    that got that far, and it is the write for the card's type.  On
    every exit after the stop phase the last thing done is to start
    the service if it was running when write mode began; the exits of
    the stop phase happen before the device is opened, with code 1 and
    without a start. *)
Theorem write_mode_exit (fuel : nat) (text : string) (config : NfcConfig)
    (io : WriteIO) :
  (15 <= fuel)%nat ->
  exists trace code open_err tries,
    handleWriteCommand fuel text config io = Some (trace, inl code) /\
    openDeviceWithRetries fuel config (w_open io) = Some (open_err, tries) /\
    (code = 0 \/ code = 1) /\
    (code = 0 <->
       serviceStopped io /\ open_err = None /\
       poll_err (w_polled io) = None /\ count (w_polled io) <> 0 /\
       cardWritten io /\ restartSucceeds io) /\
    (code = 0 <-> tagWritten text trace io /\ restartSucceeds io) /\
    (forall a, In a trace -> isWrite a = true ->
       serviceStopped io /\ open_err = None /\
       poll_err (w_polled io) = None /\ count (w_polled io) <> 0 /\
       writeFor text io a) /\
    (serviceStopped io -> open_err = None ->
     poll_err (w_polled io) = None -> count (w_polled io) <> 0 ->
     forall a, writeFor text io a -> In a trace) /\
    (In OpenDevice trace <-> serviceStopped io) /\
    (In OpenDevice trace -> running io 0%nat = true ->
       last trace OpenDevice = SvcStart) /\
    (~ In OpenDevice trace ->
       code = 1 /\ running io 0%nat = true /\ ~ In SvcStart trace) /\
    (running io 0%nat = false -> ~ In SvcStart trace).
Proof.
  intros Hfuel.
  destruct (stopPhase_shape fuel io Hfuel) as (t1 & r1 & Hstop & Ht1 & Hr1).
  pose proof (stopPhase_passes fuel io t1 r1 Hfuel Hstop) as Hpass.
  destruct (openDeviceWithRetries_returns fuel config (w_open io))
    as (tries & Hopen & _).
  { unfold openFuel, connectMaxTries. simpl. lia. }
  unfold handleWriteCommand. rewrite Hstop, Hopen.
  set (oe := nfcOpen (w_open io)
               (snd (chosenConnection config (w_open io)) + tries)%nat
               (fst (chosenConnection config (w_open io)))).
  assert (Hno : forall a, ~ supervising a -> ~ In a t1)
    by (intros a; apply supervising_not; exact Ht1).
  assert (HnoOpen : ~ In OpenDevice t1)
    by (apply Hno; intros [H | [d H]]; discriminate).
  assert (HnoStart : ~ In SvcStart t1)
    by (apply Hno; intros [H | [d H]]; discriminate).
  assert (HnoWrite : forall a, In a t1 -> isWrite a = true -> False).
  { intros a Hin Hw. rewrite Forall_forall in Ht1.
    destruct (Ht1 a Hin) as [-> | [d ->]]; discriminate. }
  destruct Hr1 as [-> | [-> Hrun]].
  - assert (Hss : serviceStopped io) by (apply Hpass; reflexivity).
    destruct (writePhase_shape text oe io)
      as (t2 & code & Hw & Hin & Hcode & Hiff & Hlast & Hnostart).
    destruct (writePhase_inputs text oe io)
      as (t2' & code' & Hw' & Hzero & Hwrites & Hthere).
    rewrite Hw in Hw'. injection Hw' as <- <-.
    exists (t1 ++ t2), code, oe, (Z.of_nat tries). simpl. rewrite Hw.
    split; [reflexivity | split; [reflexivity | split; [exact Hcode |]]].
    split; [| split; [| split; [| split; [| split; [| split; [| split]]]]]].
    + rewrite Hzero. split; [intros H; split; [exact Hss | exact H] |].
      intros [_ H]. exact H.
    + rewrite Hiff. split.
      * intros [[(uid & Hi & Hn) | (Hi & Hn)] Hr]; split; try exact Hr.
        -- left. exists uid. split; [apply in_or_app; right |]; assumption.
        -- right. split; [apply in_or_app; right |]; assumption.
      * intros [Htw Hr]. split; [| exact Hr].
        eapply tagWritten_after_stop; eassumption.
    + intros a Ha Hisw. apply in_app_or in Ha.
      destruct Ha as [Ha | Ha]; [destruct (HnoWrite a Ha Hisw) |].
      split; [exact Hss | exact (Hwrites a Ha Hisw)].
    + intros _ H1 H2 H3 a Ha. apply in_or_app. right.
      exact (Hthere H1 H2 H3 a Ha).
    + split; [intros _; exact Hss |].
      intros _. apply in_or_app. right. exact Hin.
    + intros _ Hrun. rewrite last_app_nonempty; [exact (Hlast Hrun) |].
      intros ->. exact Hin.
    + intros Habs. exfalso. apply Habs. apply in_or_app. right. exact Hin.
    + intros Hrun Hs. apply in_app_or in Hs. destruct Hs as [Hs | Hs];
        [exact (HnoStart Hs) | exact (Hnostart Hrun Hs)].
  - assert (Hns : ~ serviceStopped io).
    { intros H. apply Hpass in H. discriminate. }
    exists t1, 1, oe, (Z.of_nat tries). simpl.
    split; [reflexivity | split; [reflexivity | split; [right; reflexivity |]]].
    split; [| split; [| split; [| split; [| split; [| split; [| split]]]]]].
    + split; [discriminate | intros [H _]; contradiction].
    + split; [discriminate |].
      intros [Htw _]. exfalso.
      assert (Htw' : tagWritten text [] io).
      { apply (tagWritten_after_stop text t1 [] io Ht1).
        rewrite app_nil_r. exact Htw. }
      destruct Htw' as [(uid & [] & _) | ([] & _)].
    + intros a Ha Hisw. destruct (HnoWrite a Ha Hisw).
    + intros H. contradiction.
    + split; [intros H; contradiction | intros H; contradiction].
    + intros Hin. contradiction.
    + intros _. repeat split; assumption.
    + intros Hfalse. congruence.
Qed.

End WriteMode.

(* ================================================================== *)
(** * Concrete runs *)

Section Runs.
Import Scenario.
#[local] Existing Instance SpecCodec.imports.



(** C2 as stated fails.  The device is opened, a poll fails with EIO
    because the reader was unplugged, and all eleven attempts to open
    it again fail: the goroutine has returned, although the stop flag
    was never set. *)
Lemma poller_returns_when_reopen_fails :
  let (sys, effs) :=
    run cfg [PollerRuns (plugged (nothing T0));
             PollerRuns (plugged (unplugged T0));
             PollerRuns (gone (nothing T0))] started in
  poller sys = Exited (OpenFailed (OtherError "cannot open NFC device")) /\
  stopService (svc sys) = false.
Proof. vm_compute. split; reflexivity. Qed.

Lemma poller_returns_only_on_stop_or_failed_connect_witness :
  pollerStep cfg (plugged (unplugged T0)) newServiceState
             (Polling time.zero) =
    (newServiceState, Connecting,
     playFailLimited cfg (now_check (tick_io (plugged (unplugged T0))))
                     time.zero) /\
  pollerStep cfg (plugged (nothing T0)) newServiceState Connecting =
    (newServiceState, Polling time.zero, []).
Proof.
  assert (Hc : forall d, connects cfg (plugged d)).
  { intros d. split; [exists 0; reflexivity | reflexivity]. }
  destruct (poller_returns_only_on_stop_or_failed_connect cfg
              (plugged (unplugged T0)) (plugged (nothing T0))
              newServiceState time.zero
              [PollerRuns (plugged (unplugged T0));
               PollerRuns (plugged (nothing T0))] started)
    as (H1 & H2 & _).
  - reflexivity.
  - reflexivity.
  - apply Hc.
  - constructor; [apply Hc | constructor; [apply Hc | constructor]].
  - intros H; exact H.
  - reflexivity.
  - split; [exact H1 | exact H2].
Defined.

(** C3 as stated fails.  The NTAG arrives at [T0] and is seen again 6 s
    later; the poll 0.3 s after that sighting finds nothing and the
    active card is cleared, although a tag was seen within the last
    5 s. *)
Lemma card_forgotten_right_after_sighting :
  let seen := T0 + 6 * time.Second in
  let polled := T0 + 6300 * time.Millisecond in
  let before :=
    fst (run cfg [PollerRuns (plugged (nothing T0));
                  PollerRuns (plugged (sighting ntagTarget T0));
                  PollerRuns (plugged (sighting ntagTarget seen))]
             started) in
  let after :=
    fst (run cfg [PollerRuns (plugged (nothing polled))] before) in
  sees (sighting ntagTarget seen) "04a1b2c3d4e580" /\
  UID (activeCard (svc before)) = "04a1b2c3d4e580" /\
  polled - seen < timeToForgetCard /\
  UID (activeCard (svc after)) = "".
Proof.
  vm_compute. repeat split. left. reflexivity.
Qed.

Lemma forget_after_ScanTime_witness :
  pollDevice (nothing (T0 + 6 * time.Second)) ntagCard = (emptyCard, None) /\
  activeCard
    (svc (fst (run cfg
                 [PollerRuns (plugged (nothing (T0 + 1 * time.Second)));
                  PollerRuns (plugged (sighting ntagTarget
                                         (T0 + 2 * time.Second)));
                  Connection (ReadBytes "status")]
                 {| svc := holding ntagCard false;
                    poller := Polling time.zero |}))) = ntagCard.
Proof.
  destruct (forget_after_ScanTime cfg (nothing (T0 + 6 * time.Second))
              ntagCard
              [PollerRuns (plugged (nothing (T0 + 1 * time.Second)));
               PollerRuns (plugged (sighting ntagTarget
                                      (T0 + 2 * time.Second)));
               Connection (ReadBytes "status")]
              {| svc := holding ntagCard false;
                 poller := Polling time.zero |})
    as (Hclear & _ & Hkeep).
  - split; [vm_compute; discriminate | right; reflexivity].
  - constructor; [| constructor; [| constructor; [exact Logic.I | constructor]]].
    + split; [left; vm_compute; discriminate | vm_compute; discriminate].
    + split; [right; reflexivity | vm_compute; discriminate].
  - split; [apply Hclear; split; [discriminate | reflexivity] | exact Hkeep].
Defined.

(** C4 as stated fails, in two ways.  A new card that arrives while
    the launcher is disabled is not launched.  And with the launcher
    enabled the NTAG arrives and is launched, 0.3 s later a tag whose UID
    is not detected is seen, and 0.3 s after that the NTAG is launched
    again: between its two launches the card was never forgotten. *)
Lemma launch_skipped_or_repeated_without_forgetting :
  let again := T0 + 600 * time.Millisecond in
  (arrival (sighting ntagTarget T0) emptyCard ntagCard /\
   occurrences isLaunch
     (effects (loopBody cfg (tick (sighting ntagTarget T0))
                        (holding emptyCard true) time.zero)) = 0%nat) /\
  snd (run cfg [PollerRuns (plugged (nothing T0));
                PollerRuns (plugged (sighting ntagTarget T0));
                PollerRuns (plugged (sighting Cases.blankTarget
                                       (T0 + 300 * time.Millisecond)));
                PollerRuns (plugged (sighting ntagTarget again))]
           started) =
    [Aplay Success; WriteScanFile "04a1b2c3d4e580,hi"; LaunchCard;
     Sleep periodBetweenLoop;
     Sleep periodBetweenLoop;
     Aplay Success; WriteScanFile "04a1b2c3d4e580,hi"; LaunchCard;
     Sleep periodBetweenLoop] /\
  again - T0 < timeToForgetCard.
Proof.
  vm_compute. repeat split; discriminate.
Qed.

Lemma one_launch_per_arrival_witness :
  (effects (loopBody cfg (tick (sighting ntagTarget (T0 + 1 * time.Second)))
                     (holding ntagCard false) time.zero) =
     [Sleep periodBetweenLoop] /\
   occurrences isLaunch
     (effects (loopBody cfg
                 (tick (sighting mifareTarget (T0 + 1 * time.Second)))
                 (holding ntagCard false) time.zero)) = 1%nat) /\
  exists pre ev post,
    [PollerRuns (plugged (sighting ntagTarget (T0 + 1 * time.Second)));
     PollerRuns (plugged (sighting Cases.blankTarget
                            (T0 + 2 * time.Second)))]
      = pre ++ PollerRuns ev :: post /\
    displaces (device (tick_io ev))
      (activeCard
         (svc (fst (run cfg pre {| svc := holding ntagCard false;
                                   poller := Polling time.zero |})))).
Proof.
  destruct (one_launch_per_arrival cfg
              (tick (sighting ntagTarget (T0 + 1 * time.Second)))
              (tick (sighting mifareTarget (T0 + 1 * time.Second)))
              (holding ntagCard false) time.zero)
    as ((_ & Hquiet & _) & Hcount & _ & Hrun).
  - split; [reflexivity | split; [left; reflexivity | reflexivity]].
  - split; [split; [exact Hquiet | exact Hcount] |].
    destruct (Hrun {| svc := holding ntagCard false;
                      poller := Polling time.zero |}
                [PollerRuns (plugged (sighting ntagTarget
                                        (T0 + 1 * time.Second)));
                 PollerRuns (plugged (sighting Cases.blankTarget
                                        (T0 + 2 * time.Second)))]
                (plugged (sighting ntagTarget (T0 + 3 * time.Second))))
      as (pre & ev & post & Hmid & _ & [Hforget | Hdisplace] & _).
    + reflexivity.
    + vm_compute. auto.
    + reflexivity.
    + exfalso. destruct Hforget as [Hcount0 _].
      assert (Hin : In (PollerRuns ev)
                       [PollerRuns (plugged (sighting ntagTarget
                                               (T0 + 1 * time.Second)));
                        PollerRuns (plugged (sighting Cases.blankTarget
                                               (T0 + 2 * time.Second)))]).
      { rewrite Hmid. apply in_or_app. right. left. reflexivity. }
      destruct Hin as [He | [He | []]]; injection He as <-;
        vm_compute in Hcount0; apply Hcount0; reflexivity.
    + exists pre, ev, post. split; [exact Hmid | exact Hdisplace].
Defined.

(** C5 as stated fails.  The NTAG arrives but its pages cannot be read:
    [pollDevice] returns an error and the old (empty) active card, and
    the iteration stores nothing; it plays the fail sound and sleeps. *)
Lemma unreadable_ntag_is_an_error :
  let r := loopBody cfg (tick (unreadableNtag T0)) newServiceState
                    time.zero in
  pollDevice (unreadableNtag T0) emptyCard =
    (emptyCard,
     Some (Errorf "error reading ntag: " (NfcError nfc.ERFTRANS))) /\
  state' r = newServiceState /\
  effects r = [Aplay Fail; Sleep periodBetweenLoop].
Proof. vm_compute. repeat split. Qed.

Lemma decode_failure_is_arrival_unless_ntag_read_fails_witness :
  (exists card,
     pollDevice (Cases.unreadableMifare T0) emptyCard = (card, None) /\
     UID card = "deadbeef" /\ Text card = "" /\
     lastScanned (state' (loopBody cfg (tick (Cases.unreadableMifare T0))
                                   newServiceState time.zero)) = card) /\
  (exists card,
     pollDevice (Cases.foreignNtag T0) emptyCard = (card, None) /\
     UID card = "04a1b2c3d4e580" /\ Text card = "" /\
     activeCard (state' (loopBody cfg (tick (Cases.foreignNtag T0))
                                  newServiceState time.zero)) = card).
Proof.
  split.
  - destruct (decode_failure_is_arrival_unless_ntag_read_fails cfg
                (tick (Cases.unreadableMifare T0)) newServiceState time.zero)
      as [Hok _].
    + reflexivity.
    + left. reflexivity.
    + discriminate.
    + destruct Hok as (card & Hp & Hu & _ & _ & Hm & _ & _ & _ & Hl).
      * left. discriminate.
      * exists card. split; [exact Hp | split; [exact Hu | split]].
        -- destruct Hm as [_ Ht]; [discriminate | reflexivity |].
           rewrite Ht. reflexivity.
        -- apply Hl. discriminate.
  - destruct (decode_failure_is_arrival_unless_ntag_read_fails cfg
                (tick (Cases.foreignNtag T0)) newServiceState time.zero)
      as [Hok _].
    + reflexivity.
    + left. reflexivity.
    + discriminate.
    + destruct Hok as (card & Hp & Hu & _ & _ & _ & Hn & _ & Ha & _).
      * right. reflexivity.
      * exists card. split; [exact Hp | split; [exact Hu | split]].
        -- destruct Hn as [_ Ht]; [reflexivity | discriminate |].
           rewrite Ht. reflexivity.
        -- exact Ha.
Defined.

Lemma status_reply_witness :
  handleConn (ReadBytes "status") newServiceState =
    (newServiceState, [ConnWrite "0,,true,"]) /\
  handleConn (ReadBytes "status") (holding emptyCard true) =
    (holding emptyCard true, [ConnWrite "0,,false,"]) /\
  (exists ts,
     NilZero.int_of_string ts = Some (Z.to_int 1700000000) /\
     handleConn (ReadBytes "status") (holding ntagCard true) =
       (holding ntagCard true,
        [ConnWrite (ts ++ ",04a1b2c3d4e580,false,hi")%string])).
Proof.
  split; [| split].
  - destruct (status_reply "status" newServiceState) as (_ & Hnone & _).
    + discriminate.
    + apply Hnone; reflexivity.
  - destruct (status_reply "status" (holding emptyCard true))
      as (_ & Hnone & _).
    + discriminate.
    + apply Hnone; reflexivity.
  - destruct (status_reply "status" (holding ntagCard true))
      as (Hcard & _).
    + discriminate.
    + apply Hcard; [reflexivity | discriminate].
Defined.

(** C7 as stated fails.  When the running service does not stop within
    the fifteen checks, write mode exits 1 without starting it again;
    and when the tag is written but the service then fails to start,
    write mode exits 1 although the write succeeded. *)
Lemma write_mode_exits_without_restart_or_with_1_after_write :
  handleWriteCommand 15 "hello" cfg stuckService =
    Some (SvcStop :: repeat (Nap (100 * time.Millisecond)) 15, inl 1) /\
  handleWriteCommand 15 "hello" cfg failedRestart =
    Some ([SvcStop; OpenDevice; PollTarget;
           WriteMifare "hello" "deadbeef"; SvcStart], inl 1).
Proof. vm_compute. split; reflexivity. Qed.

Lemma write_mode_exit_witness :
  exists trace,
    handleWriteCommand 15 "hello" cfg smoothWrite = Some (trace, inl 0) /\
    In (WriteMifare "hello" "deadbeef") trace /\
    last trace OpenDevice = SvcStart.
Proof.
  destruct (write_mode_exit 15 "hello" cfg smoothWrite (le_n 15))
    as (trace & code & oe & tries & Hrun & Hopen & _ & Hzero & _ & _
        & Hthere & Hin & Hlast & _).
  assert (Hss : serviceStopped smoothWrite).
  { right. split; [reflexivity |].
    exists 1%nat. split; [lia | reflexivity]. }
  vm_compute in Hopen. injection Hopen as <- <-.
  assert (Hcode : code = 0).
  { apply Hzero. split; [exact Hss |]. split; [reflexivity |].
    split; [reflexivity |]. split; [discriminate |].
    split; [left; split; reflexivity | right; reflexivity]. }
  subst code. exists trace. split; [exact Hrun | split].
  - apply Hthere; [exact Hss | reflexivity | reflexivity | discriminate |].
    left. split; reflexivity.
  - apply Hlast; [apply Hin; exact Hss | reflexivity].
Defined.

Lemma openDeviceWithRetries_bounded_witness :
  openDeviceWithRetries openFuel cfg neverOpens =
    Some (Some (OtherError "cannot open NFC device"), connectMaxTries).
Proof.
  destruct (openDeviceWithRetries_bounded openFuel cfg neverOpens
              (le_n openFuel)) as [_ Hall].
  apply Hall. intros k c. discriminate.
Defined.

Lemma LaunchGame_indexes_empty_slice_witness :
  remote.LaunchGame string (fun id => id) folderToSystems
                    (fun _ _ => None) (inr "/media/fat/readme.txt") =
    ([remote.HttpError (remote.Literal "no system found for game")
                       remote.StatusBadRequest],
     remote.Panic (remote.IndexOutOfRange 0 0)).
Proof.
  destruct (LaunchGame_indexes_empty_slice string (fun id => id)
              folderToSystems (fun _ _ => None) "/media/fat/readme.txt"
              (inr "/media/fat/readme.txt")) as [Hpanic _].
  - reflexivity.
  - exact Hpanic.
Defined.

Lemma ScanTime_not_refreshed_witness :
  let r1 := loopBody cfg (tick (sighting ntagTarget (T0 + 6 * time.Second)))
                     (holding ntagCard false) time.zero in
  let r2 := loopBody cfg
              (tick (nothing (T0 + 6300 * time.Millisecond)))
              (state' r1) (lastError' r1) in
  ScanTime (activeCard (state' r1)) = T0 /\
  activeCard (state' r2) = emptyCard.
Proof.
  destruct (ScanTime_not_refreshed cfg
              (tick (sighting ntagTarget (T0 + 6 * time.Second)))
              (tick (nothing (T0 + 6300 * time.Millisecond)))
              (holding ntagCard false) time.zero)
    as (_ & Hkeep & Hclear).
  - discriminate.
  - split; [reflexivity | split; [left; reflexivity | reflexivity]].
  - split; [vm_compute; discriminate | right; reflexivity].
  - reflexivity.
  - split; [exact Hkeep | exact Hclear].
Defined.

End Runs.

(* ================================================================== *)
(** * Further properties of the service *)

Section StateInvariants.
Context {I : Imports}.

Lemma SetActiveCard_agree (s : ServiceState) (c : Card) :
  cardsAgree (SetActiveCard s c).
Proof.
  unfold cardsAgree. simpl. intros Hne.
  apply String.eqb_neq in Hne. rewrite Hne. reflexivity.
Qed.

(** An iteration leaves the state alone or stores one card. *)
Lemma loopBody_state (cfg : NfcConfig) (io : TickIO) (s : ServiceState)
    (le : time.Time) :
  state' (loopBody cfg io s le) = s \/
  state' (loopBody cfg io s le) =
    SetActiveCard s (fst (pollDevice (device io) (activeCard s))).
Proof.
  unfold loopBody, GetActiveCard.
  destruct (pollDevice (device io) (activeCard s)) as [c err]. simpl.
  break_ifs; auto.
Qed.

Lemma pollerStep_state (cfg : NfcConfig) (io : PollerIO) (s : ServiceState)
    (p : Poller) :
  fst (fst (pollerStep cfg io s p)) = s \/
  exists c, fst (fst (pollerStep cfg io s p)) = SetActiveCard s c.
Proof.
  unfold pollerStep. destruct p as [| le | why]; simpl.
  - destruct (openDeviceWithRetries openFuel cfg (open_io io))
      as [[[e |] tries] |]; auto.
    destruct (init_err io); auto.
  - destruct (ShouldStopService s); [auto |].
    destruct (loopBody_state cfg (tick_io io) s le) as [H | H];
      destruct (next (loopBody cfg (tick_io io) s le)); simpl;
      rewrite H; eauto.
  - auto.
Qed.

Lemma step_agree (cfg : NfcConfig) (ev : Event) (sys : System) :
  cardsAgree (svc sys) -> cardsAgree (svc (fst (step cfg ev sys))).
Proof.
  intros Hinv. destruct ev as [io | rd |]; simpl.
  - destruct (pollerStep_state cfg io (svc sys) (poller sys))
      as [H | [c H]];
      destruct (pollerStep cfg io (svc sys) (poller sys)) as [[s' p'] eff];
      simpl in *; subst; [exact Hinv | apply SetActiveCard_agree].
  - destruct (ShouldStopService (svc sys)); [exact Hinv |].
    destruct (handleConn_cards rd (svc sys)) as (Ha & Hl & _).
    destruct (handleConn rd (svc sys)) as [s' eff]. simpl in *.
    unfold cardsAgree in *. rewrite Ha, Hl. exact Hinv.
  - exact Hinv.
Qed.

Lemma run_agree (cfg : NfcConfig) (evs : list Event) :
  forall sys, cardsAgree (svc sys) ->
              cardsAgree (svc (fst (run cfg evs sys))).
Proof.
  induction evs as [| ev rest IH]; intros sys Hinv; [exact Hinv |].
  pose proof (step_agree cfg ev sys Hinv) as H1. simpl.
  destruct (step cfg ev sys) as [sys1 eff1]. simpl in H1.
  specialize (IH sys1 H1).
  destruct (run cfg rest sys1) as [sys2 eff2]. exact IH.
Qed.

(** X1.  In every state the service reaches after a start, whatever the
    device, the clock and the socket clients do, an active card with a
    UID is also the last scanned card. *)
Theorem active_card_is_last_scanned (cfg : NfcConfig) (sentinel : bool)
    (evs : list Event) :
  cardsAgree (svc (fst (run cfg evs (fst (startService sentinel))))).
Proof.
  apply run_agree. destruct sentinel; intros H; simpl in *; congruence.
Qed.

Lemma step_keeps_scanned (cfg : NfcConfig) (ev : Event) (sys : System) :
  UID (lastScanned (svc sys)) <> "" ->
  UID (lastScanned (svc (fst (step cfg ev sys)))) <> "".
Proof.
  intros Hne. destruct ev as [io | rd |]; simpl.
  - destruct (pollerStep_state cfg io (svc sys) (poller sys))
      as [H | [c H]];
      destruct (pollerStep cfg io (svc sys) (poller sys)) as [[s' p'] eff];
      simpl in *; subst; [exact Hne |].
    simpl. destruct (String.eqb (UID c) "") eqn:Hc; [exact Hne |].
    apply String.eqb_neq. exact Hc.
  - destruct (ShouldStopService (svc sys)); [exact Hne |].
    destruct (handleConn_cards rd (svc sys)) as (_ & Hl & _).
    destruct (handleConn rd (svc sys)) as [s' eff]. simpl in *.
    rewrite Hl. exact Hne.
  - exact Hne.
Qed.

(** X2.  Once a card has been scanned, the last scanned card is never
    cleared again: removal of the card, poll errors, reconnects,
    socket commands and the stop request all leave it with a UID. *)
Theorem last_scanned_never_cleared (cfg : NfcConfig) (evs : list Event)
    (sys : System) :
  UID (lastScanned (svc sys)) <> "" ->
  UID (lastScanned (svc (fst (run cfg evs sys)))) <> "".
Proof.
  revert sys. induction evs as [| ev rest IH]; intros sys Hne;
    [exact Hne |].
  pose proof (step_keeps_scanned cfg ev sys Hne) as H1. simpl.
  destruct (step cfg ev sys) as [sys1 eff1]. simpl in H1.
  specialize (IH sys1 H1).
  destruct (run cfg rest sys1) as [sys2 eff2]. exact IH.
Qed.

(** X3.  A poll that finds no tag has no effect outside the process but
    the sleep, also when it makes the service forget the card, and the
    last scanned card stays. *)
Theorem removal_is_silent (cfg : NfcConfig) (io : TickIO)
    (s : ServiceState) (le : time.Time) :
  quiet (device io) -> cardsAgree s ->
  let r := loopBody cfg io s le in
  effects r = [Sleep periodBetweenLoop] /\
  lastScanned (state' r) = lastScanned s /\
  next r = GotoEnd /\ lastError' r = le.
Proof.
  intros Hq Hinv r. unfold r, loopBody, GetActiveCard.
  rewrite (pollDevice_quiet _ _ Hq).
  destruct (negb (String.eqb (UID (activeCard s)) "")
            && (timeToForgetCard <? now (device io) - ScanTime (activeCard s)))
    eqn:Hforget; simpl.
  - repeat split; reflexivity.
  - destruct (String.eqb (UID (activeCard s)) "") eqn:Hu; simpl;
      rewrite ?Hu; simpl.
    + repeat split; reflexivity.
    + rewrite String.eqb_refl. simpl. rewrite ?Hu.
      repeat split; try reflexivity.
      symmetry. apply Hinv. apply String.eqb_neq. exact Hu.
Qed.

End StateInvariants.

Section Sounds.
Context {I : Imports}.

Lemma filter_app_nil (kind : Effect -> bool) (a b : list Effect) :
  filter kind a = [] -> filter kind b = [] -> filter kind (a ++ b) = [].
Proof. intros Ha Hb. rewrite filter_app, Ha, Hb. reflexivity. Qed.

Lemma loopBody_mute (cfg : NfcConfig) (io : TickIO) (s : ServiceState)
    (le : time.Time) :
  DisableSounds cfg = true ->
  filter isAplay (effects (loopBody cfg io s le)) = [].
Proof.
  intros Hmute. unfold loopBody, playFailLimited, playFail, playSuccess.
  rewrite Hmute.
  destruct (pollDevice (device io) (GetActiveCard s)) as [c err].
  break_ifs; reflexivity.
Qed.

Lemma handleConn_effects (rd : ReadResult) (s : ServiceState) :
  filter isPollerEffect (snd (handleConn rd s)) = [].
Proof.
  unfold handleConn. destruct rd as [e | data]; [reflexivity |].
  break_ifs; reflexivity.
Qed.

Lemma isAplay_poller (effs : list Effect) :
  filter isPollerEffect effs = [] -> filter isAplay effs = [].
Proof.
  induction effs as [| e rest IH]; [reflexivity |]. simpl.
  destruct e as [snd | c | | d | | | payload]; simpl;
    try discriminate; exact IH.
Qed.

Lemma step_mute (cfg : NfcConfig) (ev : Event) (sys : System) :
  DisableSounds cfg = true -> filter isAplay (snd (step cfg ev sys)) = [].
Proof.
  intros Hmute. destruct ev as [io | rd |]; simpl; [| | reflexivity].
  - unfold pollerStep. destruct (poller sys) as [| le | why]; simpl.
    + destruct (openDeviceWithRetries openFuel cfg (open_io io))
        as [[[e |] tries] |]; try reflexivity.
      destruct (init_err io); reflexivity.
    + destruct (ShouldStopService (svc sys)); [reflexivity |].
      pose proof (loopBody_mute cfg (tick_io io) (svc sys) le Hmute) as H.
      destruct (next (loopBody cfg (tick_io io) (svc sys) le)); exact H.
    + reflexivity.
  - destruct (ShouldStopService (svc sys)); [reflexivity |].
    pose proof (handleConn_effects rd (svc sys)) as H.
    destruct (handleConn rd (svc sys)) as [s' eff]. simpl in *.
    apply isAplay_poller. exact H.
Qed.

(** X4.  With sounds disabled in the configuration the service never
    starts the player: no run contains a success or a fail sound. *)
Theorem disabled_sounds_never_play (cfg : NfcConfig) (evs : list Event)
    (sys : System) :
  DisableSounds cfg = true ->
  filter isAplay (snd (run cfg evs sys)) = [].
Proof.
  intros Hmute. revert sys.
  induction evs as [| ev rest IH]; intros sys; [reflexivity |].
  pose proof (step_mute cfg ev sys Hmute) as H1. simpl.
  destruct (step cfg ev sys) as [sys1 eff1]. simpl in H1.
  specialize (IH sys1).
  destruct (run cfg rest sys1) as [sys2 eff2]. simpl in *.
  apply filter_app_nil; assumption.
Qed.

(** X6.  The fail sound is limited to one per second across poll errors
    that are not EIO: when an iteration fails and the next one fails
    again no more than a second after the first set [lastError], the
    second plays nothing; neither touches the state. *)
Theorem fail_sound_once_per_second (cfg : NfcConfig) (t1 t2 : TickIO)
    (s : ServiceState) (le : time.Time) (e1 e2 : error) :
  snd (pollDevice (device t1) (activeCard s)) = Some e1 ->
  snd (pollDevice (device t2) (activeCard s)) = Some e2 ->
  errors_Is (Some e1) nfc.EIO = false ->
  errors_Is (Some e2) nfc.EIO = false ->
  now_check t2 - now_mark t1 <= 1 * time.Second ->
  let r1 := loopBody cfg t1 s le in
  let r2 := loopBody cfg t2 (state' r1) (lastError' r1) in
  state' r1 = s /\ lastError' r1 = now_mark t1 /\
  state' r2 = s /\ effects r2 = [Sleep periodBetweenLoop].
Proof.
  intros H1 H2 Hio1 Hio2 Hsoon r1 r2.
  assert (Hr1 : state' r1 = s /\ lastError' r1 = now_mark t1).
  { unfold r1, loopBody, GetActiveCard.
    destruct (pollDevice (device t1) (activeCard s)) as [c err].
    simpl in H1. subst err. rewrite Hio1. simpl. split; reflexivity. }
  destruct Hr1 as [Hs1 Hl1]. split; [exact Hs1 | split; [exact Hl1 |]].
  unfold r2. rewrite Hs1, Hl1. unfold loopBody, GetActiveCard.
  destruct (pollDevice (device t2) (activeCard s)) as [c err].
  simpl in H2. subst err. rewrite Hio2. simpl.
  unfold playFailLimited. rewrite Since_gt.
  - destruct (Z.ltb_spec (1 * time.Second) (now_check t2 - now_mark t1));
      [lia |]. split; reflexivity.
  - vm_compute. split; [discriminate | reflexivity].
Qed.

Lemma pollerStep_EIO (cfg : NfcConfig) (io : PollerIO) (s : ServiceState)
    (le : time.Time) :
  stopService s = false ->
  poll_err (polled (device (tick_io io))) = Some (NfcError nfc.EIO) ->
  pollerStep cfg io s (Polling le) =
    (s, Connecting, playFailLimited cfg (now_check (tick_io io)) le).
Proof.
  intros Hstop Hio. unfold pollerStep, ShouldStopService. rewrite Hstop.
  unfold loopBody, pollDevice. rewrite Hio. reflexivity.
Qed.

Lemma pollerStep_connects (cfg : NfcConfig) (io : PollerIO)
    (s : ServiceState) :
  connects cfg io ->
  pollerStep cfg io s Connecting = (s, Polling time.zero, []).
Proof.
  intros [[t Hopen] Hinit]. unfold pollerStep. rewrite Hopen, Hinit.
  reflexivity.
Qed.

(** X7.  The limit does not span a reconnect: after an EIO the
    goroutine opens the device again and starts the loop with a fresh
    [lastError], so the first failing poll after the reconnect plays
    the fail sound whatever was played before. *)
Theorem reconnect_resets_fail_limit (cfg : NfcConfig) (io1 io2 io3 : PollerIO)
    (s : ServiceState) (le : time.Time) (e : error) :
  stopService s = false ->
  DisableSounds cfg = false ->
  poll_err (polled (device (tick_io io1))) = Some (NfcError nfc.EIO) ->
  connects cfg io2 ->
  snd (pollDevice (device (tick_io io3)) (activeCard s)) = Some e ->
  time.zero + 1 * time.Second < now_check (tick_io io3) ->
  exists rest,
    snd (run cfg [PollerRuns io1; PollerRuns io2; PollerRuns io3]
             {| svc := s; poller := Polling le |}) =
    playFailLimited cfg (now_check (tick_io io1)) le ++ Aplay Fail :: rest.
Proof.
  intros Hstop Hsound Hio Hconn Herr Hclock.
  assert (Hplay : playFailLimited cfg (now_check (tick_io io3)) time.zero
                  = [Aplay Fail]).
  { unfold playFailLimited, playFail. rewrite Since_gt, Hsound.
    - destruct (Z.ltb_spec (1 * time.Second)
                  (now_check (tick_io io3) - time.zero)); [reflexivity | lia].
    - vm_compute. split; [discriminate | reflexivity]. }
  assert (H3 : exists s3 p3 rest,
             pollerStep cfg io3 s (Polling time.zero) =
               (s3, p3, Aplay Fail :: rest)).
  { unfold pollerStep, ShouldStopService. rewrite Hstop.
    unfold loopBody, GetActiveCard.
    destruct (pollDevice (device (tick_io io3)) (activeCard s)) as [c err].
    simpl in Herr. subst err.
    destruct (errors_Is (Some e) nfc.EIO); simpl; rewrite Hplay; simpl;
      do 3 eexists; reflexivity. }
  destruct H3 as (s3 & p3 & rest & H3).
  exists rest. cbn [run step svc poller].
  rewrite (pollerStep_EIO cfg io1 s le Hstop Hio). cbn [svc poller].
  rewrite (pollerStep_connects cfg io2 s Hconn). cbn [svc poller].
  rewrite H3. cbn [snd]. rewrite app_nil_r. reflexivity.
Qed.

End Sounds.

Section Stopping.
Context {I : Imports}.

Lemma pollerStep_stopped (cfg : NfcConfig) (io : PollerIO)
    (s : ServiceState) (p : Poller) :
  stopService s = true ->
  exists p', pollerStep cfg io s p = (s, p', []) /\
             (stepsToExit p' <= Nat.pred (stepsToExit p))%nat.
Proof.
  intros Hstop. unfold pollerStep. destruct p as [| le | why].
  - destruct (openDeviceWithRetries_returns openFuel cfg (open_io io)
                (le_n openFuel)) as (n & Hres & _).
    rewrite Hres.
    destruct (nfcOpen (open_io io) _ _) as [e |].
    + eexists. split; [reflexivity | simpl; lia].
    + destruct (init_err io); eexists; (split; [reflexivity | simpl; lia]).
  - unfold ShouldStopService. rewrite Hstop.
    eexists. split; [reflexivity | simpl; lia].
  - eexists. split; [reflexivity | simpl; lia].
Qed.

Lemma run_stopped (cfg : NfcConfig) (evs : list Event) :
  forall sys,
    stopService (svc sys) = true -> Forall isPollerRun evs ->
    svc (fst (run cfg evs sys)) = svc sys /\
    snd (run cfg evs sys) = [] /\
    (stepsToExit (poller (fst (run cfg evs sys)))
       <= stepsToExit (poller sys) - List.length evs)%nat.
Proof.
  induction evs as [| ev rest IH]; intros sys Hstop Hall.
  - simpl. repeat split; lia.
  - inversion Hall as [| ? ? Hev Hrest]; subst.
    destruct ev as [io | rd |]; try contradiction.
    destruct (pollerStep_stopped cfg io (svc sys) (poller sys) Hstop)
      as (p' & Hstep & Hrank).
    cbn [run step]. rewrite Hstep.
    specialize (IH {| svc := svc sys; poller := p' |} Hstop Hrest).
    destruct (run cfg rest {| svc := svc sys; poller := p' |})
      as [sys2 eff2]. simpl in *.
    destruct IH as (Hs & He & Hr). repeat split; try assumption. lia.
Qed.

Lemma loopBody_ignores_stop (cfg : NfcConfig) (tio : TickIO)
    (s : ServiceState) (le : time.Time) :
  loopBody cfg tio (StopService s) le =
    {| state' := StopService (state' (loopBody cfg tio s le));
       lastError' := lastError' (loopBody cfg tio s le);
       effects := effects (loopBody cfg tio s le);
       next := next (loopBody cfg tio s le) |}.
Proof.
  unfold loopBody, GetActiveCard, IsLauncherDisabled.
  cbn [StopService activeCard].
  destruct (pollDevice (device tio) (activeCard s)) as [card err].
  destruct (errors_Is err nfc.EIO); [reflexivity |].
  destruct (is_err err); [reflexivity |].
  destruct (String.eqb (UID card) ""
            || String.eqb (UID (activeCard s)) (UID card));
    [reflexivity |].
  cbn [SetActiveCard disableLauncher StopService].
  destruct (disableLauncher s); [reflexivity |].
  destruct (is_err (launch_err tio)); reflexivity.
Qed.

(** X5.  The poll goroutine reads the stop flag only at its loop test.
    If the flag is set when the goroutine starts a stretch, it has
    returned after at most two more stretches (one when it is at the loop
    test), without polling, changing the state or having any effect.  If
    the stop function is called while a stretch is under way, the stretch
    is completed with the effects it has without the stop, and the
    goroutine returns afterwards in the same way: an iteration is not
    interrupted.  Setting the flag commutes with every access of an
    iteration to the state and with the whole iteration, and the stretch
    from [reconnect] to the loop does not read the state. *)
Theorem stop_ends_polling (cfg : NfcConfig) (evs : list Event)
    (s : ServiceState) (p : Poller) (io : PollerIO)
    (tio : TickIO) (le : time.Time) (card : Card) :
  Forall isPollerRun evs ->
  let sys := {| svc := s; poller := p |} in
  let stretch := pollerStep cfg io s p in
  let during := run cfg (PollerRuns io :: StopCalled :: evs) sys in
  let r := loopBody cfg tio s le in
  (stopService s = true ->
   (stepsToExit p <= List.length evs)%nat ->
   exited (poller (fst (run cfg evs sys))) /\
   svc (fst (run cfg evs sys)) = s /\
   snd (run cfg evs sys) = []) /\
  (stopService s = false ->
   (stepsToExit (snd (fst stretch)) <= List.length evs)%nat ->
   exited (poller (fst during)) /\
   svc (fst during) = StopService (fst (fst stretch)) /\
   snd during = snd stretch) /\
  GetActiveCard (StopService s) = GetActiveCard s /\
  IsLauncherDisabled (StopService s) = IsLauncherDisabled s /\
  SetActiveCard (StopService s) card = StopService (SetActiveCard s card) /\
  loopBody cfg tio (StopService s) le =
    {| state' := StopService (state' r); lastError' := lastError' r;
       effects := effects r; next := next r |} /\
  (stopService s = false ->
   pollerStep cfg io s (Polling le) =
     (state' (loopBody cfg (tick_io io) s le),
      match next (loopBody cfg (tick_io io) s le) with
      | GotoReconnect => Connecting
      | GotoEnd => Polling (lastError' (loopBody cfg (tick_io io) s le))
      end,
      effects (loopBody cfg (tick_io io) s le))) /\
  pollerStep cfg io (StopService s) (Polling le) =
    (StopService s, Exited StopRequested, []) /\
  (exists p',
     pollerStep cfg io s Connecting = (s, p', []) /\
     pollerStep cfg io (StopService s) Connecting = (StopService s, p', [])).
Proof.
  intros Hall sys stretch during r.
  split; [| split; [| split; [| split; [| split; [| split;
    [| split; [| split]]]]]]].
  - intros Hstop Hlen.
    destruct (run_stopped cfg evs sys Hstop Hall) as (Hs & He & Hr).
    split; [| split; assumption].
    destruct (poller (fst (run cfg evs sys))); simpl in *;
      [lia | lia | exact Logic.I].
  - intros Hrun Hlen. unfold during, sys. cbn [run step svc poller].
    unfold stretch in *.
    destruct (pollerStep cfg io s p) as [[s1 p1] eff1].
    cbn [fst snd run step svc poller] in *.
    destruct (run_stopped cfg evs
                {| svc := StopService s1; poller := p1 |} eq_refl Hall)
      as (Hs & He & Hr).
    destruct (run cfg evs {| svc := StopService s1; poller := p1 |})
      as [sys2 eff2]. cbn [fst snd svc poller] in *.
    split; [| split; [exact Hs | rewrite He; apply app_nil_r]].
    destruct (poller sys2); simpl in *; [lia | lia | exact Logic.I].
  - reflexivity.
  - reflexivity.
  - reflexivity.
  - apply loopBody_ignores_stop.
  - intros Hrun. unfold pollerStep, ShouldStopService. rewrite Hrun.
    destruct (next (loopBody cfg (tick_io io) s le)); reflexivity.
  - reflexivity.
  - unfold pollerStep.
    destruct (openDeviceWithRetries openFuel cfg (open_io io))
      as [[[e |] tries] |].
    + eexists. split; reflexivity.
    + destruct (init_err io); eexists; split; reflexivity.
    + eexists. split; reflexivity.
Qed.

End Stopping.

Section SocketFacts.
Context {I : Imports}.

(** X10.  Serving a connection never touches the cards or the stop
    flag and never plays, launches, writes the last-scan file or
    sleeps; it answers at most once, and exactly once when it has read
    at least one byte. *)
Theorem socket_leaves_cards_alone (rd : ReadResult) (s : ServiceState)
    (data : string) :
  data <> "" ->
  activeCard (fst (handleConn rd s)) = activeCard s /\
  lastScanned (fst (handleConn rd s)) = lastScanned s /\
  stopService (fst (handleConn rd s)) = stopService s /\
  filter isPollerEffect (snd (handleConn rd s)) = [] /\
  List.length (filter isReply (snd (handleConn (ReadBytes data) s))) = 1%nat /\
  snd (handleConn (ReadBytes "") s) = [] /\
  (forall e, snd (handleConn (ReadError e) s) = []).
Proof.
  intros Hdata.
  destruct (handleConn_cards rd s) as (Ha & Hl & Hs).
  split; [exact Ha | split; [exact Hl | split; [exact Hs |]]].
  split; [apply handleConn_effects |].
  split; [| split; [reflexivity | intros e; reflexivity]].
  unfold handleConn. rewrite (nonempty_length _ Hdata).
  break_ifs; reflexivity.
Qed.

Lemma sentinelAfter_app (a b : list Effect) (present : bool) :
  sentinelAfter (a ++ b) present = sentinelAfter b (sentinelAfter a present).
Proof. unfold sentinelAfter. apply fold_left_app. Qed.

Lemma sentinelAfter_poller (effs : list Effect) (present : bool) :
  Forall (fun e => isPollerEffect e = true) effs ->
  sentinelAfter effs present = present.
Proof.
  revert present. induction effs as [| e rest IH]; intros present Hall;
    [reflexivity |].
  inversion Hall as [| ? ? He Hrest]; subst.
  destruct e; try discriminate; simpl; apply IH; exact Hrest.
Qed.

Lemma loopBody_poller_effects (cfg : NfcConfig) (io : TickIO)
    (s : ServiceState) (le : time.Time) :
  Forall (fun e => isPollerEffect e = true) (effects (loopBody cfg io s le)).
Proof.
  unfold loopBody, playFailLimited, playFail, playSuccess.
  destruct (pollDevice (device io) (GetActiveCard s)) as [c err].
  break_ifs; simpl; repeat constructor.
Qed.

Lemma step_sentinel (cfg : NfcConfig) (ev : Event) (sys : System) :
  sentinelAfter (snd (step cfg ev sys)) (disableLauncher (svc sys)) =
  disableLauncher (svc (fst (step cfg ev sys))).
Proof.
  destruct ev as [io | rd |]; simpl; [| | reflexivity].
  - unfold pollerStep. destruct (poller sys) as [| le | why]; simpl.
    + destruct (openDeviceWithRetries openFuel cfg (open_io io))
        as [[[e |] tries] |]; try reflexivity.
      destruct (init_err io); reflexivity.
    + destruct (ShouldStopService (svc sys)); [reflexivity |].
      pose proof (loopBody_poller_effects cfg (tick_io io) (svc sys) le) as He.
      pose proof (loopBody_flags cfg (tick_io io) (svc sys) le) as [_ Hf].
      destruct (next (loopBody cfg (tick_io io) (svc sys) le)); simpl;
        rewrite Hf; apply sentinelAfter_poller; exact He.
    + reflexivity.
  - destruct (ShouldStopService (svc sys)); [reflexivity |].
    unfold handleConn. destruct rd as [e | data]; [reflexivity |].
    break_ifs; reflexivity.
Qed.

Lemma run_sentinel (cfg : NfcConfig) (evs : list Event) :
  forall sys,
    sentinelAfter (snd (run cfg evs sys)) (disableLauncher (svc sys)) =
    disableLauncher (svc (fst (run cfg evs sys))).
Proof.
  induction evs as [| ev rest IH]; intros sys; [reflexivity |].
  pose proof (step_sentinel cfg ev sys) as H1. simpl.
  destruct (step cfg ev sys) as [sys1 eff1]. simpl in H1.
  specialize (IH sys1).
  destruct (run cfg rest sys1) as [sys2 eff2]. simpl in *.
  rewrite sentinelAfter_app, H1. exact IH.
Qed.

(** X11.  The sentinel file mirrors the flag: if creating and removing
    the file succeed, then after any run from a start the file exists
    exactly when the launcher is disabled in memory, whatever the file
    was at the start. *)
Theorem sentinel_mirrors_flag (cfg : NfcConfig) (sentinel : bool)
    (evs : list Event) :
  let started := startService sentinel in
  let ran := run cfg evs (fst started) in
  sentinelAfter (snd started ++ snd ran) sentinel =
  disableLauncher (svc (fst ran)).
Proof.
  intros started ran. rewrite sentinelAfter_app.
  unfold ran. rewrite <- run_sentinel. f_equal.
  unfold started. destruct sentinel; reflexivity.
Qed.

End SocketFacts.

Section OpeningFacts.
Context {I : Imports}.

(** X8.  [openDeviceWithRetries] stops at the first attempt that
    succeeds: if the attempts before the [j]-th retry fail and that one
    opens the device, with [j] at most [connectMaxTries], the result is
    success after [j] retries; more fuel than one attempt and
    [connectMaxTries] retries changes nothing. *)
Theorem openDeviceWithRetries_first_success (fuel : nat)
    (config : NfcConfig) (oio : OpenIO) (j : nat) :
  (openFuel <= fuel)%nat ->
  let cs := fst (chosenConnection config oio) in
  let k0 := snd (chosenConnection config oio) in
  Z.of_nat j <= connectMaxTries ->
  (forall i, (i < j)%nat -> nfcOpen oio (k0 + i)%nat cs <> None) ->
  nfcOpen oio (k0 + j)%nat cs = None ->
  openDeviceWithRetries fuel config oio = Some (None, Z.of_nat j) /\
  openDeviceWithRetries fuel config oio =
    openDeviceWithRetries openFuel config oio.
Proof.
  intros Hfuel cs k0 Hj Hfail Hok.
  assert (Hone : forall f, (openFuel <= f)%nat ->
             openDeviceWithRetries f config oio = Some (None, Z.of_nat j)).
  { intros f Hf.
    destruct (openDeviceWithRetries_returns f config oio Hf)
      as (n & Hres & Hle & Hprev & Hlast).
    fold cs k0 in Hres, Hprev, Hlast.
    assert (n = j).
    { destruct (Nat.lt_trichotomy n j) as [Hlt | [Heq | Hgt]].
      - specialize (Hlast (Hfail n Hlt)). lia.
      - exact Heq.
      - exfalso. exact (Hprev j Hgt Hok). }
    subst n. rewrite Hres, Hok. reflexivity. }
  split; [apply Hone; exact Hfuel |].
  rewrite (Hone fuel Hfuel), (Hone openFuel (le_n _)). reflexivity.
Qed.

Lemma detectFrom_cons (opens : nat -> string -> option error) (k : nat)
    (device : string) (rest : list string) :
  detectFrom opens k (device :: rest) =
  match opens k ("pn532_uart:" ++ device)%string with
  | None => (("pn532_uart:" ++ device)%string, S k)
  | Some _ => detectFrom opens (S k) rest
  end.
Proof. reflexivity. Qed.

Lemma detectFrom_first (opens : nat -> string -> option error) :
  forall (pre : list string) (k : nat) (d : string) (post : list string),
    (forall i dev, nth_error pre i = Some dev ->
                   opens (k + i)%nat ("pn532_uart:" ++ dev)%string <> None) ->
    opens (k + List.length pre)%nat ("pn532_uart:" ++ d)%string = None ->
    detectFrom opens k (pre ++ d :: post) =
      (("pn532_uart:" ++ d)%string, S (k + List.length pre)).
Proof.
  induction pre as [| p pre IH]; intros k d post Hfail Hok;
    cbn [List.app List.length] in *; rewrite detectFrom_cons.
  - rewrite Nat.add_0_r in *. rewrite Hok. reflexivity.
  - pose proof (Hfail 0%nat p eq_refl) as Hp. rewrite Nat.add_0_r in Hp.
    destruct (opens k ("pn532_uart:" ++ p)%string) as [e |]; [| congruence].
    rewrite (IH (S k) d post).
    + rewrite Nat.add_succ_r. reflexivity.
    + intros i dev Hi. rewrite Nat.add_succ_l, <- Nat.add_succ_r.
      apply (Hfail (S i) dev). exact Hi.
    + rewrite Nat.add_succ_l, <- Nat.add_succ_r. exact Hok.
Qed.

Lemma detectFrom_none (opens : nat -> string -> option error) :
  forall (devices : list string) (k : nat),
    (forall i dev, nth_error devices i = Some dev ->
                   opens (k + i)%nat ("pn532_uart:" ++ dev)%string <> None) ->
    detectFrom opens k devices = ("", (k + List.length devices)%nat).
Proof.
  induction devices as [| p rest IH]; intros k Hfail.
  - simpl. rewrite Nat.add_0_r. reflexivity.
  - rewrite detectFrom_cons. cbn [List.length].
    pose proof (Hfail 0%nat p eq_refl) as Hp. rewrite Nat.add_0_r in Hp.
    destruct (opens k ("pn532_uart:" ++ p)%string) as [e |]; [| congruence].
    rewrite (IH (S k)).
    + rewrite Nat.add_succ_r. reflexivity.
    + intros i dev Hi. rewrite Nat.add_succ_l, <- Nat.add_succ_r.
      apply (Hfail (S i) dev). exact Hi.
Qed.

(** X9.  Probing tries the serial devices in the order they are
    listed and settles on the first that opens: the result is its path
    with the prefix pn532_uart: and one call of [nfc.Open] was made per
    device up to it.  When none opens, or the directory cannot be read,
    the connection string is empty. *)
Theorem detectConnectionString_first_match (oio : OpenIO)
    (pre : list string) (d : string) (post : list string) :
  getSerialDeviceList (serialDir oio) = pre ++ d :: post ->
  (forall i dev, nth_error pre i = Some dev ->
                 nfcOpen oio i ("pn532_uart:" ++ dev)%string <> None) ->
  nfcOpen oio (List.length pre) ("pn532_uart:" ++ d)%string = None ->
  detectConnectionString oio =
    (("pn532_uart:" ++ d)%string, S (List.length pre)) /\
  (forall other : OpenIO,
     (forall i dev,
         nth_error (getSerialDeviceList (serialDir other)) i = Some dev ->
         nfcOpen other i ("pn532_uart:" ++ dev)%string <> None) ->
     detectConnectionString other =
       ("", List.length (getSerialDeviceList (serialDir other)))) /\
  (forall other : OpenIO,
     serialDir other = None -> detectConnectionString other = ("", 0%nat)).
Proof.
  intros Hlist Hfail Hok. unfold detectConnectionString.
  split; [| split].
  - rewrite Hlist. apply (detectFrom_first (nfcOpen oio) pre 0 d post);
      assumption.
  - intros other Hall.
    apply (detectFrom_none (nfcOpen other) _ 0). exact Hall.
  - intros other Hnone. rewrite Hnone. reflexivity.
Qed.

End OpeningFacts.

Section Episodes.
Context {I : Imports}.

Lemma pollDevice_new (d : DeviceIO) (ac : Card) :
  newTag d ac ->
  exists card,
    pollDevice d ac = (card, None) /\
    UID card = getCardUID (target (polled d)) /\ ScanTime card = now d.
Proof.
  intros (Hc & Hb & Hu & Hread). unfold pollDevice.
  rewrite (benign_passes _ Hb).
  destruct (Z.leb_spec (count (polled d)) 0) as [Hle | _]; [lia |].
  apply String.eqb_neq in Hu. rewrite Hu.
  assert (Hgo : (if String.eqb (getCardType (target (polled d))) TypeNTAG
                 then snd (readNtag d) else None) = None).
  { destruct Hread as [Hty | Hrd].
    - apply String.eqb_neq in Hty. rewrite Hty. reflexivity.
    - rewrite Hrd. destruct (String.eqb _ TypeNTAG); reflexivity. }
  rewrite Hgo. eexists. split; [reflexivity | split; reflexivity].
Qed.

Lemma newTag_isArrival (d : DeviceIO) (ac : Card) :
  newTag d ac -> getCardUID (target (polled d)) <> "" ->
  isArrival d ac = true.
Proof.
  intros Hnew Hne. pose proof Hnew as (_ & _ & Hu & _).
  destruct (pollDevice_new d ac Hnew) as (card & Hp & Hc & _).
  unfold isArrival. rewrite Hp, Hc. simpl.
  apply String.eqb_neq in Hne. rewrite Hne.
  assert (Hd : String.eqb (UID ac) (getCardUID (target (polled d))) = false)
    by (apply String.eqb_neq; congruence).
  rewrite Hd. reflexivity.
Qed.

(** X14.  A card whose launch failed is not launched again while it
    stays on the reader: the failing iteration has stored it as active
    card, so the next sighting of the same UID only sleeps. *)
Theorem failed_launch_is_not_retried (cfg : NfcConfig) (t1 t2 : TickIO)
    (s : ServiceState) (le : time.Time) (card : Card) (e : error) :
  arrival (device t1) (activeCard s) card ->
  disableLauncher s = false ->
  launch_err t1 = Some e ->
  sees (device t2) (UID card) ->
  let r1 := loopBody cfg t1 s le in
  let r2 := loopBody cfg t2 (state' r1) (lastError' r1) in
  occurrences isLaunch (effects r1) = 1%nat /\
  lastError' r1 = now_mark t1 /\
  activeCard (state' r1) = card /\
  effects r2 = [Sleep periodBetweenLoop].
Proof.
  intros (Hp & Hne & Hnew) Hen Hlaunch Hsee r1 r2.
  assert (Hst : state' r1 = SetActiveCard s card)
    by (apply loopBody_stores; exact Hp).
  assert (Hle : lastError' r1 = now_mark t1).
  { unfold r1, loopBody, GetActiveCard. rewrite Hp. simpl.
    apply String.eqb_neq in Hne. rewrite Hne.
    assert (Hd : String.eqb (UID (activeCard s)) (UID card) = false)
      by (apply String.eqb_neq; congruence).
    rewrite Hd, Hen, Hlaunch. reflexivity. }
  split; [| split; [exact Hle | split; [rewrite Hst; reflexivity |]]].
  - unfold r1. rewrite loopBody_launches. unfold isArrival.
    rewrite Hp, Hen. simpl.
    apply String.eqb_neq in Hne. rewrite Hne.
    assert (Hd : String.eqb (UID (activeCard s)) (UID card) = false)
      by (apply String.eqb_neq; congruence).
    rewrite Hd. reflexivity.
  - unfold r2. rewrite Hst. unfold loopBody, GetActiveCard.
    cbn [activeCard SetActiveCard].
    rewrite (pollDevice_same (device t2) card Hsee). simpl.
    rewrite String.eqb_refl, orb_true_r. reflexivity.
Qed.

(** X15.  An NTAG whose read fails is tried again: the failing
    iteration leaves the state as it was and launches nothing, so the
    next poll that finds the tag readable is a new arrival and, with
    the launcher enabled, launches once. *)
Theorem unread_ntag_is_retried (cfg : NfcConfig) (t1 t2 : TickIO)
    (s : ServiceState) (le : time.Time) (e : error) :
  count (polled (device t1)) > 0 ->
  benign (poll_err (polled (device t1))) ->
  getCardUID (target (polled (device t1))) <> UID (activeCard s) ->
  getCardType (target (polled (device t1))) = TypeNTAG ->
  snd (readNtag (device t1)) = Some e ->
  newTag (device t2) (activeCard s) ->
  getCardUID (target (polled (device t2))) <> "" ->
  disableLauncher s = false ->
  let r1 := loopBody cfg t1 s le in
  let r2 := loopBody cfg t2 (state' r1) (lastError' r1) in
  state' r1 = s /\ next r1 = GotoEnd /\
  occurrences isLaunch (effects r1) = 0%nat /\
  occurrences isLaunch (effects r2) = 1%nat /\
  UID (activeCard (state' r2)) = getCardUID (target (polled (device t2))).
Proof.
  intros Hc Hb Hu Hty Hrd Hnew Hne Hen r1 r2.
  assert (Hp : pollDevice (device t1) (activeCard s) =
               (activeCard s, Some (Errorf "error reading ntag: " e))).
  { unfold pollDevice. rewrite (benign_passes _ Hb).
    destruct (Z.leb_spec (count (polled (device t1))) 0) as [Hle | _];
      [lia |].
    apply String.eqb_neq in Hu. rewrite Hu, Hty, String.eqb_refl, Hrd.
    reflexivity. }
  assert (Hs1 : state' r1 = s /\ next r1 = GotoEnd).
  { unfold r1, loopBody, GetActiveCard. rewrite Hp. split; reflexivity. }
  destruct Hs1 as [Hs1 Hn1].
  split; [exact Hs1 | split; [exact Hn1 | split; [| split]]].
  - unfold r1. rewrite loopBody_launches. unfold isArrival. rewrite Hp.
    reflexivity.
  - unfold r2. rewrite loopBody_launches, Hs1.
    rewrite (newTag_isArrival _ _ Hnew Hne), Hen. reflexivity.
  - unfold r2. rewrite loopBody_activeCard, Hs1.
    destruct (pollDevice_new _ _ Hnew) as (card & Hp2 & Hc2 & _).
    rewrite Hp2. exact Hc2.
Qed.

(** X16.  A tag whose UID cannot be detected pushes the active card
    out at once, without the 5 s wait: the card built for it, with an
    empty UID, becomes the active card, the last scanned card stays and
    nothing happens outside but the sleep. *)
Theorem undetected_uid_forgets_at_once (cfg : NfcConfig) (io : TickIO)
    (s : ServiceState) (le : time.Time) :
  UID (activeCard s) <> "" ->
  newTag (device io) (activeCard s) ->
  getCardUID (target (polled (device io))) = "" ->
  let r := loopBody cfg io s le in
  UID (activeCard (state' r)) = "" /\
  ScanTime (activeCard (state' r)) = now (device io) /\
  lastScanned (state' r) = lastScanned s /\
  effects r = [Sleep periodBetweenLoop].
Proof.
  intros Hac Hnew Hempty r.
  destruct (pollDevice_new _ _ Hnew) as (card & Hp & Hc & Ht).
  rewrite Hempty in Hc.
  assert (Hst : state' r = SetActiveCard s card)
    by (apply loopBody_stores; exact Hp).
  split; [rewrite Hst; exact Hc |].
  split; [rewrite Hst; exact Ht |].
  split; [rewrite Hst; simpl; rewrite Hc; reflexivity |].
  unfold r, loopBody, GetActiveCard. rewrite Hp. simpl. rewrite Hc.
  reflexivity.
Qed.

(** X17.  A forgotten card launches again: once a poll without a tag
    more than 5 s after the arrival has cleared the active card, the
    next readable sighting of the same UID is a new arrival with a new
    scan time and, with the launcher enabled, one launch. *)
Theorem forgotten_card_launches_again (cfg : NfcConfig) (t1 t2 : TickIO)
    (s : ServiceState) (le : time.Time) :
  UID (activeCard s) <> "" ->
  quiet (device t1) ->
  now (device t1) - ScanTime (activeCard s) > timeToForgetCard ->
  sees (device t2) (UID (activeCard s)) ->
  readable (device t2) ->
  disableLauncher s = false ->
  let r1 := loopBody cfg t1 s le in
  let r2 := loopBody cfg t2 (state' r1) (lastError' r1) in
  activeCard (state' r1) = emptyCard /\
  occurrences isLaunch (effects r2) = 1%nat /\
  UID (activeCard (state' r2)) = UID (activeCard s) /\
  ScanTime (activeCard (state' r2)) = now (device t2).
Proof.
  intros Hu Hq Hlate (Hc & Hb & Hsame) Hread Hen r1 r2.
  assert (Ha1 : activeCard (state' r1) = emptyCard).
  { unfold r1. rewrite loopBody_activeCard, (pollDevice_quiet _ _ Hq).
    pose proof Hu as Hu'. apply String.eqb_neq in Hu'. rewrite Hu'.
    destruct (Z.ltb_spec timeToForgetCard
                (now (device t1) - ScanTime (activeCard s))); [| lia].
    reflexivity. }
  assert (Hf1 : disableLauncher (state' r1) = false).
  { unfold r1. destruct (loopBody_flags cfg t1 s le) as [_ Hf].
    rewrite Hf. exact Hen. }
  assert (Hnew : newTag (device t2) (activeCard (state' r1))).
  { rewrite Ha1. repeat split; try assumption.
    rewrite Hsame. exact Hu. }
  assert (Hne : getCardUID (target (polled (device t2))) <> "")
    by (rewrite Hsame; exact Hu).
  destruct (pollDevice_new _ _ Hnew) as (card & Hp & Hcu & Hct).
  split; [exact Ha1 | split; [| split]].
  - unfold r2. rewrite loopBody_launches.
    rewrite (newTag_isArrival _ _ Hnew Hne), Hf1. reflexivity.
  - unfold r2. rewrite loopBody_activeCard, Hp. simpl. congruence.
  - unfold r2. rewrite loopBody_activeCard, Hp. exact Hct.
Qed.

(** X18.  An EIO met while reading an NTAG does not lead to a
    reconnect: [pollDevice] reports it in a new error that does not
    wrap it, so the loop treats it like any other poll error, marks
    [lastError], sleeps and polls again with the same device. *)
Theorem ntag_read_EIO_does_not_reconnect (cfg : NfcConfig) (io : PollerIO)
    (s : ServiceState) (le : time.Time) :
  let d := device (tick_io io) in
  stopService s = false ->
  count (polled d) > 0 ->
  benign (poll_err (polled d)) ->
  getCardUID (target (polled d)) <> UID (activeCard s) ->
  getCardType (target (polled d)) = TypeNTAG ->
  snd (readNtag d) = Some (NfcError nfc.EIO) ->
  pollerStep cfg io s (Polling le) =
    (s, Polling (now_mark (tick_io io)),
     playFailLimited cfg (now_check (tick_io io)) le
     ++ [Sleep periodBetweenLoop]).
Proof.
  intros d Hstop Hc Hb Hu Hty Hrd.
  assert (Hp : pollDevice d (activeCard s) =
    (activeCard s,
     Some (Errorf "error reading ntag: " (NfcError nfc.EIO)))).
  { unfold pollDevice. rewrite (benign_passes _ Hb).
    destruct (Z.leb_spec (count (polled d)) 0) as [Hle | _]; [lia |].
    apply String.eqb_neq in Hu. rewrite Hu, Hty, String.eqb_refl, Hrd.
    reflexivity. }
  unfold pollerStep, ShouldStopService. rewrite Hstop.
  unfold loopBody, GetActiveCard. fold d. rewrite Hp. reflexivity.
Qed.

End Episodes.

Section WriteModeFacts.
Context {I : Imports}.

Lemma nap_length : 100 * time.Millisecond = 100000000.
Proof. reflexivity. Qed.

Lemma waitStopped_naps (running : nat -> bool) :
  forall (fuel k : nat) (tries : Z) (t : list Action) (r : Z + unit),
    1 <= tries ->
    waitStopped fuel running k tries = Some (t, r) ->
    napTime t <= tries * (100 * time.Millisecond).
Proof.
  rewrite nap_length.
  induction fuel as [| fuel IH]; intros k tries t r Hpos Hw; [discriminate |].
  cbn [waitStopped] in Hw. rewrite nap_length in Hw.
  destruct (running k); cbn [negb] in Hw.
  2: { injection Hw as <- <-. cbn [napTime]. lia. }
  destruct (Z.leb_spec (tries - 1) 0) as [Hlast | Hmore].
  - injection Hw as <- <-. cbn [napTime]. lia.
  - destruct (waitStopped fuel running (S k) (tries - 1))
      as [[t' r'] |] eqn:Hrec; [| discriminate].
    specialize (IH (S k) (tries - 1) t' r' ltac:(lia) Hrec).
    destruct r' as [code | []]; injection Hw as <- <-;
      cbn [napTime app]; lia.
Qed.

Lemma napTime_app (a b : list Action) :
  napTime (a ++ b) = napTime a + napTime b.
Proof.
  induction a as [| x a IH]; [reflexivity |].
  destruct x; simpl; rewrite IH; lia.
Qed.

(** The stop phase, taken apart. *)
Lemma stopPhase_cases (fuel : nat) (io : WriteIO) (t : list Action)
    (r : Z + unit) :
  stopPhase fuel io = Some (t, r) ->
  Forall supervising t /\
  napTime t <= 15 * (100 * time.Millisecond) /\
  (r = inr tt ->
   running io 0%nat = false \/
   exists j, (1 <= j <= 15)%nat /\ running io j = false).
Proof.
  unfold stopPhase. destruct (running io 0%nat) eqn:Hrun.
  2: { intros H. injection H as <- <-.
       split; [constructor | split; [vm_compute; discriminate | auto]]. }
  destruct (waitStopped fuel (running io) 1 15) as [[tw rw] |] eqn:Hw;
    [| discriminate].
  pose proof (waitStopped_naps (running io) fuel 1 15 tw rw ltac:(lia) Hw)
    as Hnaps.
  assert (Htw : Forall supervising tw).
  { destruct (Nat.le_gt_cases 15 fuel) as [Hf | Hf].
    - destruct (waitStopped_shape (running io) fuel 1 15)
        as (t' & r' & Hw' & Ht' & _); [lia | simpl; lia |].
      rewrite Hw in Hw'. injection Hw' as <- <-. exact Ht'.
    - clear Hnaps. revert Hw. generalize 1%nat as k. generalize 15 as tries.
      revert tw rw. clear Hf.
      induction fuel as [| f IH]; intros tw rw tries k Hw;
        [discriminate |].
      simpl in Hw. destruct (running io k); simpl in Hw.
      2: { injection Hw as <- <-. constructor. }
      destruct (tries - 1 <=? 0).
      + injection Hw as <- <-.
        constructor; [right; eexists; reflexivity | constructor].
      + destruct (waitStopped f (running io) (S k) (tries - 1))
          as [[t' r'] |] eqn:Hrec; [| discriminate].
        simpl in Hw. injection Hw as <- <-.
        constructor; [right; eexists; reflexivity |].
        eapply IH. exact Hrec. }
  destruct (stop_err io) as [e |]; simpl; intros H; injection H as <- <-.
  - split; [constructor; [left; reflexivity | constructor] |].
    split; [vm_compute; discriminate | discriminate].
  - split; [constructor; [left; reflexivity | exact Htw] |].
    split; [exact Hnaps |].
    intros ->. right.
    destruct (waitStopped_seen_stopped (running io) fuel 1 15 tw
                ltac:(lia) Hw) as (j & Hj1 & Hj2 & Hj3).
    exists j. split; [lia | exact Hj3].
Qed.

Lemma writePhase_facts (text : string) (open_err : option error)
    (io : WriteIO) :
  exists t code,
    writePhase text open_err io = (t, inl code) /\
    In OpenDevice t /\
    napTime t = 0 /\
    (List.length (filter isWrite t) <= 1)%nat /\
    (forall a, In a t -> isWrite a = true ->
       open_err = None /\
       poll_err (w_polled io) = None /\ count (w_polled io) <> 0 /\
       (a = WriteMifare text (getCardUID (target (w_polled io))) \/
        a = WriteNtag text)).
Proof.
  unfold writePhase, restartService.
  destruct (running io 0%nat);
  destruct open_err as [oe |];
  destruct (poll_err (w_polled io)) as [pe |];
  destruct (Z.eqb_spec (count (w_polled io)) 0);
  destruct (String.eqb (getCardType (target (w_polled io))) TypeMifare);
  destruct (String.eqb (getCardType (target (w_polled io))) TypeNTAG);
  destruct (w_mifare io) as [me |];
  destruct (w_ntag io) as [ne |];
  destruct (start_err io) as [se |];
  simpl; eexists; eexists; (split; [reflexivity |]);
  (split; [left; reflexivity |]);
  (split; [reflexivity |]); (split; [simpl; lia |]);
  intros a Hin Hw; simpl in Hin;
  repeat (destruct Hin as [Hin | Hin];
          [subst a; simpl in Hw;
           first [discriminate Hw
                 | split; [reflexivity | split; [reflexivity | split;
                     [assumption
                     | first [left; reflexivity | right; reflexivity]]]]]
          |]);
  contradiction.
Qed.

(** X19.  Write mode opens the device only when the service is not
    running: either it was not running at the start, or one of the at
    most fifteen checks after the stop request found it stopped. *)
Theorem write_mode_owns_device (fuel : nat) (text : string)
    (config : NfcConfig) (io : WriteIO) (trace : list Action)
    (r : Z + unit) :
  handleWriteCommand fuel text config io = Some (trace, r) ->
  In OpenDevice trace ->
  running io 0%nat = false \/
  exists j, (1 <= j <= 15)%nat /\ running io j = false.
Proof.
  unfold handleWriteCommand.
  destruct (stopPhase fuel io) as [[t1 r1] |] eqn:Hstop; [| discriminate].
  destruct (openDeviceWithRetries fuel config (w_open io))
    as [[oe tries] |]; [| discriminate].
  destruct (stopPhase_cases fuel io t1 r1 Hstop) as (Ht1 & _ & Hseen).
  assert (HnoOpen : ~ In OpenDevice t1).
  { apply supervising_not; [exact Ht1 |].
    intros [H | [d H]]; discriminate. }
  destruct r1 as [code | []]; simpl.
  - intros H. injection H as <- <-. intros Hin. contradiction.
  - intros _ _. apply Hseen. reflexivity.
Qed.

(** X20.  Write mode sleeps at most fifteen times 100 ms, all of it
    while waiting for the service to stop, and calls a tag write at
    most once; a write is called only when [openDeviceWithRetries]
    returned no error and the poll returned a tag without error, and
    it is the write for the type of that tag, given the text of the
    command line. *)
Theorem write_mode_bounds (fuel : nat) (text : string)
    (config : NfcConfig) (io : WriteIO) (trace : list Action)
    (r : Z + unit) :
  handleWriteCommand fuel text config io = Some (trace, r) ->
  napTime trace <= 15 * (100 * time.Millisecond) /\
  (List.length (filter isWrite trace) <= 1)%nat /\
  (forall a, In a trace -> isWrite a = true ->
     (exists tries,
        openDeviceWithRetries fuel config (w_open io) = Some (None, tries))
     /\ In OpenDevice trace /\
     poll_err (w_polled io) = None /\ count (w_polled io) <> 0 /\
     writeFor text io a).
Proof.
  unfold handleWriteCommand.
  destruct (stopPhase fuel io) as [[t1 r1] |] eqn:Hstop; [| discriminate].
  destruct (openDeviceWithRetries fuel config (w_open io))
    as [[oe tries] |] eqn:Hdev; [| discriminate].
  destruct (stopPhase_cases fuel io t1 r1 Hstop) as (Ht1 & Hnap & _).
  assert (Hnow : forall a, In a t1 -> isWrite a = false).
  { intros a Hin. rewrite Forall_forall in Ht1.
    destruct (Ht1 a Hin) as [-> | [d ->]]; reflexivity. }
  assert (Hfil : filter isWrite t1 = []).
  { clear - Hnow. induction t1 as [| a t1 IH]; [reflexivity |].
    simpl. rewrite (Hnow a (or_introl eq_refl)).
    apply IH. intros b Hb. apply Hnow. right. exact Hb. }
  destruct r1 as [code | []]; simpl.
  - intros H. injection H as <- <-.
    split; [exact Hnap | split; [rewrite Hfil; simpl; lia |]].
    intros a Hin Hw. rewrite (Hnow a Hin) in Hw. discriminate.
  - destruct (writePhase_facts text oe io)
      as (t2 & code & Hw & Hopen & Hn2 & Hone & _).
    destruct (writePhase_inputs text oe io)
      as (t2' & code' & Hw' & _ & Hwr & _).
    rewrite Hw in Hw'. injection Hw' as <- <-.
    rewrite Hw. intros H. injection H as <- <-.
    split; [rewrite napTime_app, Hn2, Z.add_0_r; exact Hnap |].
    split; [rewrite filter_app, Hfil; exact Hone |].
    intros a Hin Hisw. apply in_app_or in Hin.
    destruct Hin as [Hin | Hin];
      [rewrite (Hnow a Hin) in Hisw; discriminate |].
    destruct (Hwr a Hin Hisw) as (Ho & Hp & Hc & Ha).
    split; [exists tries; rewrite Ho; reflexivity |].
    split; [apply in_or_app; right; exact Hopen |].
    split; [exact Hp | split; [exact Hc | exact Ha]].
Qed.

End WriteModeFacts.

Section HandlerFacts.
Import remote.

(** X12.  [LaunchGame] panics exactly when the request decodes and its
    path belongs to no system.  It calls [http.Error] at most once, and
    the responses it writes are exactly these: status 400 with the
    decoder's error text when the request does not decode; status 400
    with the text "no system found for game" when the path belongs to
    no system (written before the panic); status 500 with the launch
    error's text when launching the first matching system fails.  It
    does nothing at all exactly when the first matching system was
    launched without error. *)
Theorem LaunchGame_outcomes (System : Type) (Id : System -> string)
    (FolderToSystems : string -> list System)
    (mister_LaunchGame : System -> string -> option error)
    (decoded : error + string) :
  let run := LaunchGame System Id FolderToSystems mister_LaunchGame decoded in
  (forall e, snd run = Panic e <->
             e = IndexOutOfRange 0 0 /\
             exists path, decoded = inr path /\ FolderToSystems path = []) /\
  (List.length (filter isHttpError (fst run)) <= 1)%nat /\
  (fst run = [] <->
     exists path sys rest,
       decoded = inr path /\ FolderToSystems path = sys :: rest /\
       mister_LaunchGame sys path = None) /\
  (forall body code, In (HttpError body code) (fst run) <->
     (code = StatusBadRequest /\
      exists err, decoded = inl err /\ body = ErrorText err) \/
     (code = StatusBadRequest /\
      body = Literal "no system found for game" /\
      exists path, decoded = inr path /\ FolderToSystems path = []) \/
     (code = StatusInternalServerError /\
      exists path sys rest err,
        decoded = inr path /\ FolderToSystems path = sys :: rest /\
        mister_LaunchGame sys path = Some err /\ body = ErrorText err)).
Proof.
  intros run. unfold run, LaunchGame.
  destruct decoded as [err | path].
  - simpl. split; [| split; [lia | split]].
    + intros e. split; [discriminate |].
      intros (_ & p & Hp & _). discriminate.
    + split; [discriminate |]. intros (p & s & r & Hp & _). discriminate.
    + intros body code. split.
      * intros [H | [H | H]]; try discriminate; [| contradiction].
        injection H as <- <-. left. split; [reflexivity |].
        exists err. split; reflexivity.
      * intros [(-> & e & He & ->) | [(_ & _ & p & Hp & _) |
                (_ & p & s & r & e & Hp & _)]]; try discriminate.
        injection He as <-. left. reflexivity.
  - destruct (FolderToSystems path) as [| sys rest] eqn:Hsys; simpl.
    + split; [| split; [lia | split]].
      * intros e. split.
        -- intros H. injection H as <-. split; [reflexivity |].
           exists path. split; [reflexivity | exact Hsys].
        -- intros (-> & _). reflexivity.
      * split; [discriminate |].
        intros (p & s & r & Hp & Hf & _). injection Hp as <-. congruence.
      * intros body code. split.
        -- intros [H | H]; [| contradiction].
           injection H as <- <-. right. left.
           split; [reflexivity | split; [reflexivity |]].
           exists path. split; [reflexivity | exact Hsys].
        -- intros [(_ & e & He & _) | [(-> & -> & _) |
                   (_ & p & s & r & e & Hp & Hf & _)]].
           ++ discriminate.
           ++ left. reflexivity.
           ++ injection Hp as <-. congruence.
    + destruct (mister_LaunchGame sys path) as [err |] eqn:Hl; simpl.
      * split; [| split; [lia | split]].
        -- intros e. split; [discriminate |].
           intros (_ & p & Hp & Hf). injection Hp as <-. congruence.
        -- split; [discriminate |].
           intros (p & s & r & Hp & Hf & Hn). injection Hp as <-.
           rewrite Hsys in Hf. injection Hf as <- <-. congruence.
        -- intros body code. split.
           ++ intros [H | [H | H]]; try discriminate; [| contradiction].
              injection H as <- <-. right. right. split; [reflexivity |].
              exists path, sys, rest, err. repeat split; assumption.
           ++ intros [(_ & e & He & _) | [(_ & _ & p & Hp & Hf) |
                      (-> & p & s & r & e & Hp & Hf & Hm & ->)]].
              ** discriminate.
              ** injection Hp as <-. congruence.
              ** injection Hp as <-. rewrite Hsys in Hf.
                 injection Hf as <- <-. rewrite Hl in Hm.
                 injection Hm as <-. left. reflexivity.
      * split; [| split; [lia | split]].
        -- intros e. split; [discriminate |].
           intros (_ & p & Hp & Hf). injection Hp as <-. congruence.
        -- split; [| reflexivity]. intros _.
           exists path, sys, rest. repeat split; assumption.
        -- intros body code. split; [intros H; contradiction |].
           intros [(_ & e & He & _) | [(_ & _ & p & Hp & Hf) |
                   (_ & p & s & r & e & Hp & Hf & Hm & _)]].
           ++ discriminate.
           ++ injection Hp as <-. congruence.
           ++ injection Hp as <-. rewrite Hsys in Hf.
              injection Hf as <- <-. congruence.
Qed.

End HandlerFacts.

Section CreateLauncherFacts.
Import launchers.

(** X13.  [CreateLauncher] crashes on a nil error exactly when the
    request decodes and its game path belongs to no system, and then
    it has written nothing.  It writes the launcher's path only when
    the launcher was created for the first matching system, in the
    folder of the request (joined to [SdFolder] unless it already
    starts with it) and under the name stripped of bad characters, and
    it calls [http.Error] at most once. *)
Theorem CreateLauncher_outcomes (System : Type)
    (FolderToSystems : string -> list System) (SdFolder : string)
    (filepath_Join : string -> string -> string)
    (StripBadFileChars : string -> string)
    (mister_CreateLauncher :
       System -> string -> string -> string -> string * option error)
    (decoded : error + CreateLauncherRequest) (encode_err : option error) :
  let run := CreateLauncher System FolderToSystems SdFolder filepath_Join
               StripBadFileChars mister_CreateLauncher decoded encode_err in
  (snd run = Crashed NilError <->
     exists args, decoded = inr args /\ FolderToSystems (GamePath args) = []) /\
  (snd run = Crashed NilError -> fst run = []) /\
  (forall path, In (JsonPath path) (fst run) <->
     exists args sys rest,
       decoded = inr args /\
       FolderToSystems (GamePath args) = sys :: rest /\
       mister_CreateLauncher sys (GamePath args)
         (if String.prefix SdFolder (Folder args) then Folder args
          else filepath_Join SdFolder (Folder args))
         (StripBadFileChars (Name args)) = (path, None)) /\
  (List.length (filter isHttpErrorWritten (fst run)) <= 1)%nat.
Proof.
  intros run. unfold run, CreateLauncher.
  destruct decoded as [err | args].
  - simpl. split; [| split; [| split; [| lia]]].
    + split; [discriminate | intros (a & Ha & _); discriminate].
    + discriminate.
    + intros path. split.
      * intros [H | [H | H]]; try discriminate; contradiction.
      * intros (a & s & r & Ha & _). discriminate.
  - destruct (FolderToSystems (GamePath args)) as [| sys rest] eqn:Hsys.
    + simpl. split; [| split; [| split; [| lia]]].
      * split; [intros _; exists args; split; [reflexivity | exact Hsys]
               | reflexivity].
      * reflexivity.
      * intros path. split; [contradiction |].
        intros (a & s & r & Ha & Hf & _). injection Ha as <-. congruence.
    + assert (Hfolder :
        (if negb (String.prefix SdFolder (Folder args))
         then filepath_Join SdFolder (Folder args) else Folder args) =
        (if String.prefix SdFolder (Folder args) then Folder args
         else filepath_Join SdFolder (Folder args)))
        by (destruct (String.prefix SdFolder (Folder args)); reflexivity).
      rewrite Hfolder.
      destruct (mister_CreateLauncher sys (GamePath args) _ _)
        as [mgl [cerr |]] eqn:Hc.
      * simpl. split; [| split; [| split; [| lia]]].
        -- split; [discriminate |].
           intros (a & Ha & Hf). injection Ha as <-. congruence.
        -- discriminate.
        -- intros path. split.
           ++ intros [H | [H | H]]; try discriminate; contradiction.
           ++ intros (a & s & r & Ha & Hf & Hm). injection Ha as <-.
              rewrite Hsys in Hf. injection Hf as <- <-.
              rewrite Hc in Hm. discriminate.
      * assert (Hback : forall path,
                  (exists a s r,
                     @inr error _ args = inr a /\
                     FolderToSystems (GamePath a) = s :: r /\
                     mister_CreateLauncher s (GamePath a)
                       (if String.prefix SdFolder (Folder a) then Folder a
                        else filepath_Join SdFolder (Folder a))
                       (StripBadFileChars (Name a)) = (path, None)) ->
                  path = mgl).
        { intros path (a & s & r & Ha & Hf & Hm). injection Ha as <-.
          rewrite Hsys in Hf. injection Hf as <- <-.
          rewrite Hc in Hm. congruence. }
        assert (Hthere : exists a s r,
                     @inr error _ args = inr a /\
                     FolderToSystems (GamePath a) = s :: r /\
                     mister_CreateLauncher s (GamePath a)
                       (if String.prefix SdFolder (Folder a) then Folder a
                        else filepath_Join SdFolder (Folder a))
                       (StripBadFileChars (Name a)) = (mgl, None)).
        { exists args, sys, rest. repeat split; assumption. }
        destruct encode_err as [eerr |]; simpl;
          (split; [| split; [| split; [| lia]]]).
        -- split; [discriminate |].
           intros (a & Ha & Hf). injection Ha as <-. congruence.
        -- discriminate.
        -- intros path. split.
           ++ intros [H | [H | [H | H]]]; try discriminate;
                [| contradiction].
              injection H as <-. exact Hthere.
           ++ intros H. rewrite (Hback path H). left. reflexivity.
        -- split; [discriminate |].
           intros (a & Ha & Hf). injection Ha as <-. congruence.
        -- discriminate.
        -- intros path. split.
           ++ intros [H | H]; [| contradiction].
              injection H as <-. exact Hthere.
           ++ intros H. rewrite (Hback path H). left. reflexivity.
Qed.

End CreateLauncherFacts.

(* ================================================================== *)
(** * Further concrete runs *)

Section MoreRuns.
Import Scenario Cases.
#[local] Existing Instance SpecCodec.imports.

Lemma last_scanned_never_cleared_witness :
  UID (lastScanned
         (svc (fst (run cfg
                      [PollerRuns (plugged (nothing (T0 + 6 * time.Second)));
                       Connection (ReadBytes "disable"); StopCalled]
                      {| svc := holding ntagCard false;
                         poller := Polling time.zero |})))) <> "".
Proof.
  apply (last_scanned_never_cleared cfg
           [PollerRuns (plugged (nothing (T0 + 6 * time.Second)));
            Connection (ReadBytes "disable"); StopCalled]
           {| svc := holding ntagCard false; poller := Polling time.zero |}).
  discriminate.
Defined.

Lemma removal_is_silent_witness :
  effects (loopBody cfg (tick (nothing (T0 + 6 * time.Second)))
                    (holding ntagCard false) time.zero) =
    [Sleep periodBetweenLoop] /\
  lastScanned (state' (loopBody cfg (tick (nothing (T0 + 6 * time.Second)))
                                (holding ntagCard false) time.zero)) =
    ntagCard.
Proof.
  destruct (removal_is_silent cfg (tick (nothing (T0 + 6 * time.Second)))
              (holding ntagCard false) time.zero)
    as (Heff & Hlast & _).
  - split; [vm_compute; discriminate | right; reflexivity].
  - intros _. reflexivity.
  - split; [exact Heff | exact Hlast].
Defined.

Lemma disabled_sounds_never_play_witness :
  filter isAplay
    (snd (run mutedCfg
              [PollerRuns (plugged (nothing T0));
               PollerRuns (plugged (sighting ntagTarget T0));
               PollerRuns (plugged (released (T0 + 1 * time.Second)))]
              started)) = [].
Proof.
  apply (disabled_sounds_never_play mutedCfg
           [PollerRuns (plugged (nothing T0));
            PollerRuns (plugged (sighting ntagTarget T0));
            PollerRuns (plugged (released (T0 + 1 * time.Second)))]
           started).
  reflexivity.
Defined.

Lemma stop_ends_polling_witness :
  let idle := [PollerRuns (plugged (sighting ntagTarget T0));
               PollerRuns (plugged (sighting ntagTarget T0))] in
  exited (poller
            (fst (run cfg idle
                      {| svc := StopService newServiceState;
                         poller := Connecting |}))) /\
  snd (run cfg (PollerRuns (plugged (sighting ntagTarget T0))
                  :: StopCalled :: idle)
           {| svc := newServiceState; poller := Polling time.zero |}) =
    [Aplay Success; WriteScanFile "04a1b2c3d4e580,hi"; LaunchCard;
     Sleep periodBetweenLoop].
Proof.
  intros idle. split.
  - destruct (stop_ends_polling cfg idle (StopService newServiceState)
                Connecting (plugged (sighting ntagTarget T0))
                (tick (sighting ntagTarget T0)) time.zero emptyCard)
      as (Hset & _).
    + constructor; [exact Logic.I | constructor; [exact Logic.I | constructor]].
    + destruct Hset as (Hexit & _); [reflexivity | simpl; lia | exact Hexit].
  - destruct (stop_ends_polling cfg idle newServiceState
                (Polling time.zero) (plugged (sighting ntagTarget T0))
                (tick (sighting ntagTarget T0)) time.zero emptyCard)
      as (_ & Hduring & _).
    + constructor; [exact Logic.I | constructor; [exact Logic.I | constructor]].
    + destruct Hduring as (_ & _ & Heff);
        [reflexivity | vm_compute; lia | rewrite Heff; reflexivity].
Defined.

Lemma fail_sound_once_per_second_witness :
  let r1 := loopBody cfg (tick (released T0)) newServiceState time.zero in
  effects (loopBody cfg (tick (released (T0 + 300 * time.Millisecond)))
                    (state' r1) (lastError' r1)) =
    [Sleep periodBetweenLoop].
Proof.
  destruct (fail_sound_once_per_second cfg (tick (released T0))
              (tick (released (T0 + 300 * time.Millisecond)))
              newServiceState time.zero
              (NfcError nfc.ETGRELEASED) (NfcError nfc.ETGRELEASED))
    as (_ & _ & _ & Heff).
  - reflexivity.
  - reflexivity.
  - reflexivity.
  - reflexivity.
  - vm_compute. discriminate.
  - exact Heff.
Defined.

Lemma reconnect_resets_fail_limit_witness :
  exists rest,
    snd (run cfg [PollerRuns (plugged (unplugged T0));
                  PollerRuns (plugged (nothing T0));
                  PollerRuns (plugged (unplugged
                                         (T0 + 100 * time.Millisecond)))]
             {| svc := newServiceState; poller := Polling T0 |}) =
    playFailLimited cfg (now_check (tick_io (plugged (unplugged T0)))) T0
    ++ Aplay Fail :: rest.
Proof.
  apply (reconnect_resets_fail_limit cfg (plugged (unplugged T0))
           (plugged (nothing T0))
           (plugged (unplugged (T0 + 100 * time.Millisecond)))
           newServiceState T0 (NfcError nfc.EIO)).
  - reflexivity.
  - reflexivity.
  - reflexivity.
  - split; [exists 0; reflexivity | reflexivity].
  - reflexivity.
  - vm_compute. reflexivity.
Defined.

Lemma openDeviceWithRetries_first_success_witness :
  openDeviceWithRetries openFuel cfg opensThird = Some (None, 2).
Proof.
  destruct (openDeviceWithRetries_first_success openFuel cfg opensThird 2)
    as [Hres _].
  - apply le_n.
  - vm_compute. discriminate.
  - intros i Hi. destruct i as [| [| i]]; [discriminate | discriminate | lia].
  - reflexivity.
  - exact Hres.
Defined.

Lemma detectConnectionString_first_match_witness :
  detectConnectionString twoSerial =
    ("pn532_uart:/dev/serial/by-id/usb-PN532-if00", 2%nat).
Proof.
  destruct (detectConnectionString_first_match twoSerial
              ["/dev/serial/by-id/usb-FTDI-if00"]
              "/dev/serial/by-id/usb-PN532-if00" [])
    as [Hres _].
  - reflexivity.
  - intros i dev Hi. destruct i as [| i].
    + injection Hi as <-. discriminate.
    + destruct i; discriminate.
  - reflexivity.
  - exact Hres.
Defined.

Lemma socket_leaves_cards_alone_witness :
  lastScanned (fst (handleConn (ReadBytes "disable")
                               (holding ntagCard false))) = ntagCard /\
  List.length
    (filter isReply
       (snd (handleConn (ReadBytes "disable") (holding ntagCard false))))
  = 1%nat.
Proof.
  destruct (socket_leaves_cards_alone (ReadBytes "disable")
              (holding ntagCard false) "disable")
    as (_ & Hl & _ & _ & Hone & _).
  - discriminate.
  - split; [exact Hl | exact Hone].
Defined.

Lemma failed_launch_is_not_retried_witness :
  let r1 := loopBody cfg (failingLaunch (sighting ntagTarget T0))
                     newServiceState time.zero in
  occurrences isLaunch (effects r1) = 1%nat /\
  effects (loopBody cfg
             (tick (sighting ntagTarget (T0 + 300 * time.Millisecond)))
             (state' r1) (lastError' r1)) = [Sleep periodBetweenLoop].
Proof.
  destruct (failed_launch_is_not_retried cfg
              (failingLaunch (sighting ntagTarget T0))
              (tick (sighting ntagTarget (T0 + 300 * time.Millisecond)))
              newServiceState time.zero ntagCard
              (OtherError "no such system"))
    as (Hone & _ & _ & Hquiet).
  - split; [vm_compute; reflexivity | split; discriminate].
  - reflexivity.
  - reflexivity.
  - split; [reflexivity | split; [left; reflexivity | reflexivity]].
  - split; [exact Hone | exact Hquiet].
Defined.

Lemma unread_ntag_is_retried_witness :
  let r1 := loopBody cfg (tick (unreadableNtag T0)) newServiceState
                     time.zero in
  let r2 := loopBody cfg
              (tick (sighting ntagTarget (T0 + 300 * time.Millisecond)))
              (state' r1) (lastError' r1) in
  state' r1 = newServiceState /\
  occurrences isLaunch (effects r2) = 1%nat.
Proof.
  destruct (unread_ntag_is_retried cfg (tick (unreadableNtag T0))
              (tick (sighting ntagTarget (T0 + 300 * time.Millisecond)))
              newServiceState time.zero (NfcError nfc.ERFTRANS))
    as (Hsame & _ & _ & Hone & _).
  - reflexivity.
  - left. reflexivity.
  - discriminate.
  - reflexivity.
  - reflexivity.
  - split; [reflexivity | split; [left; reflexivity | split]].
    + discriminate.
    + right. reflexivity.
  - discriminate.
  - reflexivity.
  - split; [exact Hsame | exact Hone].
Defined.

Lemma undetected_uid_forgets_at_once_witness :
  let r := loopBody cfg
             (tick (sighting blankTarget (T0 + 300 * time.Millisecond)))
             (holding ntagCard false) time.zero in
  UID (activeCard (state' r)) = "" /\
  lastScanned (state' r) = ntagCard /\
  effects r = [Sleep periodBetweenLoop].
Proof.
  destruct (undetected_uid_forgets_at_once cfg
              (tick (sighting blankTarget (T0 + 300 * time.Millisecond)))
              (holding ntagCard false) time.zero)
    as (Hu & _ & Hl & Heff).
  - discriminate.
  - split; [reflexivity | split; [left; reflexivity | split]].
    + discriminate.
    + left. discriminate.
  - reflexivity.
  - split; [exact Hu | split; [exact Hl | exact Heff]].
Defined.

Lemma forgotten_card_launches_again_witness :
  let r1 := loopBody cfg (tick (nothing (T0 + 5100 * time.Millisecond)))
                     (holding ntagCard false) time.zero in
  let r2 := loopBody cfg
              (tick (sighting ntagTarget (T0 + 5400 * time.Millisecond)))
              (state' r1) (lastError' r1) in
  activeCard (state' r1) = emptyCard /\
  occurrences isLaunch (effects r2) = 1%nat /\
  ScanTime (activeCard (state' r2)) = T0 + 5400 * time.Millisecond.
Proof.
  destruct (forgotten_card_launches_again cfg
              (tick (nothing (T0 + 5100 * time.Millisecond)))
              (tick (sighting ntagTarget (T0 + 5400 * time.Millisecond)))
              (holding ntagCard false) time.zero)
    as (Hclear & Hone & _ & Htime).
  - discriminate.
  - split; [vm_compute; discriminate | right; reflexivity].
  - reflexivity.
  - split; [reflexivity | split; [left; reflexivity | reflexivity]].
  - right. reflexivity.
  - reflexivity.
  - split; [exact Hclear | split; [exact Hone | exact Htime]].
Defined.

Lemma ntag_read_EIO_does_not_reconnect_witness :
  pollerStep cfg (plugged (ntagLostInRead T0)) newServiceState
             (Polling time.zero) =
    (newServiceState, Polling T0, [Aplay Fail; Sleep periodBetweenLoop]).
Proof.
  rewrite (ntag_read_EIO_does_not_reconnect cfg
             (plugged (ntagLostInRead T0)) newServiceState time.zero).
  - reflexivity.
  - reflexivity.
  - reflexivity.
  - left. reflexivity.
  - discriminate.
  - reflexivity.
  - reflexivity.
Defined.

Lemma write_mode_owns_device_witness :
  running slowStop 0%nat = false \/
  exists j, (1 <= j <= 15)%nat /\ running slowStop j = false.
Proof.
  apply (write_mode_owns_device 15 "hello" cfg slowStop
           [SvcStop; Nap (100 * time.Millisecond);
            Nap (100 * time.Millisecond); OpenDevice; PollTarget;
            WriteMifare "hello" "deadbeef"; SvcStart]
           (inl 0)).
  - vm_compute. reflexivity.
  - simpl. auto 10.
Defined.

Lemma write_mode_bounds_witness :
  napTime [SvcStop; Nap (100 * time.Millisecond);
           Nap (100 * time.Millisecond); OpenDevice; PollTarget;
           WriteMifare "hello" "deadbeef"; SvcStart]
    <= 15 * (100 * time.Millisecond) /\
  (exists tries,
     openDeviceWithRetries 15 cfg (w_open slowStop) = Some (None, tries)) /\
  writeFor "hello" slowStop (WriteMifare "hello" "deadbeef").
Proof.
  destruct (write_mode_bounds 15 "hello" cfg slowStop
              [SvcStop; Nap (100 * time.Millisecond);
               Nap (100 * time.Millisecond); OpenDevice; PollTarget;
               WriteMifare "hello" "deadbeef"; SvcStart]
              (inl 0)) as (Hnap & _ & Hwr).
  - vm_compute. reflexivity.
  - destruct (Hwr (WriteMifare "hello" "deadbeef"))
      as (Hopen & _ & _ & _ & Hfor).
    + simpl. auto 10.
    + reflexivity.
    + split; [exact Hnap | split; [exact Hopen | exact Hfor]].
Defined.

(** The card helpers of [SpecCodec] on the specification's NTAG with
    the text "system:snes": the record is decoded in full, and after
    the arrival the status reply carries it. *)
Example snes_record_decoded :
  let pages := [x03; x10; xd1; x01; x0c; x54; x02; x65; x6e;
                x73; x79; x73; x74; x65; x6d; x3a; x73; x6e; x65; x73;
                xfe; x00] in
  SpecCodec.ParseRecordText pages = "system:snes" /\
  snd (run cfg
         [PollerRuns (plugged (nothing T0));
          PollerRuns (plugged {| polled := {| count := 1;
                                              target := ntagTarget;
                                              poll_err := None |};
                                 readNtag := (pages, None);
                                 readMifare := ([], None);
                                 now := T0 |});
          Connection (ReadBytes "status")] started) =
    [Aplay Success; WriteScanFile "04a1b2c3d4e580,system:snes";
     LaunchCard; Sleep periodBetweenLoop;
     ConnWrite "1700000000,04a1b2c3d4e580,true,system:snes"].
Proof. vm_compute. split; reflexivity. Qed.

(** [SpecCodec.TrimSpace] strips Unicode white space as well: a
    no-break space before the command and a line feed and an em space
    after it. *)
Example status_command_trimmed :
  let nbsp := String (ascii_of_nat 194) (String (ascii_of_nat 160) "") in
  let emsp := String (ascii_of_nat 226) (String (ascii_of_nat 128)
                (String (ascii_of_nat 131) "")) in
  let lf := String (ascii_of_nat 10) "" in
  SpecCodec.TrimSpace (nbsp ++ " status" ++ lf ++ emsp)%string = "status" /\
  snd (handleConn (ReadBytes (nbsp ++ " status" ++ lf ++ emsp)%string)
                  (holding emptyCard true)) = [ConnWrite "0,,false,"].
Proof. vm_compute. split; reflexivity. Qed.

End MoreRuns.
